(** * Calendar utilities of core-js-dates-tasks.js

    A shallow embedding of the functions of [src/core-js-dates-tasks.js]
    over a model of the ECMAScript [Date] object.

    Numbers.  Every JavaScript number that these functions handle is either
    an integer far below 2^53 (time values are bounded by 8.64e15, and the
    functions add at most a few days to them) or NaN, so a number is an
    [option Z] with [None] for NaN.

    Dates.  A [Date] object is its time value: milliseconds since the epoch,
    or NaN for an Invalid Date.  The abstract operations [Day], [WeekDay],
    [YearFromTime], [MonthFromTime], [DateFromTime], [MakeDay], [MakeDate],
    [TimeClip] follow the ECMAScript specification (section "Date Objects").

    Fractions.  Where the source divides a difference of time values by the
    length of a day ([diff / 1000 / 3600 / 24]) the quotient need not be an
    integer; it is a rational number ([Q]).  The double-precision quotient
    differs from it by rounding in the last places only, far less than the
    distance of a non-integral quotient from the next integer (1/86400000),
    so rounding down or up, the remainder's being zero and the comparisons
    of the source come out the same.

    Local time.  A time zone gives the offset of local time from UTC at each
    instant ([LocalTZA] of the specification), so that clock changes such as
    daylight saving are within the model.  A host without clock changes is
    [fixedZone tza]; an integer used as a time zone stands for this zone.
    Two zones with daylight saving are given by their transitions.

    The file has the definitions first: numbers, strings, time values, the
    Date object, the functions of the source in the order of the source, the
    reference definitions that follow the wording of the specification, and
    the auxiliary definitions of the proofs.  The lemmas and theorems
    follow. *)

From Stdlib Require Import ZArith QArith Qround Lia List String Ascii Bool.
From Stdlib Require Import Decimal DecimalString DecimalPos DecimalZ.
Import ListNotations.

#[local] Open Scope Z_scope.

(** ** Numbers *)

Definition number := option Z.
Definition NaN : number := None.

Definition bind {A B : Type} (x : option A) (f : A -> option B) : option B :=
  match x with
  | Some a => f a
  | None => None
  end.

Notation "x <- e ;; k" := (bind e (fun x => k))
  (at level 61, e at next level, right associativity).

(** Arithmetic propagates NaN; every comparison with NaN is false, and so is
    [===]; [!==] is its negation. *)

Definition num_lift2 (f : Z -> Z -> Z) (a b : number) : number :=
  x <- a ;; y <- b ;; Some (f x y).

Definition num_add : number -> number -> number := num_lift2 Z.add.
Definition num_sub : number -> number -> number := num_lift2 Z.sub.
Definition num_mul : number -> number -> number := num_lift2 Z.mul.
(** [%] takes the sign of the dividend; a zero divisor gives NaN. *)
Definition num_rem (a b : number) : number :=
  x <- a ;; y <- b ;; if y =? 0 then NaN else Some (Z.rem x y).
Definition num_abs (a : number) : number := x <- a ;; Some (Z.abs x).

Definition num_cmp (f : Z -> Z -> bool) (a b : number) : bool :=
  match a, b with
  | Some x, Some y => f x y
  | _, _ => false
  end.

Definition num_lt : number -> number -> bool := num_cmp Z.ltb.
Definition num_le : number -> number -> bool := num_cmp Z.leb.
Definition num_gt : number -> number -> bool := num_cmp Z.gtb.
Definition num_ge : number -> number -> bool := num_cmp Z.geb.
Definition num_eq : number -> number -> bool := num_cmp Z.eqb.
Definition num_neq (a b : number) : bool := negb (num_eq a b).

Declare Scope num_scope.
Delimit Scope num_scope with num.
Notation "# z" := (@Some Z z) (at level 5, format "# z").
Infix "+" := num_add : num_scope.
Infix "-" := num_sub : num_scope.
Infix "*" := num_mul : num_scope.
Infix "%" := num_rem (at level 40, left associativity) : num_scope.
Infix "<?" := num_lt : num_scope.
Infix "<=?" := num_le : num_scope.
Infix ">?" := num_gt : num_scope.
Infix ">=?" := num_ge : num_scope.
Infix "===" := num_eq (at level 70, no associativity) : num_scope.
Infix "!==" := num_neq (at level 70, no associativity) : num_scope.

(** Numbers that need not be whole are rational.  [Qtrunc] drops the
    fraction, as the conversion of a number to an integer does, and [Qrem] is
    [%] by a whole number: the remainder has the sign of the dividend. *)
Definition Qtrunc (q : Q) : Z :=
  if Qle_bool 0 q then Qfloor q else Qceiling q.

Definition Qrem (q : Q) (d : Z) : Q :=
  (q - inject_Z (d * Qtrunc (q / inject_Z d)))%Q.

(** A number that need not be whole, or NaN. *)
Definition fraction := option Q.

Definition frac_add (a b : fraction) : fraction :=
  x <- a ;; y <- b ;; Some (x + y)%Q.

(** The number [x] is the whole number [n]; NaN is NaN. *)
Definition wholeNumber (x : fraction) (n : number) : Prop :=
  match x, n with
  | Some q, Some z => (q == inject_Z z)%Q
  | None, None => True
  | _, _ => False
  end.

(** The values [0, 1, ..., n-1] of a counting loop
    [for (i = 0; i < n; i += 1)]. *)
Definition upto (n : Z) : list Z := map Z.of_nat (seq 0 (Z.to_nat n)).

(** ** Strings *)

#[local] Open Scope string_scope.

(** [Number.prototype.toString] on the numbers of this model. *)
Definition toString (n : number) : string :=
  match n with
  | Some z => NilZero.string_of_int (Z.to_int z)
  | None => "NaN"
  end.

Fixpoint zeros (n : nat) : string :=
  match n with
  | O => ""
  | S n' => String "0" (zeros n')
  end.

(** [s.padStart(targetLength, '0')] *)
Definition padStart (targetLength : nat) (s : string) : string :=
  zeros (targetLength - String.length s) ++ s.

(** [s.split(sep)] for a separator of one character. *)
Fixpoint split (sep : ascii) (s : string) : list string :=
  match s with
  | EmptyString => [EmptyString]
  | String c s' =>
      if Ascii.eqb c sep then EmptyString :: split sep s'
      else match split sep s' with
           | x :: r => String c x :: r
           | [] => [String c EmptyString]
           end
  end.

(** [ToNumber] of a string, for the strings that the fields of a
    ['DD-MM-YYYY'] date can be: a sequence of decimal digits is its value, the
    empty string is 0.  Everything else is NaN here (the other literal forms
    of JavaScript, such as ['1e3'], [' 7'] or ['0x1f'], are left out: no field
    of digits has them). *)
Definition StringToNumber (s : string) : number :=
  option_map Z.of_uint (NilEmpty.uint_of_string s).

(** [ToNumber(arr[k])]: a missing element is [undefined], which is NaN. *)
Definition componentToNumber (arr : list string) (k : nat) : number :=
  match nth_error arr k with
  | Some s => StringToNumber s
  | None => NaN
  end.

#[local] Close Scope string_scope.

(** ** ECMAScript time values *)

Definition msPerSecond : Z := 1000.
Definition msPerMinute : Z := 60000.
Definition msPerHour : Z := 3600000.
Definition msPerDay : Z := 86400000.

(** The largest time value, 8.64e15: 100,000,000 days on each side of the
    epoch. *)
Definition maxTime : Z := 8640000000000000.

Definition Day (t : Z) : Z := t / msPerDay.
Definition TimeWithinDay (t : Z) : Z := t mod msPerDay.

Definition isLeap (y : Z) : bool :=
  (y mod 4 =? 0) && (negb (y mod 100 =? 0) || (y mod 400 =? 0)).

Definition DaysInYear (y : Z) : Z := if isLeap y then 366 else 365.

Definition DayFromYear (y : Z) : Z :=
  365 * (y - 1970) + (y - 1969) / 4 - (y - 1901) / 100 + (y - 1601) / 400.

Definition TimeFromYear (y : Z) : Z := msPerDay * DayFromYear y.

(** [YearFromTime t] is the largest [y] with [TimeFromYear y <= t].  It is
    computed from the mean year length (146097 days in 400 years) with one
    step of adjustment; [YearFromDay_spec] below shows that this is the year
    the specification asks for. *)
Definition YearFromDay (d : Z) : Z :=
  let y := 1970 + (d * 400) / 146097 in
  if d <? DayFromYear y then y - 1
  else if DayFromYear (y + 1) <=? d then y + 1
  else y.

Definition YearFromTime (t : Z) : Z := YearFromDay (Day t).

Definition InLeapYear (t : Z) : Z :=
  if isLeap (YearFromTime t) then 1 else 0.

Definition DayWithinYear (t : Z) : Z := Day t - DayFromYear (YearFromTime t).

(** Day of the year on which month [m] (0 = January) starts, [leap] being 0
    or 1.  Month 12 gives the length of the year. *)
Definition monthStart (leap m : Z) : Z :=
  match m with
  | 0 => 0
  | 1 => 31
  | 2 => 59 + leap
  | 3 => 90 + leap
  | 4 => 120 + leap
  | 5 => 151 + leap
  | 6 => 181 + leap
  | 7 => 212 + leap
  | 8 => 243 + leap
  | 9 => 273 + leap
  | 10 => 304 + leap
  | 11 => 334 + leap
  | _ => 365 + leap
  end.

Definition monthOfYearDay (leap d : Z) : Z :=
  if d <? 31 then 0
  else if d <? 59 + leap then 1
  else if d <? 90 + leap then 2
  else if d <? 120 + leap then 3
  else if d <? 151 + leap then 4
  else if d <? 181 + leap then 5
  else if d <? 212 + leap then 6
  else if d <? 243 + leap then 7
  else if d <? 273 + leap then 8
  else if d <? 304 + leap then 9
  else if d <? 334 + leap then 10
  else 11.

Definition MonthFromTime (t : Z) : Z :=
  monthOfYearDay (InLeapYear t) (DayWithinYear t).

Definition DateFromTime (t : Z) : Z :=
  DayWithinYear t - monthStart (InLeapYear t) (MonthFromTime t) + 1.

Definition WeekDay (t : Z) : Z := (Day t + 4) mod 7.

Definition HourFromTime (t : Z) : Z := (t / msPerHour) mod 24.
Definition MinFromTime (t : Z) : Z := (t / msPerMinute) mod 60.
Definition SecFromTime (t : Z) : Z := (t / msPerSecond) mod 60.

Definition MakeTime (hour min sec ms : Z) : Z :=
  hour * msPerHour + min * msPerMinute + sec * msPerSecond + ms.

(** [MakeDay year month date]: the day number of the first day of the month
    (months beyond 0..11 carry into the year), plus [date - 1]. *)
Definition MakeDay (year month date : Z) : Z :=
  let ym := year + month / 12 in
  let mn := month mod 12 in
  DayFromYear ym + monthStart (if isLeap ym then 1 else 0) mn + date - 1.

Definition MakeDate (day time : Z) : Z := day * msPerDay + time.

Definition TimeClip (t : Z) : number :=
  if Z.abs t <=? maxTime then Some t else NaN.

(** A valid date is a time value within 8.64e15 ms of the epoch. *)
Definition validTime (t : Z) : Prop := - maxTime <= t <= maxTime.

(** Year, month (0 = January) and day of the month of a day number (days
    since the epoch). *)
Definition yearOfDay (d : Z) : Z := YearFromTime (d * msPerDay).
Definition monthOfDay (d : Z) : Z := MonthFromTime (d * msPerDay).
Definition dateOfDay (d : Z) : Z := DateFromTime (d * msPerDay).

(** Weekday of a day number: 0 is Sunday. *)
Definition weekdayOfDay (d : Z) : Z := (d + 4) mod 7.

(** ** The Date object *)

(** A Date is its time value; [NaN] is the Invalid Date. *)
Definition Date := number.

(** [new Date(value)] for a number, and [new Date(date)] for a Date, whose
    time value is copied. *)
Definition newDate (value : number) : Date := t <- value ;; TimeClip t.

(** [date.getTime()], as distinct from the function [getTime] of the
    source, which prints the time of day. *)
Definition Date_getTime (date : Date) : number := date.

(** The year that [new Date(year, ...)] means: 0..99 stand for 1900..1999. *)
Definition effectiveYear (y : Z) : Z :=
  if (0 <=? y) && (y <=? 99) then 1900 + y else y.

(** Years that [new Date(year, ...)] takes at face value. *)
Definition faceValueYear (y : Z) : Prop := y < 0 \/ 99 < y.

(** Years all of whose days are valid dates in every time zone less than a
    day away from UTC. *)
Definition representableYear (y : Z) : Prop := -271820 <= y <= 275759.

(** *** The local time zone

    [LocalTZA tz t isUTC] is the offset of local time from UTC in
    milliseconds: at the time value [t] when [isUTC] is true, and for the
    local time [t] when it is false. *)
Record TimeZone := { LocalTZA : Z -> bool -> Z }.

Definition LocalTime (tz : TimeZone) (t : Z) : Z := t + LocalTZA tz t true.
Definition UTC (tz : TimeZone) (t : Z) : Z := t - LocalTZA tz t false.

(** Every zone in use is less than a day away from UTC. *)
Definition zoneWithinADay (tz : TimeZone) : Prop :=
  forall (t : Z) (isUTC : bool), - msPerDay <= LocalTZA tz t isUTC <= msPerDay.

(** The zone of a host whose clocks never change: local time is UTC plus
    [tza] milliseconds throughout.  An integer where a time zone is expected
    stands for this zone. *)
Definition fixedZone (tza : Z) : TimeZone := {| LocalTZA := fun _ _ => tza |}.
Coercion fixedZone : Z >-> TimeZone.

(** A zone with clock changes: its offset before the first transition and
    the list of its transitions, each the time value of the change and the
    offset from then on, in increasing order of time. *)
Fixpoint offsetAt (initial : Z) (transitions : list (Z * Z)) (t : Z) : Z :=
  match transitions with
  | [] => initial
  | (change, offset) :: rest =>
      if t <? change then initial else offsetAt offset rest t
  end.

(** The offset for a local time.  A local time that the clocks show twice
    (they were set back) is the earlier of the two instants, and a local time
    that they skip (they were set forward) is read with the offset before the
    change, as the specification has it.  Transitions are taken to be more
    than two days apart. *)
Definition offsetOfLocal (offsetOfTime : Z -> Z) (t : Z) : Z :=
  let before := offsetOfTime (t - msPerDay) in
  let after := offsetOfTime (t + msPerDay) in
  if offsetOfTime (t - before) =? before then before
  else if offsetOfTime (t - after) =? after then after
  else before.

Definition zoneOfTransitions (initial : Z) (transitions : list (Z * Z)) : TimeZone :=
  {| LocalTZA := fun t isUTC =>
       if isUTC then offsetAt initial transitions t
       else offsetOfLocal (offsetAt initial transitions) t |}.

(** Time value of [hour] o'clock UTC on the calendar day [date] of [month]
    (1 = January) of [year]. *)
Definition utcTime (year month date hour : Z) : Z :=
  MakeDate (MakeDay year (month - 1) date) (MakeTime hour 0 0 0).

(** New York from 2024 to 2026: Eastern Standard Time, five hours behind
    UTC, and daylight time, four hours behind, from the second Sunday of March
    to the first Sunday of November; the clocks change at 2 o'clock local
    time. *)
Definition America_New_York : TimeZone :=
  zoneOfTransitions (-5 * msPerHour)
    [ (utcTime 2024 3 10 7, -4 * msPerHour); (utcTime 2024 11 3 6, -5 * msPerHour);
      (utcTime 2025 3 9 7, -4 * msPerHour); (utcTime 2025 11 2 6, -5 * msPerHour);
      (utcTime 2026 3 8 7, -4 * msPerHour); (utcTime 2026 11 1 6, -5 * msPerHour) ].

(** Sao Paulo from March 1999 to October 2002: three hours behind UTC, and
    two hours behind in the southern summer, from 3 October 1999 to
    27 February 2000, from 8 October 2000 to 18 February 2001 and from
    14 October 2001 to 17 February 2002; the clocks change at midnight local
    time. *)
Definition America_Sao_Paulo : TimeZone :=
  zoneOfTransitions (-3 * msPerHour)
    [ (utcTime 1999 10 3 3, -2 * msPerHour); (utcTime 2000 2 27 2, -3 * msPerHour);
      (utcTime 2000 10 8 3, -2 * msPerHour); (utcTime 2001 2 18 2, -3 * msPerHour);
      (utcTime 2001 10 14 3, -2 * msPerHour); (utcTime 2002 2 17 2, -3 * msPerHour) ].

Section LocalTimeZone.

(** The time zone of the host. *)
Variable tz : TimeZone.

(** [new Date(year, month, date)]: the fields are local time, a year in
    0..99 stands for 1900..1999, hours to milliseconds are 0. *)
Definition newDateYMD (year month date : number) : Date :=
  y <- year ;; m <- month ;; dt <- date ;;
  let yr := if (0 <=? y) && (y <=? 99) then 1900 + y else y in
  TimeClip (UTC tz (MakeDate (MakeDay yr m dt) (MakeTime 0 0 0 0))).

Definition getDay (date : Date) : number :=
  t <- date ;; Some (WeekDay (LocalTime tz t)).
Definition getDate (date : Date) : number :=
  t <- date ;; Some (DateFromTime (LocalTime tz t)).
Definition getMonth (date : Date) : number :=
  t <- date ;; Some (MonthFromTime (LocalTime tz t)).
Definition getFullYear (date : Date) : number :=
  t <- date ;; Some (YearFromTime (LocalTime tz t)).

End LocalTimeZone.

(** *** Intl.DateTimeFormat

    [new Intl.DateTimeFormat(locales, options)] resolves the requested locale
    against the locales the host has data for, and falls back on the host's
    default locale when it has none for the tag.  The data of the resolved
    locale give the order of the fields, the literals between them, the hour
    cycle and the names of the two halves of the day; the options give the
    style of each field, unless the pattern of the locale fixes it, and the
    time zone whose fields are shown.  Formatting an Invalid Date throws a
    RangeError: [None]. *)

#[local] Open Scope string_scope.

(** ['numeric'] and ['2-digit'] *)
Inductive Style := numeric | twoDigit.

(** The options that the source sets; [None] is a property left out. *)
Record Options := {
  optMonth : option Style;
  optDay : option Style;
  optYear : option Style;
  optHour : option Style;
  optMinute : option Style;
  optSecond : option Style;
  optTimeZone : option string
}.

Inductive Field := Year | Month | DayOfMonth | Hour | Minute | Second | DayPeriod.

(** A part of a pattern: a literal, or a field, with the style that the
    locale fixes for it, if any. *)
Inductive Part :=
| Literal (s : string)
| Component (f : Field) (fixedStyle : option Style).

Inductive HourCycle := h12 | h23.

Record LocaleData := {
  pattern : list Part;
  hourCycle : HourCycle;
  am : string;
  pm : string
}.

(** American English, [M/d/y, h:mm:ss a]. *)
Definition en_US : LocaleData :=
  {| pattern :=
       [ Component Month None; Literal "/"; Component DayOfMonth None; Literal "/";
         Component Year None; Literal ", "; Component Hour None; Literal ":";
         Component Minute None; Literal ":"; Component Second None; Literal " ";
         Component DayPeriod None ];
     hourCycle := h12; am := "AM"; pm := "PM" |}.

(** German, [d.M.y, HH:mm:ss]: the hour has two digits on the 24-hour clock,
    and the half of the day is not shown. *)
Definition de_DE : LocaleData :=
  {| pattern :=
       [ Component DayOfMonth None; Literal "."; Component Month None; Literal ".";
         Component Year None; Literal ", "; Component Hour (Some twoDigit);
         Literal ":"; Component Minute None; Literal ":"; Component Second None ];
     hourCycle := h23; am := "AM"; pm := "PM" |}.

(** The locales with data here.  ['default'] is the name of no locale. *)
Definition localeData (tag : string) : option LocaleData :=
  if String.eqb tag "en-US" then Some en_US
  else if String.eqb tag "de-DE" then Some de_DE
  else None.

(** A host: its default locale. *)
Record Host := { defaultLocale : string }.

Definition resolveLocale (host : Host) (locales : string) : option LocaleData :=
  match localeData locales with
  | Some data => Some data
  | None => localeData (defaultLocale host)
  end.

(** The time zones with a name here: UTC, the one name in the source. *)
Definition zoneOfName (name : string) : option TimeZone :=
  if String.eqb name "UTC" then Some (fixedZone 0) else None.

Record DateTimeFormat := {
  dtfLocale : option LocaleData;
  dtfOptions : Options
}.

Definition newDateTimeFormat (host : Host) (locales : string) (options : Options)
  : DateTimeFormat :=
  {| dtfLocale := resolveLocale host locales; dtfOptions := options |}.

Definition formatNumeric (n : Z) : string := toString #n.
Definition format2Digit (n : Z) : string := padStart 2 (toString #(n mod 100)).

Definition formatStyle (style : Style) (n : Z) : string :=
  match style with
  | numeric => formatNumeric n
  | twoDigit => format2Digit n
  end.

Definition hour12 (hour : Z) : Z :=
  if (hour mod 12 =? 0)%Z then 12 else hour mod 12.

Definition dayPeriod (data : LocaleData) (hour : Z) : string :=
  if (hour <? 12)%Z then am data else pm data.

(** The year of the era: the year 0 is the year 1 before the era. *)
Definition eraYear (year : Z) : Z :=
  if (0 <? year)%Z then year else 1 - year.

Definition fieldOption (options : Options) (f : Field) : option Style :=
  match f with
  | Year => optYear options
  | Month => optMonth options
  | DayOfMonth => optDay options
  | Hour => optHour options
  | Minute => optMinute options
  | Second => optSecond options
  | DayPeriod => optHour options
  end.

(** The number that a field shows of the local time [t]. *)
Definition fieldValue (data : LocaleData) (f : Field) (t : Z) : Z :=
  match f with
  | Year => eraYear (YearFromTime t)
  | Month => MonthFromTime t + 1
  | DayOfMonth => DateFromTime t
  | Hour =>
      match hourCycle data with
      | h12 => hour12 (HourFromTime t)
      | h23 => HourFromTime t
      end
  | Minute => MinFromTime t
  | Second => SecFromTime t
  | DayPeriod => HourFromTime t
  end.

(** A field that the options leave out is not shown. *)
Definition formatPart (data : LocaleData) (options : Options) (t : Z) (p : Part)
  : string :=
  match p with
  | Literal s => s
  | Component f fixedStyle =>
      match fieldOption options f with
      | None => ""
      | Some style =>
          match f with
          | DayPeriod => dayPeriod data (HourFromTime t)
          | _ =>
              formatStyle (match fixedStyle with Some st => st | None => style end)
                          (fieldValue data f t)
          end
      end
  end.

Section Formatter.

(** The time zone of the host, for a formatter without the option
    [timeZone]. *)
Variable tz : TimeZone.

Definition DateTimeFormat_format (dtf : DateTimeFormat) (x : Date) : option string :=
  t <- x ;;
  data <- dtfLocale dtf ;;
  zone <- match optTimeZone (dtfOptions dtf) with
          | Some name => zoneOfName name
          | None => Some tz
          end ;;
  Some (concat "" (map (formatPart data (dtfOptions dtf) (LocalTime zone t))
                       (pattern data))).

End Formatter.

#[local] Close Scope string_scope.

(** ** The functions of the source *)

Section Functions.

(** The time zone and the default locale of the host. *)
Variable tz : TimeZone.
Variable host : Host.

(** [Date.parse], which is implementation-defined beyond the ISO format. *)
Variable Date_parse : string -> number.

(** [new Date(string)] *)
Definition newDateString (s : string) : Date := newDate (Date_parse s).

(** *** getNextFriday *)

Definition getNextFriday (date : Date) : Date :=
  let millisecondsPerDay := #(1000 * 60 * 60 * 24) in
  let day := getDay tz date in
  let diff := (#5 - day)%num in
  let resultDate :=
    if (diff >? #0)%num
    then (Date_getTime date + diff * millisecondsPerDay)%num
    else (Date_getTime date + (#7 - num_abs diff) * millisecondsPerDay)%num in
  newDate resultDate.

(** *** getCountDaysInMonth

    The quotient [diff / 1000 / 3600 / 24] is a rational number: a whole
    number when the two local midnights are whole days apart, and a fraction
    when the clocks change in between. *)

Definition getCountDaysInMonth (month year : Z) : fraction :=
  let date1 := newDateYMD tz #year #(month - 1) #1 in
  let date2 := newDateYMD tz #year #month #1 in
  diff <- (date2 - date1)%num ;;
  let days := (inject_Z diff / 1000 / 3600 / 24)%Q in
  Some days.

(** *** formatDate *)

Definition formatDate (date : string) : option string :=
  let givenDate := newDateString date in
  let options :=
    {| optMonth := Some numeric;
       optDay := Some numeric;
       optYear := Some numeric;
       optHour := Some numeric;
       optMinute := Some twoDigit;
       optSecond := Some twoDigit;
       optTimeZone := Some "UTC"%string |} in
  DateTimeFormat_format tz (newDateTimeFormat host "default" options) givenDate.

(** *** getCountWeekendsInMonth

    [daysInMonth] is a rational number, as in [getCountDaysInMonth].
    [Math.floor] is [Qfloor]; the remainder [%] has the sign of the dividend;
    the Date constructor drops the fraction of [daysInMonth]; the loop
    [for (i = 0; i < restDays; i += 1)] runs for the whole numbers below
    [restDays].

    When [diff] is NaN so is every number derived from it: the branch
    [restDays !== 0] is taken, its loop does not run, and the result is NaN,
    which is what the [bind] on [diff] gives. *)

Definition getCountWeekendsInMonth (month year : Z) : number :=
  let date1 := newDateYMD tz #year #(month - 1) #1 in
  let date2 := newDateYMD tz #year #month #1 in
  diff <- (date2 - date1)%num ;;
  let daysInMonth := (inject_Z diff / 1000 / 3600 / 24)%Q in
  let fullWeeks := Qfloor (daysInMonth / 7) in
  let weekends := fullWeeks * 2 in
  let restDays := Qrem daysInMonth 7 in
  if negb (Qeq_bool restDays 0) then
    let lastDay := newDateYMD tz #year #(month - 1) #(Qtrunc daysInMonth) in
    let weekdayOfLastDayMonth := getDay tz lastDay in
    let listOfDays :=
      map (fun i =>
             if (weekdayOfLastDayMonth - #i >=? #0)%num
             then (weekdayOfLastDayMonth - #i)%num
             else (#7 + (weekdayOfLastDayMonth - #i))%num)
          (upto (Qceiling restDays)) in
    Some (weekends
          + Z.of_nat (List.length (filter (fun el => (el === #0)%num || (el === #6)%num)
                                     listOfDays)))
  else Some weekends.

(** *** getWeekNumberByDate *)

(** The loop [for (i = 1; i <= 7; i += 1)] with its [break]: [n] iterations
    are left, [cur] is the value of [firstDayOfYear]. *)
Fixpoint firstMondayLoop (year : number) (n : nat) (i : Z) (cur : Date) : Date :=
  match n with
  | O => cur
  | S n' =>
      let firstDayOfYear := newDateYMD tz year #0 #(i + 1) in
      if (getDay tz firstDayOfYear === #1)%num then firstDayOfYear
      else firstMondayLoop year n' (i + 1) firstDayOfYear
  end.

(** [Math.ceil((diff / 1000 / 3600 / 24 + 1) / 7)] over the rationals.  The
    double-precision value has the same ceiling: it is within 1e-13 of the
    exact quotient [(diff + 86400000) / 604800000], which is either an
    integer, and then every intermediate result is an integer and exact, or at
    least 1e-9 away from one. *)
Definition weeksOfDiff (diff : Z) : Z :=
  Qceiling ((inject_Z diff / 1000 / 3600 / 24 + 1) / 7)%Q.

Definition getWeekNumberByDate (date : Date) : number :=
  let year := getFullYear tz (newDate date) in
  let firstDayOfYear := newDateYMD tz year #0 #1 in
  let firstDayOfYear :=
    if (getDay tz firstDayOfYear <? #1)%num || (getDay tz firstDayOfYear >? #4)%num
    then firstMondayLoop year 7 1 firstDayOfYear
    else firstDayOfYear in
  let givenDate := Date_getTime date in
  let diff := (givenDate - Date_getTime firstDayOfYear)%num in
  if (diff <=? #0)%num then #1%num
  else d <- diff ;; Some (weeksOfDiff d).

(** *** getNextFridayThe13th

    The source recurses without a bound; [fuel] bounds the number of calls,
    and [None] says that the recursion is still going after [fuel] calls. *)

Fixpoint getNextFridayThe13th (fuel : nat) (date : Date) : option Date :=
  match fuel with
  | O => None
  | S fuel' =>
      let millisecondsPerDay := #(1000 * 60 * 60 * 24) in
      let day := getDay tz date in
      let diff := (#5 - day)%num in
      let resultDate :=
        if (diff >? #0)%num
        then (Date_getTime date + diff * millisecondsPerDay)%num
        else (Date_getTime date + (#7 - num_abs diff) * millisecondsPerDay)%num in
      if (getDate tz (newDate resultDate) === #13)%num
      then Some (newDate resultDate)
      else getNextFridayThe13th fuel' (newDate resultDate)
  end.

(** *** getQuarter *)

Definition getQuarter (date : Date) : Z :=
  let month := getMonth tz date in
  let quarter := 0 in
  let quarter := if (month >=? #0)%num && (month <=? #2)%num then 1 else quarter in
  let quarter := if (month >=? #3)%num && (month <=? #5)%num then 2 else quarter in
  let quarter := if (month >=? #6)%num && (month <=? #8)%num then 3 else quarter in
  let quarter := if (month >=? #9)%num && (month <=? #11)%num then 4 else quarter in
  quarter.

(** *** getWorkSchedule *)

(** The [while] loop that fills [listOfDates].  It ends when [day] passes
    [endDate]; [fuel] bounds the number of iterations, and [listOfDates]
    below supplies as many as the loop can need. *)
Fixpoint listOfDatesLoop (fuel : nat) (oneDay : Z) (day endDate : Date) : list Date :=
  match fuel with
  | O => []
  | S fuel' =>
      if (Date_getTime day <=? Date_getTime endDate)%num
      then day :: listOfDatesLoop fuel' oneDay
                    (newDate (Date_getTime day + #oneDay)%num) endDate
      else []
  end.

Definition listOfDatesFuel (oneDay : Z) (startDate endDate : Date) : nat :=
  match startDate, endDate with
  | Some s, Some e => Z.to_nat ((e - s) / oneDay + 1)
  | _, _ => O
  end.

Definition listOfDates (oneDay : Z) (startDate endDate : Date) : list Date :=
  listOfDatesLoop (listOfDatesFuel oneDay startDate endDate) oneDay startDate endDate.

(** [arr.filter((el, index) => ...)] *)
Fixpoint filterIndex {A : Type} (f : A -> nat -> bool) (index : nat) (l : list A)
  : list A :=
  match l with
  | [] => []
  | x :: r =>
      if f x index then x :: filterIndex f (S index) r
      else filterIndex f (S index) r
  end.

(** [arr[k] === 0], where a missing element is [undefined]. *)
Definition elementIsZero (arr : list Z) (k : option nat) : bool :=
  match k with
  | Some k' =>
      match nth_error arr k' with
      | Some 0 => true
      | _ => false
      end
  | None => false
  end.

(** [index % length]: NaN for an empty array. *)
Definition indexMod (index len : nat) : option nat :=
  match len with
  | O => None
  | _ => Some (index mod len)%nat
  end.

Definition getWorkSchedule (periodStart periodEnd : string)
    (countWorkDays countOffDays : Z) : list string :=
  let startDateComponents := split "-" periodStart in
  let startDate :=
    newDateYMD tz (componentToNumber startDateComponents 2)
      (componentToNumber startDateComponents 1 - #1)%num
      (componentToNumber startDateComponents 0) in
  let endDateComponents := split "-" periodEnd in
  let endDate :=
    newDateYMD tz (componentToNumber endDateComponents 2)
      (componentToNumber endDateComponents 1 - #1)%num
      (componentToNumber endDateComponents 0) in
  let oneDay := 1000 * 60 * 60 * 24 in
  let listOfDates := listOfDates oneDay startDate endDate in
  let arrayOfSchedule :=
    repeat 1 (Z.to_nat countWorkDays) ++ repeat 0 (Z.to_nat countOffDays) in
  let len := List.length arrayOfSchedule in
  map (fun date =>
         (padStart 2 (toString (getDate tz date)) ++ "-"
          ++ padStart 2 (toString (getMonth tz date + #1)%num) ++ "-"
          ++ toString (getFullYear tz date))%string)
      (filterIndex
         (fun (date : Date) index =>
            if (index <? len)%nat then
              if elementIsZero arrayOfSchedule (Some index) then false else true
            else if (len <=? index)%nat then
              if elementIsZero arrayOfSchedule (indexMod index len) then false
              else true
            else true)
         O listOfDates).

(** *** isLeapYear *)

Definition isLeapYear (date : Date) : bool :=
  let year := getFullYear tz date in
  if (year % #400 === #0)%num || ((year % #4 === #0)%num && (year % #100 !== #0)%num)
  then true
  else false.

End Functions.

(** ** The other functions of the source *)

Section OtherFunctions.

Variable tz : TimeZone.
Variable Date_parse : string -> number.

Definition getHours (date : Date) : number :=
  t <- date ;; Some (HourFromTime (LocalTime tz t)).
Definition getMinutes (date : Date) : number :=
  t <- date ;; Some (MinFromTime (LocalTime tz t)).
Definition getSeconds (date : Date) : number :=
  t <- date ;; Some (SecFromTime (LocalTime tz t)).

(** *** dateToTimestamp

    The difference of two Dates is the difference of their time values. *)

Definition dateToTimestamp (date : string) : number :=
  (newDateString Date_parse date
   - newDateString Date_parse "01 Jan 1970 00:00:00 UTC")%num.

(** *** getTime *)

Definition getTime (date : Date) : string :=
  let hours := getHours date in
  let minutes := getMinutes date in
  let seconds := getSeconds date in
  (padStart 2 (toString hours) ++ ":" ++ padStart 2 (toString minutes) ++ ":"
   ++ padStart 2 (toString seconds))%string.

(** *** getDayName

    The [switch] compares with [===], so NaN falls to [default]. *)

Definition getDayName (date : string) : string :=
  let day := getDay tz (newDateString Date_parse date) in
  let dayName := ""%string in
  match day with
  | Some 0 => "Sunday"
  | Some 1 => "Monday"
  | Some 2 => "Tuesday"
  | Some 3 => "Wednesday"
  | Some 4 => "Thursday"
  | Some 5 => "Friday"
  | Some 6 => "Saturday"
  | _ => dayName
  end%string.

(** *** getCountDaysOnPeriod

    [diff / 1000 / 3600 / 24 + 1] over the rationals.  When [diff] is a whole
    number of days every quotient is an integer and the double-precision
    result is this very number; otherwise the double-precision result is the
    nearest double to it, up to rounding in the last places. *)

Definition getCountDaysOnPeriod (dateStart dateEnd : string) : option Q :=
  diff <- (newDateString Date_parse dateEnd - newDateString Date_parse dateStart)%num ;;
  let days := (inject_Z diff / 1000 / 3600 / 24)%Q in
  Some (days + 1)%Q.

(** *** isDateInPeriod

    The period is given by the strings of its fields [start] and [end].  A
    Date compared with a number is compared by its time value. *)

Definition isDateInPeriod (date periodStart periodEnd : string) : bool :=
  let timeEnd := Date_getTime (newDateString Date_parse periodEnd) in
  let timeStart := Date_getTime (newDateString Date_parse periodStart) in
  let givenDate := newDateString Date_parse date in
  (givenDate >=? timeStart)%num && (givenDate <=? timeEnd)%num.

End OtherFunctions.

(** ** Reference definitions, after the wording of the specification *)

Definition isWeekendDay (d : Z) : bool :=
  (weekdayOfDay d =? 0) || (weekdayOfDay d =? 6).

(** Length of month [month] (1 = January) of [year], from the table. *)
Definition daysOfMonth (month year : Z) : Z :=
  match month with
  | 2 => if isLeap year then 29 else 28
  | 4 | 6 | 9 | 11 => 30
  | _ => 31
  end.

(** Day number of the calendar day [date] of month [month] (1 = January) of
    [year]. *)
Definition civilDay (year month date : Z) : Z :=
  DayFromYear year + monthStart (if isLeap year then 1 else 0) (month - 1) + date - 1.

(** The brute-force count: every day of the month is visited, the
    Saturdays and Sundays are counted. *)
Definition bruteForceWeekends (month year : Z) : Z :=
  Z.of_nat
    (List.length
       (filter (fun i => isWeekendDay (civilDay year month (i + 1)))
               (upto (daysOfMonth month year)))).

(** ISO 8601 week number of a day number.  Weeks start on Monday; a week
    belongs to the year that holds its Thursday; week 1 of a year is the week
    of the first Thursday of that year. *)
Definition mondayIndex (d : Z) : Z := (weekdayOfDay d + 6) mod 7.
Definition thursdayOfWeek (d : Z) : Z := d - mondayIndex d + 3.
Definition firstThursday (year : Z) : Z :=
  DayFromYear year + (4 - weekdayOfDay (DayFromYear year)) mod 7.
Definition weekOneStart (year : Z) : Z := firstThursday year - 3.
Definition isoWeekNumber (d : Z) : Z :=
  (d - weekOneStart (YearFromDay (thursdayOfWeek d))) / 7 + 1.

(** The leap-year rule in the words of the specification. *)
Definition leapRule (y : Z) : bool :=
  (Z.rem y 400 =? 0) || ((Z.rem y 4 =? 0) && negb (Z.rem y 100 =? 0)).

#[local] Open Scope string_scope.

(** ['DD-MM-YYYY'] of day [d] of month [m] of year [y]. *)
Definition dmyString (d m y : Z) : string :=
  padStart 2 (toString #d) ++ "-" ++ padStart 2 (toString #m) ++ "-"
  ++ padStart 4 (toString #y).

(** ['DD-MM-YYYY'] of a day number. *)
Definition formatDayNumber (d : Z) : string :=
  dmyString (dateOfDay d) (monthOfDay d + 1) (yearOfDay d).

(** The schedule in the words of the specification: every day from the
    first to the last, kept when its offset from the first, modulo
    [workDays + offDays], is below [workDays]. *)
Definition scheduleOfPeriod (firstDay lastDay workDays offDays : Z) : list string :=
  map formatDayNumber
      (filter (fun d => ((d - firstDay) mod (workDays + offDays) <? workDays)%Z)
              (map (Z.add firstDay) (upto (lastDay - firstDay + 1)))).

(** ** A parser for the ISO format

    [Date.parse] on the one format that every host reads alike,
    [YYYY-MM-DDTHH:mm:ss.sssZ]; every other string is NaN here.  It stands in
    for the parser where a concrete one is needed. *)

Definition fieldInRange (lo hi : Z) (s : string) : number :=
  n <- StringToNumber s ;;
  if ((lo <=? n) && (n <=? hi))%Z then Some n else NaN.

Definition parseIsoUtc (s : string) : number :=
  if ((String.length s =? 24)%nat
      && String.eqb (substring 4 1 s) "-" && String.eqb (substring 7 1 s) "-"
      && String.eqb (substring 10 1 s) "T" && String.eqb (substring 13 1 s) ":"
      && String.eqb (substring 16 1 s) ":" && String.eqb (substring 19 1 s) "."
      && String.eqb (substring 23 1 s) "Z")%bool
  then
    year <- StringToNumber (substring 0 4 s) ;;
    month <- fieldInRange 1 12 (substring 5 2 s) ;;
    day <- fieldInRange 1 (daysOfMonth month year) (substring 8 2 s) ;;
    hour <- fieldInRange 0 23 (substring 11 2 s) ;;
    minute <- fieldInRange 0 59 (substring 14 2 s) ;;
    second <- fieldInRange 0 59 (substring 17 2 s) ;;
    ms <- StringToNumber (substring 20 3 s) ;;
    TimeClip (MakeDate (MakeDay year (month - 1) day) (MakeTime hour minute second ms))
  else NaN.

(** The date-only form [YYYY-MM-DD], which is midnight UTC. *)
Definition parseIsoDate (s : string) : number :=
  if ((String.length s =? 10)%nat
      && String.eqb (substring 4 1 s) "-" && String.eqb (substring 7 1 s) "-")%bool
  then
    year <- StringToNumber (substring 0 4 s) ;;
    month <- fieldInRange 1 12 (substring 5 2 s) ;;
    day <- fieldInRange 1 (daysOfMonth month year) (substring 8 2 s) ;;
    TimeClip (MakeDate (MakeDay year (month - 1) day) 0)
  else NaN.

Definition monthOfName (s : string) : number :=
  if String.eqb s "Jan" then #1 else if String.eqb s "Feb" then #2
  else if String.eqb s "Mar" then #3 else if String.eqb s "Apr" then #4
  else if String.eqb s "May" then #5 else if String.eqb s "Jun" then #6
  else if String.eqb s "Jul" then #7 else if String.eqb s "Aug" then #8
  else if String.eqb s "Sep" then #9 else if String.eqb s "Oct" then #10
  else if String.eqb s "Nov" then #11 else if String.eqb s "Dec" then #12
  else NaN.

(** The form [DD Mon YYYY HH:mm:ss UTC] of the examples of the source, which
    every host reads, though no standard obliges it to. *)
Definition parseRfcUtc (s : string) : number :=
  if ((String.length s =? 24)%nat
      && String.eqb (substring 2 1 s) " " && String.eqb (substring 6 1 s) " "
      && String.eqb (substring 11 1 s) " " && String.eqb (substring 14 1 s) ":"
      && String.eqb (substring 17 1 s) ":" && String.eqb (substring 20 4 s) " UTC")%bool
  then
    year <- StringToNumber (substring 7 4 s) ;;
    month <- monthOfName (substring 3 3 s) ;;
    day <- fieldInRange 1 (daysOfMonth month year) (substring 0 2 s) ;;
    hour <- fieldInRange 0 23 (substring 12 2 s) ;;
    minute <- fieldInRange 0 59 (substring 15 2 s) ;;
    second <- fieldInRange 0 59 (substring 18 2 s) ;;
    TimeClip (MakeDate (MakeDay year (month - 1) day) (MakeTime hour minute second 0))
  else NaN.

(** The three forms together. *)
Definition parseDateString (s : string) : number :=
  match parseIsoUtc s with
  | Some t => Some t
  | None =>
      match parseIsoDate s with
      | Some t => Some t
      | None => parseRfcUtc s
      end
  end.

#[local] Close Scope string_scope.

(** ** Auxiliary definitions of the proofs *)

(** Number of days from a day of weekday [w] to the next Friday after it, as
    the two branches of [getNextFriday] compute it. *)
Definition daysToFriday (w : Z) : Z :=
  if 5 - w >? 0 then 5 - w else 7 - Z.abs (5 - w).

(** The count of [getCountWeekendsInMonth], from the weekday [w] of the last
    day of the month and the number [n] of its days. *)
Definition weekendsFromLastDay (w n : Z) : Z :=
  let weekends := n / 7 * 2 in
  let restDays := Z.rem n 7 in
  if negb (restDays =? 0) then
    weekends
    + Z.of_nat
        (List.length
           (filter (fun el => (el === #0)%num || (el === #6)%num)
              (map (fun i => if (#w - #i >=? #0)%num then (#w - #i)%num
                             else (#7 + (#w - #i))%num)
                 (upto restDays))))
  else weekends.

(** The brute-force count, from the weekday [w1] of the first day of the
    month and the number [n] of its days. *)
Definition weekendsFromFirstDay (w1 n : Z) : Z :=
  Z.of_nat
    (List.length
       (filter (fun i => ((w1 + i) mod 7 =? 0) || ((w1 + i) mod 7 =? 6)) (upto n))).

(** The local time of the midnight that opens the calendar day [date] of
    month [month] (1 = January) of [year]. *)
Definition localMidnight (year month date : Z) : Z :=
  civilDay year month date * msPerDay.

(** Offsets, from the first day of a year, of the 13th of every month of
    that year and of the next one; [l] and [l'] are 1 for a leap year and 0
    otherwise. *)
Definition thirteenths (l l' : Z) : list Z :=
  map (fun m => monthStart l m + 12) (upto 12)
  ++ map (fun m => 365 + l + monthStart l' m + 12) (upto 12).

(** Is one of these 13ths a Friday at most 427 days after the day at offset
    [o], in a year that starts on weekday [w]? *)
Definition fridayThe13thAhead (l l' w o : Z) : bool :=
  existsb (fun g => (o <? g) && (g <=? o + 427) && ((w + g) mod 7 =? 5))
          (thirteenths l l').

Definition checkYearPair (l l' w : Z) : bool :=
  forallb (fridayThe13thAhead l l' w) (upto 366).

(** The number of seven-day steps from the day [f] to the first 13th among
    [f], [f + 7], ..., [f + 7 (n - 1)]. *)
Fixpoint stepsTo13 (n : nat) (f : Z) : option nat :=
  match n with
  | O => None
  | S n' =>
      if dateOfDay f =? 13 then Some O
      else option_map S (stepsTo13 n' (f + 7))
  end.

(** A property [p] checked on each of the [n] numbers from [i] on. *)
Fixpoint allBelow (n : nat) (i : Z) (p : Z -> bool) : bool :=
  match n with
  | O => true
  | S n' => if p i then allBelow n' (i + 1) p else false
  end.

(** No character of [s] is [c]. *)
Fixpoint noChar (c : ascii) (s : string) : bool :=
  match s with
  | EmptyString => true
  | String a s' => negb (Ascii.eqb a c) && noChar c s'
  end.

(** The day from which [getWeekNumberByDate] counts the weeks of [year]:
    1 January when that is a Monday, Tuesday, Wednesday or Thursday, and the
    first Monday of the year otherwise. *)
Definition codeWeekStart (year : Z) : Z :=
  let w := weekdayOfDay (DayFromYear year) in
  if (w <? 1) || (w >? 4) then DayFromYear year + (8 - w) mod 7
  else DayFromYear year.

(** * Lemmas and theorems *)

(** ** The year of a day number *)

(** Linear arithmetic with division and remainder by constants. *)
Ltac zlia := Z.div_mod_to_equations; lia.

Lemma DayFromYear_succ (y : Z) :
  DayFromYear (y + 1) = DayFromYear y + DaysInYear y.
Proof.
  unfold DayFromYear, DaysInYear, isLeap.
  destruct (y mod 4 =? 0) eqn:E4; destruct (y mod 100 =? 0) eqn:E100;
    destruct (y mod 400 =? 0) eqn:E400; cbn [andb orb negb];
    rewrite ?Z.eqb_eq, ?Z.eqb_neq in *; zlia.
Qed.

Lemma DaysInYear_pos (y : Z) : 365 <= DaysInYear y <= 366.
Proof. unfold DaysInYear; destruct (isLeap y); lia. Qed.

Lemma DayFromYear_lt (y z : Z) : y < z -> DayFromYear y < DayFromYear z.
Proof. unfold DayFromYear; zlia. Qed.

Lemma DayFromYear_le (y z : Z) : y <= z -> DayFromYear y <= DayFromYear z.
Proof. unfold DayFromYear; zlia. Qed.

Lemma YearFromDay_spec (d : Z) :
  DayFromYear (YearFromDay d) <= d < DayFromYear (YearFromDay d + 1).
Proof.
  unfold YearFromDay.
  set (y := 1970 + d * 400 / 146097).
  destruct (d <? DayFromYear y) eqn:E1;
    [ | destruct (DayFromYear (y + 1) <=? d) eqn:E2 ];
    rewrite ?Z.ltb_lt, ?Z.ltb_ge, ?Z.leb_le, ?Z.leb_gt in *.
  - replace (y - 1 + 1) with y by lia. split; [ | lia ].
    subst y; unfold DayFromYear in *; zlia.
  - split; [ lia | ].
    subst y; unfold DayFromYear in *; zlia.
  - lia.
Qed.

Lemma YearFromDay_unique (d y : Z) :
  DayFromYear y <= d < DayFromYear (y + 1) -> YearFromDay d = y.
Proof.
  intros H. pose proof (YearFromDay_spec d) as S.
  destruct (Z.lt_trichotomy (YearFromDay d) y) as [L | [E | G]]; [ | exact E | ].
  - pose proof (DayFromYear_le (YearFromDay d + 1) y ltac:(lia)). lia.
  - pose proof (DayFromYear_le (y + 1) (YearFromDay d) ltac:(lia)). lia.
Qed.

(** Unfolding of the number operations on known operands. *)
Ltac num_unfold :=
  unfold num_add, num_sub, num_mul, num_abs, num_lt, num_le, num_gt, num_ge,
    num_eq, num_neq, num_lift2, num_cmp, Date_getTime, newDate in *;
  cbn [bind] in *.

(** ** Days and weekdays *)

Lemma msPerDay_eq : msPerDay = 86400000.
Proof. reflexivity. Qed.

Lemma Day_add_days (t k : Z) : Day (t + k * msPerDay) = Day t + k.
Proof. unfold Day. rewrite Z.div_add by discriminate. reflexivity. Qed.

Lemma TimeWithinDay_add_days (t k : Z) :
  TimeWithinDay (t + k * msPerDay) = TimeWithinDay t.
Proof. unfold TimeWithinDay. apply Z.mod_add. discriminate. Qed.

Lemma Day_whole (d : Z) : Day (d * msPerDay) = d.
Proof. unfold Day. apply Z.div_mul. discriminate. Qed.

Lemma WeekDay_weekdayOfDay (t : Z) : WeekDay t = weekdayOfDay (Day t).
Proof. reflexivity. Qed.

Lemma weekdayOfDay_range (d : Z) : 0 <= weekdayOfDay d < 7.
Proof. unfold weekdayOfDay. apply Z.mod_pos_bound. lia. Qed.

Lemma weekdayOfDay_add (d k : Z) :
  weekdayOfDay (d + k) = (weekdayOfDay d + k) mod 7.
Proof. unfold weekdayOfDay. zlia. Qed.

Lemma weekdayOfDay_period (d q : Z) : weekdayOfDay (d + 7 * q) = weekdayOfDay d.
Proof. unfold weekdayOfDay. zlia. Qed.

Lemma daysToFriday_range (w : Z) : 0 <= w < 7 -> 1 <= daysToFriday w <= 7.
Proof. unfold daysToFriday. destruct (5 - w >? 0) eqn:E; lia. Qed.

Lemma daysToFriday_friday (w : Z) :
  0 <= w < 7 -> (w + daysToFriday w) mod 7 = 5.
Proof.
  intros H. unfold daysToFriday. destruct (5 - w >? 0) eqn:E.
  - replace (w + (5 - w)) with 5 by lia. reflexivity.
  - replace (w + (7 - Z.abs (5 - w))) with (5 + 1 * 7) by lia.
    rewrite Z.mod_add by lia. reflexivity.
Qed.

(** No Friday lies strictly between a day and the Friday [daysToFriday]
    leads to. *)
Lemma daysToFriday_first (w i : Z) :
  0 <= w < 7 -> 0 < i < daysToFriday w -> (w + i) mod 7 <> 5.
Proof.
  intros H. unfold daysToFriday. destruct (5 - w >? 0) eqn:E; zlia.
Qed.

(** ** Valid dates *)

Lemma TimeClip_valid (t : Z) : validTime t -> TimeClip t = Some t.
Proof.
  unfold validTime, TimeClip. intros H.
  destruct (Z.abs t <=? maxTime) eqn:E; [ reflexivity | ].
  rewrite Z.leb_gt in E. lia.
Qed.

Lemma TimeClip_invalid (t : Z) : maxTime < t -> TimeClip t = NaN.
Proof.
  unfold TimeClip. intros H.
  destruct (Z.abs t <=? maxTime) eqn:E; [ | reflexivity ].
  rewrite Z.leb_le in E. lia.
Qed.

Lemma TimeClip_some (t u : Z) : TimeClip t = Some u -> u = t /\ validTime t.
Proof.
  unfold TimeClip, validTime.
  destruct (Z.abs t <=? maxTime) eqn:E; [ | discriminate ].
  rewrite Z.leb_le in E. intros [= <-]. lia.
Qed.

(** ** Local time *)

Lemma LocalTime_fixed (tza t : Z) : LocalTime tza t = t + tza.
Proof. reflexivity. Qed.

Lemma UTC_fixed (tza t : Z) : UTC tza t = t - tza.
Proof. reflexivity. Qed.

(** ** getNextFriday *)

Section NextFridayAnyZone.

Variable tz : TimeZone.

(** What [getNextFriday] computes, before the result is clipped. *)
Lemma getNextFriday_unfold (t : Z) :
  getNextFriday tz (Some t)
  = TimeClip (t + daysToFriday (WeekDay (LocalTime tz t)) * msPerDay).
Proof.
  unfold getNextFriday, getDay, daysToFriday. num_unfold.
  change (1000 * 60 * 60 * 24) with msPerDay.
  destruct (5 - WeekDay (LocalTime tz t) >? 0); reflexivity.
Qed.

Lemma getNextFriday_value (t : Z) :
  validTime t -> t + 7 * msPerDay <= maxTime ->
  getNextFriday tz (Some t)
  = Some (t + daysToFriday (WeekDay (LocalTime tz t)) * msPerDay).
Proof.
  intros V H. rewrite getNextFriday_unfold. apply TimeClip_valid.
  pose proof (daysToFriday_range _ (weekdayOfDay_range (Day (LocalTime tz t)))) as R.
  rewrite <- WeekDay_weekdayOfDay in R.
  unfold validTime in *. rewrite msPerDay_eq in *. lia.
Qed.

(** C5: for a valid date no later than seven days before the largest time
    value, when the offset of local time at the result is the offset at the
    date, [getNextFriday] gives a Friday on a later calendar day, no Friday
    lies strictly between the two days, the time of day is kept, and from a
    Friday the result is exactly seven days later. *)
Theorem getNextFriday_smallest (t : Z) :
  validTime t -> t + 7 * msPerDay <= maxTime ->
  (forall r : Z, getNextFriday tz #t = #r ->
                 LocalTZA tz r true = LocalTZA tz t true) ->
  exists r : Z,
    getNextFriday tz (Some t) = Some r
    /\ getDay tz (Some r) = #5
    /\ Day (LocalTime tz t) < Day (LocalTime tz r)
    /\ (forall d : Z, Day (LocalTime tz t) < d < Day (LocalTime tz r) ->
                      weekdayOfDay d <> 5)
    /\ TimeWithinDay (LocalTime tz r) = TimeWithinDay (LocalTime tz t)
    /\ (getDay tz (Some t) = #5 -> r = t + 7 * 86400000).
Proof.
  intros V H O.
  pose proof (weekdayOfDay_range (Day (LocalTime tz t))) as W.
  pose proof (daysToFriday_range _ W) as R.
  pose proof (getNextFriday_value t V H) as N.
  rewrite WeekDay_weekdayOfDay in N.
  set (w := weekdayOfDay (Day (LocalTime tz t))) in *.
  exists (t + daysToFriday w * msPerDay).
  split; [ exact N | ].
  assert (L : LocalTime tz (t + daysToFriday w * msPerDay)
              = LocalTime tz t + daysToFriday w * msPerDay)
    by (unfold LocalTime; rewrite (O _ N); lia).
  rewrite L, Day_add_days, TimeWithinDay_add_days.
  repeat split.
  - unfold getDay. cbn [bind]. f_equal.
    rewrite WeekDay_weekdayOfDay, L, Day_add_days.
    rewrite weekdayOfDay_add. apply daysToFriday_friday. exact W.
  - lia.
  - intros d Hd.
    replace d with (Day (LocalTime tz t) + (d - Day (LocalTime tz t))) by lia.
    rewrite weekdayOfDay_add. apply daysToFriday_first; [ exact W | ].
    fold w. lia.
  - unfold getDay. cbn [bind]. rewrite WeekDay_weekdayOfDay. fold w.
    intros [= E]. rewrite E. reflexivity.
Qed.

End NextFridayAnyZone.

Section NextFriday.

(** The host has no clock changes: its local time is UTC plus [tza]
    milliseconds throughout, the zone [fixedZone tza]. *)
Variable tza : Z.

Lemma LocalTime_add_days (t k : Z) :
  LocalTime tza (t + k * msPerDay) = LocalTime tza t + k * msPerDay.
Proof. unfold LocalTime, fixedZone, LocalTZA. lia. Qed.


End NextFriday.

(** The examples of the source, in UTC. *)
Example getNextFriday_examples :
  getNextFriday 0 #1706918400000 = #1707436800000
  /\ getNextFriday 0 #1707782400000 = #1708041600000
  /\ getNextFriday 0 #1708041600000 = #1708646400000.
Proof. repeat split; vm_compute; reflexivity. Qed.



(** An instance of C5: Friday 16 February 2024, 00:00 UTC, in New York,
    where the clocks do not change in the week that follows. *)
Lemma getNextFriday_smallest_witness :
  validTime 1708041600000 /\ 1708041600000 + 7 * msPerDay <= maxTime
  /\ exists r : Z,
       getNextFriday America_New_York #1708041600000 = Some r
       /\ getDay America_New_York #r = #5
       /\ Day (LocalTime America_New_York 1708041600000)
          < Day (LocalTime America_New_York r)
       /\ (forall d : Z,
             Day (LocalTime America_New_York 1708041600000) < d
             < Day (LocalTime America_New_York r) ->
             weekdayOfDay d <> 5)
       /\ TimeWithinDay (LocalTime America_New_York r)
          = TimeWithinDay (LocalTime America_New_York 1708041600000)
       /\ (getDay America_New_York #1708041600000 = #5 ->
           r = 1708041600000 + 7 * 86400000).
Proof.
  assert (V : validTime 1708041600000) by (unfold validTime, maxTime; lia).
  assert (R : 1708041600000 + 7 * msPerDay <= maxTime)
    by (unfold msPerDay, maxTime; lia).
  split; [ exact V | split; [ exact R | ] ].
  apply (getNextFriday_smallest America_New_York 1708041600000 V R).
  intros r N. vm_compute in N. injection N as <-. vm_compute. reflexivity.
Defined.

(** C5, the last valid date, a Saturday: the result is the Invalid Date,
    which is no Friday. *)
Lemma getNextFriday_last_date :
  validTime 8640000000000000
  /\ getDay 0 #8640000000000000 = #6
  /\ getNextFriday 0 #8640000000000000 = NaN
  /\ getDay 0 (getNextFriday 0 #8640000000000000) <> #5.
Proof.
  split; [ unfold validTime, maxTime; lia | ].
  repeat split; try (vm_compute; reflexivity). vm_compute. discriminate.
Qed.

(** When the clocks change between the date and the result, the result need
    not be a Friday.  In New York the clocks are set back an hour on
    3 November 2024: from Saturday 2 November 2024, 00:30, [getNextFriday]
    gives Thursday 7 November 2024, 23:30, six times 24 hours later. *)
Lemma getNextFriday_clock_change :
  newDateYMD America_New_York #2024 #10 #2 = #(1730521800000 - 30 * msPerMinute)
  /\ getDay America_New_York #1730521800000 = #6
  /\ getHours America_New_York #1730521800000 = #0
  /\ getMinutes America_New_York #1730521800000 = #30
  /\ getNextFriday America_New_York #1730521800000
     = #(1730521800000 + 6 * msPerDay)
  /\ getDay America_New_York (getNextFriday America_New_York #1730521800000) = #4
  /\ getDate America_New_York (getNextFriday America_New_York #1730521800000) = #7
  /\ getHours America_New_York (getNextFriday America_New_York #1730521800000) = #23
  /\ getMinutes America_New_York (getNextFriday America_New_York #1730521800000)
     = #30.
Proof. repeat split; vm_compute; reflexivity. Qed.

(** ** Calendar days and the Date constructor *)

Lemma representableYear_days (y : Z) :
  representableYear y ->
  -99999744 <= DayFromYear y /\ DayFromYear (y + 1) <= 99999744.
Proof.
  unfold representableYear. intros H.
  pose proof (DayFromYear_le (-271820) y ltac:(lia)) as L.
  pose proof (DayFromYear_le (y + 1) 275760 ltac:(lia)) as U.
  change (DayFromYear (-271820)) with (-99999744) in L.
  change (DayFromYear 275760) with 99999744 in U. lia.
Qed.

Lemma month_cases (month : Z) :
  1 <= month <= 12 ->
  month = 1 \/ month = 2 \/ month = 3 \/ month = 4 \/ month = 5 \/ month = 6
  \/ month = 7 \/ month = 8 \/ month = 9 \/ month = 10 \/ month = 11
  \/ month = 12.
Proof. lia. Qed.

(** Case analysis on a month number 1..12 bounded by [H]. *)
Ltac each_month H :=
  let C := fresh "C" in
  pose proof (month_cases _ H) as C;
  decompose [or] C; clear C; subst.

(** Evaluation of [monthStart] at a known month. *)
Ltac month_simpl :=
  repeat match goal with
         | |- context [Z.pos ?p - 1] =>
             let v := eval compute in (Z.pos p - 1) in
             change (Z.pos p - 1) with v
         | H : context [Z.pos ?p - 1] |- _ =>
             let v := eval compute in (Z.pos p - 1) in
             change (Z.pos p - 1) with v in H
         end;
  cbv beta iota delta [monthStart daysOfMonth] in *.

Lemma isLeap_DaysInYear (y : Z) :
  DaysInYear y = 365 + (if isLeap y then 1 else 0).
Proof. unfold DaysInYear. destruct (isLeap y); reflexivity. Qed.

Lemma MakeDay_civilDay (year month date : Z) :
  1 <= month <= 12 -> MakeDay year (month - 1) date = civilDay year month date.
Proof.
  intros H. unfold MakeDay, civilDay.
  replace ((month - 1) / 12) with 0 by zlia.
  replace ((month - 1) mod 12) with (month - 1) by zlia.
  rewrite Z.add_0_r. reflexivity.
Qed.

Lemma monthStart_next (leap month : Z) (year : Z) :
  1 <= month <= 12 -> leap = (if isLeap year then 1 else 0) ->
  monthStart leap month = monthStart leap (month - 1) + daysOfMonth month year.
Proof.
  intros H ->. unfold daysOfMonth.
  each_month H; destruct (isLeap year); reflexivity.
Qed.

Lemma MakeDay_first_of_next (year month : Z) :
  1 <= month <= 12 ->
  MakeDay year month 1 = civilDay year month 1 + daysOfMonth month year.
Proof.
  intros H. unfold civilDay, MakeDay.
  pose proof (monthStart_next (if isLeap year then 1 else 0) month year H eq_refl) as E.
  destruct (Z.eq_dec month 12) as [-> | N].
  - change (12 / 12) with 1. change (12 mod 12) with 0.
    rewrite DayFromYear_succ, isLeap_DaysInYear.
    change (monthStart (if isLeap year then 1 else 0) 12)
      with (365 + (if isLeap year then 1 else 0)) in E.
    change (monthStart (if isLeap (year + 1) then 1 else 0) 0) with 0.
    lia.
  - replace (month / 12) with 0 by zlia.
    replace (month mod 12) with month by zlia.
    rewrite Z.add_0_r. lia.
Qed.

Lemma daysOfMonth_range (month year : Z) : 28 <= daysOfMonth month year <= 31.
Proof.
  unfold daysOfMonth.
  repeat match goal with
         | |- context [match ?m with _ => _ end] => destruct m
         end; lia.
Qed.

Lemma monthStart_range (leap month : Z) :
  0 <= leap <= 1 -> 1 <= month <= 12 -> 0 <= monthStart leap (month - 1) <= 335.
Proof.
  intros L H. each_month H; month_simpl; lia.
Qed.

Lemma civilDay_in_year (year month date : Z) :
  1 <= month <= 12 -> 1 <= date <= daysOfMonth month year ->
  DayFromYear year <= civilDay year month date < DayFromYear (year + 1).
Proof.
  intros Hm Hd. rewrite DayFromYear_succ, isLeap_DaysInYear. unfold civilDay.
  unfold daysOfMonth in Hd.
  each_month Hm; month_simpl; destruct (isLeap year); lia.
Qed.

Lemma effectiveYear_faceValue (y : Z) : faceValueYear y -> effectiveYear y = y.
Proof.
  unfold faceValueYear, effectiveYear. intros F.
  destruct (0 <=? y) eqn:A; destruct (y <=? 99) eqn:B; try reflexivity.
  rewrite Z.leb_le in *. lia.
Qed.

Lemma effectiveYear_two_digit (y : Z) : 0 <= y <= 99 -> effectiveYear y = 1900 + y.
Proof.
  unfold effectiveYear. intros F.
  destruct (0 <=? y) eqn:A; destruct (y <=? 99) eqn:B; try reflexivity;
    rewrite ?Z.leb_gt in *; lia.
Qed.

Lemma effectiveYear_representable (y : Z) :
  representableYear y -> representableYear (effectiveYear y).
Proof.
  unfold representableYear, effectiveYear.
  destruct (0 <=? y) eqn:A; destruct (y <=? 99) eqn:B; cbn [andb];
    rewrite ?Z.leb_le in *; lia.
Qed.

Lemma fixedZone_within_a_day (tza : Z) :
  - msPerDay <= tza <= msPerDay -> zoneWithinADay tza.
Proof. intros H t isUTC. exact H. Qed.

Lemma offsetAt_bounds (lo hi : Z) (transitions : list (Z * Z)) :
  Forall (fun change => lo <= snd change <= hi) transitions ->
  forall initial t : Z,
    lo <= initial <= hi -> lo <= offsetAt initial transitions t <= hi.
Proof.
  induction 1 as [ | [change offset] rest Hc _ IH ]; intros initial t Hi;
    cbn [offsetAt]; [ exact Hi | ].
  destruct (t <? change); [ exact Hi | apply IH; exact Hc ].
Qed.

Lemma zoneOfTransitions_within_a_day (initial : Z) (transitions : list (Z * Z)) :
  - msPerDay <= initial <= msPerDay ->
  Forall (fun change => - msPerDay <= snd change <= msPerDay) transitions ->
  zoneWithinADay (zoneOfTransitions initial transitions).
Proof.
  intros Hi Ht t isUTC. cbn [LocalTZA zoneOfTransitions].
  pose proof (fun u => offsetAt_bounds _ _ _ Ht initial u Hi) as B.
  destruct isUTC; [ apply B | ].
  unfold offsetOfLocal.
  repeat match goal with
         | |- context [if ?c then _ else _] => destruct c
         end; apply B.
Qed.

Lemma America_New_York_within_a_day : zoneWithinADay America_New_York.
Proof.
  apply zoneOfTransitions_within_a_day;
    [ | repeat constructor ]; cbn [snd]; unfold msPerDay, msPerHour; lia.
Qed.

Lemma America_Sao_Paulo_within_a_day : zoneWithinADay America_Sao_Paulo.
Proof.
  apply zoneOfTransitions_within_a_day;
    [ | repeat constructor ]; cbn [snd]; unfold msPerDay, msPerHour; lia.
Qed.

(** The quotient [diff / 1000 / 3600 / 24] of a whole number of days. *)
Lemma days_of_ms (n : Z) :
  (inject_Z (n * msPerDay) / 1000 / 3600 / 24 == inject_Z n)%Q.
Proof.
  rewrite msPerDay_eq. unfold Qeq, Qdiv, Qmult, Qinv, inject_Z. cbn. lia.
Qed.

Lemma isLeapYear_leapRule (tz : TimeZone) (d : Date) (y : Z) :
  getFullYear tz d = #y -> isLeapYear tz d = leapRule y.
Proof.
  intros E. unfold isLeapYear, leapRule. rewrite E.
  unfold num_neq, num_rem, num_eq, num_cmp. cbn [bind Z.eqb].
  destruct (Z.rem y 400 =? 0), (Z.rem y 4 =? 0), (Z.rem y 100 =? 0); reflexivity.
Qed.

Lemma rem_eqb_mod (y k : Z) : k <> 0 -> (Z.rem y k =? 0) = (y mod k =? 0).
Proof.
  intros K.
  destruct (Z.eqb_spec (Z.rem y k) 0) as [A | A];
    destruct (Z.eqb_spec (y mod k) 0) as [B | B]; try reflexivity;
    rewrite Z.rem_mod_eq_0 in A by exact K; contradiction.
Qed.

Lemma leapRule_isLeap (y : Z) : leapRule y = isLeap y.
Proof.
  unfold leapRule, isLeap. rewrite !rem_eqb_mod by discriminate.
  destruct (Z.eqb_spec (y mod 400) 0) as [A | A];
    destruct (Z.eqb_spec (y mod 4) 0) as [B | B];
    destruct (Z.eqb_spec (y mod 100) 0) as [C | C];
    try reflexivity; exfalso; zlia.
Qed.

(** The years 1..99, which the constructor reads as 1901..1999, keep their
    leap status. *)
Lemma isLeap_effectiveYear (y : Z) : y <> 0 -> isLeap (effectiveYear y) = isLeap y.
Proof.
  intros N.
  destruct (Z_le_dec 0 y) as [A | A]; [ destruct (Z_le_dec y 99) as [B | B] | ].
  - rewrite effectiveYear_two_digit by lia. unfold isLeap.
    replace ((1900 + y) mod 4) with (y mod 4) by zlia.
    replace ((1900 + y) mod 100 =? 0) with false
      by (symmetry; apply Z.eqb_neq; zlia).
    replace ((1900 + y) mod 400 =? 0) with false
      by (symmetry; apply Z.eqb_neq; zlia).
    replace (y mod 100 =? 0) with false
      by (symmetry; apply Z.eqb_neq; zlia).
    reflexivity.
  - rewrite effectiveYear_faceValue by (unfold faceValueYear; lia). reflexivity.
  - rewrite effectiveYear_faceValue by (unfold faceValueYear; lia). reflexivity.
Qed.

Lemma localMidnight_march (y : Z) :
  localMidnight y 3 1 = localMidnight y 2 1 + daysOfMonth 2 y * msPerDay.
Proof.
  unfold localMidnight, civilDay, daysOfMonth.
  change (monthStart (if isLeap y then 1 else 0) (3 - 1))
    with (59 + (if isLeap y then 1 else 0)).
  change (monthStart (if isLeap y then 1 else 0) (2 - 1)) with 31.
  destruct (isLeap y); lia.
Qed.

Section ConstructorAnyZone.

Variable tz : TimeZone.
Hypothesis tz_range : zoneWithinADay tz.

Lemma newDateYMD_zone (year month date : Z) :
  -99999990 <= MakeDay (effectiveYear year) month date <= 99999990 ->
  newDateYMD tz #year #month #date
  = Some (UTC tz (MakeDay (effectiveYear year) month date * msPerDay)).
Proof.
  intros R. unfold newDateYMD. cbn [bind]. fold (effectiveYear year).
  unfold MakeDate, MakeTime. rewrite !Z.mul_0_l, !Z.add_0_r.
  apply TimeClip_valid. unfold validTime, maxTime, UTC.
  pose proof (tz_range (MakeDay (effectiveYear year) month date * msPerDay) false).
  rewrite msPerDay_eq in *. lia.
Qed.

Lemma newDateYMD_zone_civil (year month date : Z) :
  representableYear year ->
  1 <= month <= 12 -> 1 <= date <= daysOfMonth month (effectiveYear year) ->
  newDateYMD tz #year #(month - 1) #date
  = Some (UTC tz (localMidnight (effectiveYear year) month date)).
Proof.
  intros R Hm Hd. apply effectiveYear_representable in R.
  rewrite newDateYMD_zone.
  - rewrite MakeDay_civilDay by exact Hm. reflexivity.
  - rewrite MakeDay_civilDay by exact Hm.
    pose proof (civilDay_in_year _ month date Hm Hd).
    pose proof (representableYear_days _ R). lia.
Qed.

Lemma newDateYMD_zone_first_of_next (year month : Z) :
  representableYear year -> 1 <= month <= 12 ->
  newDateYMD tz #year #month #1
  = Some (UTC tz (localMidnight (effectiveYear year) month 1
                  + daysOfMonth month (effectiveYear year) * msPerDay)).
Proof.
  intros R Hm. apply effectiveYear_representable in R.
  rewrite newDateYMD_zone.
  - rewrite MakeDay_first_of_next by exact Hm. unfold localMidnight.
    f_equal. f_equal. lia.
  - rewrite MakeDay_first_of_next by exact Hm.
    pose proof (daysOfMonth_range month (effectiveYear year)) as D.
    pose proof (civilDay_in_year (effectiveYear year) month 1 Hm ltac:(lia)).
    pose proof (representableYear_days _ R). lia.
Qed.

(** The two dates of [getCountDaysInMonth] are as many whole days apart as
    the month has days when the offset of local time is the same at both
    midnights. *)
Lemma month_diff_zone (year month : Z) :
  representableYear year -> 1 <= month <= 12 ->
  LocalTZA tz (localMidnight (effectiveYear year) month 1
               + daysOfMonth month (effectiveYear year) * msPerDay) false
  = LocalTZA tz (localMidnight (effectiveYear year) month 1) false ->
  (newDateYMD tz #year #month #1 - newDateYMD tz #year #(month - 1)%Z #1)%num
  = #(daysOfMonth month (effectiveYear year) * msPerDay).
Proof.
  intros R Hm E.
  rewrite newDateYMD_zone_first_of_next by assumption.
  pose proof (daysOfMonth_range month (effectiveYear year)) as D.
  rewrite newDateYMD_zone_civil by (assumption || lia).
  num_unfold. f_equal. unfold UTC. rewrite E. lia.
Qed.

Lemma getCountDaysInMonth_zone (year month : Z) :
  representableYear year -> 1 <= month <= 12 ->
  LocalTZA tz (localMidnight (effectiveYear year) month 1
               + daysOfMonth month (effectiveYear year) * msPerDay) false
  = LocalTZA tz (localMidnight (effectiveYear year) month 1) false ->
  wholeNumber (getCountDaysInMonth tz month year)
              #(daysOfMonth month (effectiveYear year)).
Proof.
  intros R Hm E. unfold getCountDaysInMonth.
  rewrite month_diff_zone by assumption. cbn [bind wholeNumber].
  apply days_of_ms.
Qed.

(** C7: for every year other than 0 all of whose days are valid dates, when
    the offset of local time is the same at the midnights that open
    1 February and 1 March of the year that the constructor reads,
    [getCountDaysInMonth(2, y)] is 29 when [isLeapYear] holds of a date of
    year [y] and 28 when it does not, and [isLeapYear] is the rule
    [y % 400 == 0 || (y % 4 == 0 && y % 100 != 0)]. *)
Theorem february_days_leap_year (y : Z) (d : Date) :
  y <> 0 -> representableYear y ->
  LocalTZA tz (localMidnight (effectiveYear y) 3 1) false
  = LocalTZA tz (localMidnight (effectiveYear y) 2 1) false ->
  getFullYear tz d = #y ->
  wholeNumber (getCountDaysInMonth tz 2 y)
              (if isLeapYear tz d then #29 else #28)
  /\ isLeapYear tz d = leapRule y.
Proof.
  intros N R O E. split; [ | apply isLeapYear_leapRule; exact E ].
  rewrite (isLeapYear_leapRule tz d y E), leapRule_isLeap.
  pose proof (getCountDaysInMonth_zone y 2 R ltac:(lia)) as G.
  rewrite <- localMidnight_march in G. specialize (G O).
  unfold daysOfMonth in G. rewrite isLeap_effectiveYear in G by exact N.
  destruct (isLeap y); exact G.
Qed.

End ConstructorAnyZone.

Section Constructor.

(** The host has no clock changes: its local time is UTC plus [tza]
    milliseconds throughout, the zone [fixedZone tza]. *)
Variable tza : Z.
Hypothesis tza_range : - msPerDay <= tza <= msPerDay.

(** The constructor, as long as the day is within the range of time
    values. *)
Lemma newDateYMD_effective (year month date : Z) :
  -99999990 <= MakeDay (effectiveYear year) month date <= 99999990 ->
  newDateYMD tza #year #month #date
  = Some (MakeDay (effectiveYear year) month date * msPerDay - tza).
Proof.
  intros R. unfold newDateYMD. cbn [bind]. fold (effectiveYear year).
  rewrite UTC_fixed. unfold MakeDate, MakeTime. rewrite !Z.mul_0_l, !Z.add_0_r.
  apply TimeClip_valid. unfold validTime, maxTime.
  rewrite msPerDay_eq in *. lia.
Qed.

Lemma LocalTime_midnight (d : Z) : LocalTime tza (d * msPerDay - tza) = d * msPerDay.
Proof. rewrite ?LocalTime_fixed. lia. Qed.

Lemma newDateYMD_civil (year month date : Z) :
  representableYear year ->
  1 <= month <= 12 -> 1 <= date <= daysOfMonth month (effectiveYear year) ->
  newDateYMD tza #year #(month - 1) #date
  = Some (civilDay (effectiveYear year) month date * msPerDay - tza).
Proof.
  intros R Hm Hd. apply effectiveYear_representable in R.
  rewrite newDateYMD_effective.
  - rewrite MakeDay_civilDay by exact Hm. reflexivity.
  - rewrite MakeDay_civilDay by exact Hm.
    pose proof (civilDay_in_year _ month date Hm Hd).
    pose proof (representableYear_days _ R). lia.
Qed.

Lemma newDateYMD_first_of_next (year month : Z) :
  representableYear year -> 1 <= month <= 12 ->
  newDateYMD tza #year #month #1
  = Some ((civilDay (effectiveYear year) month 1
           + daysOfMonth month (effectiveYear year)) * msPerDay - tza).
Proof.
  intros R Hm. apply effectiveYear_representable in R.
  rewrite newDateYMD_effective.
  - rewrite MakeDay_first_of_next by exact Hm. reflexivity.
  - rewrite MakeDay_first_of_next by exact Hm.
    pose proof (daysOfMonth_range month (effectiveYear year)) as D.
    pose proof (civilDay_in_year (effectiveYear year) month 1 Hm ltac:(lia)).
    pose proof (representableYear_days _ R). lia.
Qed.

(** *** getCountDaysInMonth and isLeapYear *)

(** The difference of the two dates of [getCountDaysInMonth] is a whole
    number of days, so the three divisions are exact. *)
Lemma month_diff_whole_days (year month : Z) :
  representableYear year -> 1 <= month <= 12 ->
  (newDateYMD tza #year #month #1 - newDateYMD tza #year #(month - 1)%Z #1)%num
  = #(daysOfMonth month (effectiveYear year) * msPerDay).
Proof.
  intros R Hm.
  rewrite newDateYMD_first_of_next by assumption.
  pose proof (daysOfMonth_range month (effectiveYear year)) as D.
  rewrite newDateYMD_civil by (assumption || lia).
  num_unfold. f_equal. lia.
Qed.

Lemma getCountDaysInMonth_value (year month : Z) :
  representableYear year -> 1 <= month <= 12 ->
  wholeNumber (getCountDaysInMonth tza month year)
              #(daysOfMonth month (effectiveYear year)).
Proof.
  intros R Hm. unfold getCountDaysInMonth.
  rewrite month_diff_whole_days by assumption. cbn [bind wholeNumber].
  apply days_of_ms.
Qed.

(** [isLeapYear] on a date of year [y] is the leap-year rule on [y]. *)
(** *** getCountWeekendsInMonth *)

Lemma weekends_both_ways (w1 n : Z) :
  0 <= w1 < 7 -> 28 <= n <= 31 ->
  weekendsFromLastDay ((w1 + (n - 1)) mod 7) n = weekendsFromFirstDay w1 n.
Proof.
  intros W N.
  assert (Cw : w1 = 0 \/ w1 = 1 \/ w1 = 2 \/ w1 = 3 \/ w1 = 4 \/ w1 = 5 \/ w1 = 6)
    by lia.
  assert (Cn : n = 28 \/ n = 29 \/ n = 30 \/ n = 31) by lia.
  decompose [or] Cw; decompose [or] Cn; subst; vm_compute; reflexivity.
Qed.

Lemma civilDay_date (year month date : Z) :
  civilDay year month date = civilDay year month 1 + (date - 1).
Proof. unfold civilDay. lia. Qed.

Lemma bruteForceWeekends_from_first (month year : Z) :
  bruteForceWeekends month year
  = weekendsFromFirstDay (weekdayOfDay (civilDay year month 1))
      (daysOfMonth month year).
Proof.
  unfold bruteForceWeekends, weekendsFromFirstDay. do 2 f_equal.
  apply filter_ext. intros i. unfold isWeekendDay.
  rewrite civilDay_date, Z.add_simpl_r, weekdayOfDay_add. reflexivity.
Qed.

(** The numbers that [getCountWeekendsInMonth] derives from a whole number
    of days. *)
Lemma month_days_parts (n : Z) :
  28 <= n <= 31 ->
  Qfloor (inject_Z (n * msPerDay) / 1000 / 3600 / 24 / 7)%Q = n / 7
  /\ Qeq_bool (Qrem (inject_Z (n * msPerDay) / 1000 / 3600 / 24)%Q 7) 0
     = (Z.rem n 7 =? 0)
  /\ Qtrunc (inject_Z (n * msPerDay) / 1000 / 3600 / 24)%Q = n
  /\ Qceiling (Qrem (inject_Z (n * msPerDay) / 1000 / 3600 / 24)%Q 7) = Z.rem n 7.
Proof.
  intros N. assert (C : n = 28 \/ n = 29 \/ n = 30 \/ n = 31) by lia.
  decompose [or] C; subst; vm_compute; repeat split.
Qed.

Lemma getDay_midnight (d : Z) :
  getDay tza (Some (d * msPerDay - tza)) = #(weekdayOfDay d).
Proof.
  unfold getDay. cbn [bind].
  rewrite LocalTime_midnight, WeekDay_weekdayOfDay, Day_whole. reflexivity.
Qed.

Lemma getCountWeekendsInMonth_value (month year : Z) :
  representableYear year -> 1 <= month <= 12 ->
  getCountWeekendsInMonth tza month year
  = #(bruteForceWeekends month (effectiveYear year)).
Proof.
  intros R Hm. unfold getCountWeekendsInMonth.
  rewrite month_diff_whole_days by assumption. cbn [bind]. cbv zeta.
  pose proof (daysOfMonth_range month (effectiveYear year)) as D.
  destruct (month_days_parts _ D) as (Q1 & Q2 & Q3 & Q4).
  rewrite Q1, Q2, Q3, Q4.
  rewrite newDateYMD_civil by (assumption || lia).
  rewrite getDay_midnight, bruteForceWeekends_from_first.
  rewrite <- weekends_both_ways
    by (exact D || apply weekdayOfDay_range).
  rewrite <- weekdayOfDay_add, <- civilDay_date.
  unfold weekendsFromLastDay.
  destruct (negb (Z.rem (daysOfMonth month (effectiveYear year)) 7 =? 0));
    reflexivity.
Qed.

(** On a host without clock changes, for every month 1..12 and every year
    that [Date] takes at face value and represents in full,
    [getCountWeekendsInMonth] is the brute-force count of the Saturdays and
    Sundays among the days of the month. *)
Lemma getCountWeekendsInMonth_fixed_offset (month year : Z) :
  1 <= month <= 12 -> faceValueYear year -> representableYear year ->
  getCountWeekendsInMonth tza month year = #(bruteForceWeekends month year).
Proof.
  intros Hm F R. rewrite getCountWeekendsInMonth_value by assumption.
  rewrite effectiveYear_faceValue by exact F. reflexivity.
Qed.

End Constructor.

(** The examples of the source. *)
Example getCountDaysInMonth_examples :
  wholeNumber (getCountDaysInMonth 0 1 2024) #31
  /\ wholeNumber (getCountDaysInMonth 0 2 2024) #29
  /\ wholeNumber (getCountDaysInMonth 0 2 2023) #28.
Proof. repeat split; vm_compute; reflexivity. Qed.

Example isLeapYear_examples :
  isLeapYear 0 (newDateYMD 0 #2024 #2 #1) = true
  /\ isLeapYear 0 (newDateYMD 0 #2022 #2 #1) = false
  /\ isLeapYear 0 (newDateYMD 0 #2020 #2 #1) = true.
Proof. repeat split; vm_compute; reflexivity. Qed.

(** An instance of C7: the year 2024 and the date 1 March 2024, in New
    York, where the clocks do not change in February. *)
Lemma february_days_leap_year_witness :
  wholeNumber (getCountDaysInMonth America_New_York 2 2024)
              (if isLeapYear America_New_York #1709251200000 then #29 else #28)
  /\ isLeapYear America_New_York #1709251200000 = leapRule 2024.
Proof.
  apply (february_days_leap_year America_New_York America_New_York_within_a_day).
  - lia.
  - unfold representableYear. lia.
  - vm_compute. reflexivity.
  - vm_compute. reflexivity.
Defined.

(** C7, year 0: [new Date(0, 1, 1)] is 1 February 1900, so February has 28
    days, while the rule makes year 0 a leap year. *)
Lemma february_of_year_0 :
  getFullYear 0 #(-62167219200000) = #0
  /\ isLeapYear 0 #(-62167219200000) = true
  /\ wholeNumber (getCountDaysInMonth 0 2 0) #28.
Proof. repeat split; vm_compute; reflexivity. Qed.

(** When the clocks change within the month the result is no whole number:
    in Sao Paulo the clocks were set back an hour on 18 February 2001, and
    [getCountDaysInMonth(2, 2001)] is 28 days and one hour, 673/24. *)
Lemma february_with_clock_change :
  exists q : Q,
    getCountDaysInMonth America_Sao_Paulo 2 2001 = Some q
    /\ (q == 673 / 24)%Q
    /\ ~ wholeNumber (getCountDaysInMonth America_Sao_Paulo 2 2001) #28
    /\ ~ wholeNumber (getCountDaysInMonth America_Sao_Paulo 2 2001) #29.
Proof.
  eexists. split; [ vm_compute; reflexivity | ].
  repeat split; vm_compute; discriminate.
Qed.

Example getCountWeekendsInMonth_examples :
  getCountWeekendsInMonth 0 5 2022 = #9 /\ getCountWeekendsInMonth 0 12 2023 = #10
  /\ getCountWeekendsInMonth 0 1 2024 = #8.
Proof. repeat split; vm_compute; reflexivity. Qed.

(** C4: in New York, where the clocks are set forward an hour on
    10 March 2024, [getCountWeekendsInMonth(3, 2024)] is 9, while March 2024
    has ten Saturdays and Sundays: the two midnights are 31 days less one
    hour apart, so [daysInMonth] is 743/24, [lastDay] is Saturday 30 March,
    and the loop looks at Saturday, Friday and Thursday. *)
Theorem getCountWeekendsInMonth_clock_change :
  getCountWeekendsInMonth America_New_York 3 2024 = #9
  /\ bruteForceWeekends 3 2024 = 10
  /\ (exists q : Q,
        getCountDaysInMonth America_New_York 3 2024 = Some q /\ (q == 743 / 24)%Q)
  /\ getDay America_New_York (newDateYMD America_New_York #2024 #2 #30) = #6
  /\ getDate America_New_York (newDateYMD America_New_York #2024 #2 #30) = #30.
Proof.
  split; [ vm_compute; reflexivity | ].
  split; [ vm_compute; reflexivity | ].
  split; [ eexists; split; vm_compute; reflexivity | ].
  split; vm_compute; reflexivity.
Qed.

(** ** Calendar fields of a day number *)

Lemma YearFromTime_Day (t : Z) : YearFromTime t = yearOfDay (Day t).
Proof. unfold yearOfDay, YearFromTime. rewrite Day_whole. reflexivity. Qed.

Lemma MonthFromTime_Day (t : Z) : MonthFromTime t = monthOfDay (Day t).
Proof.
  unfold monthOfDay, MonthFromTime, InLeapYear, DayWithinYear, YearFromTime.
  rewrite Day_whole. reflexivity.
Qed.

Lemma DateFromTime_Day (t : Z) : DateFromTime t = dateOfDay (Day t).
Proof.
  unfold dateOfDay, DateFromTime, MonthFromTime, InLeapYear, DayWithinYear,
    YearFromTime.
  rewrite Day_whole. reflexivity.
Qed.

Lemma yearOfDay_civilDay (year month date : Z) :
  1 <= month <= 12 -> 1 <= date <= daysOfMonth month year ->
  yearOfDay (civilDay year month date) = year.
Proof.
  intros Hm Hd. unfold yearOfDay, YearFromTime. rewrite Day_whole.
  apply YearFromDay_unique, civilDay_in_year; assumption.
Qed.

Lemma monthOfYearDay_monthStart (leap month date : Z) (year : Z) :
  leap = (if isLeap year then 1 else 0) ->
  1 <= month <= 12 -> 1 <= date <= daysOfMonth month year ->
  monthOfYearDay leap (monthStart leap (month - 1) + date - 1) = month - 1.
Proof.
  intros -> Hm Hd. unfold monthOfYearDay.
  each_month Hm; month_simpl; destruct (isLeap year);
    repeat match goal with
           | |- context [?a <? ?b] =>
               destruct (Z.ltb_spec a b); try lia
           end.
Qed.

Lemma monthOfDay_civilDay (year month date : Z) :
  1 <= month <= 12 -> 1 <= date <= daysOfMonth month year ->
  monthOfDay (civilDay year month date) = month - 1.
Proof.
  intros Hm Hd.
  pose proof (yearOfDay_civilDay year month date Hm Hd) as Y.
  unfold yearOfDay in Y.
  unfold monthOfDay, MonthFromTime, InLeapYear, DayWithinYear. rewrite Y.
  rewrite Day_whole. unfold civilDay.
  replace (DayFromYear year + monthStart (if isLeap year then 1 else 0) (month - 1)
           + date - 1 - DayFromYear year)
    with (monthStart (if isLeap year then 1 else 0) (month - 1) + date - 1) by lia.
  apply (monthOfYearDay_monthStart _ month date year eq_refl Hm Hd).
Qed.

Lemma dateOfDay_civilDay (year month date : Z) :
  1 <= month <= 12 -> 1 <= date <= daysOfMonth month year ->
  dateOfDay (civilDay year month date) = date.
Proof.
  intros Hm Hd.
  pose proof (yearOfDay_civilDay year month date Hm Hd) as Y.
  pose proof (monthOfDay_civilDay year month date Hm Hd) as M.
  unfold yearOfDay in Y. unfold monthOfDay in M.
  unfold dateOfDay, DateFromTime. rewrite M.
  unfold InLeapYear, DayWithinYear. rewrite Y, Day_whole.
  unfold civilDay. lia.
Qed.

(** ** getNextFridayThe13th *)

Lemma checkYearPair_all (l l' w : Z) :
  0 <= l <= 1 -> 0 <= l' <= 1 -> l + l' <= 1 -> 0 <= w < 7 ->
  checkYearPair l l' w = true.
Proof.
  intros L L' N W.
  assert (Cl : l = 0 \/ l = 1) by lia.
  assert (Cl' : l' = 0 \/ l' = 1) by lia.
  assert (Cw : w = 0 \/ w = 1 \/ w = 2 \/ w = 3 \/ w = 4 \/ w = 5 \/ w = 6) by lia.
  decompose [or] Cl; decompose [or] Cl'; decompose [or] Cw; subst;
    try lia; vm_compute; reflexivity.
Qed.

Lemma upto_In (n i : Z) : In i (upto n) <-> 0 <= i < n.
Proof.
  unfold upto. rewrite in_map_iff. split.
  - intros (k & <- & Hk). apply in_seq in Hk. lia.
  - intros H. exists (Z.to_nat i). split; [ lia | ]. apply in_seq. lia.
Qed.

Lemma leap_years_apart (y : Z) :
  (if isLeap y then 1 else 0) + (if isLeap (y + 1) then 1 else 0) <= 1.
Proof.
  unfold isLeap.
  destruct (Z.eqb_spec (y mod 4) 0); destruct (Z.eqb_spec ((y + 1) mod 4) 0);
    cbn [andb]; try lia.
  - exfalso. zlia.
  - destruct (_ || _); lia.
  - destruct (_ || _); lia.
Qed.

Lemma thirteenths_dates (y g : Z) :
  In g (thirteenths (if isLeap y then 1 else 0) (if isLeap (y + 1) then 1 else 0)) ->
  dateOfDay (DayFromYear y + g) = 13.
Proof.
  unfold thirteenths. rewrite in_app_iff, !in_map_iff.
  intros [(m & <- & Hm) | (m & <- & Hm)]; apply upto_In in Hm.
  - replace (DayFromYear y + (monthStart (if isLeap y then 1 else 0) m + 12))
      with (civilDay y (m + 1) 13)
      by (unfold civilDay; rewrite Z.add_simpl_r; lia).
    apply dateOfDay_civilDay; [ lia | ].
    pose proof (daysOfMonth_range (m + 1) y). lia.
  - replace (DayFromYear y
             + (365 + (if isLeap y then 1 else 0)
                + monthStart (if isLeap (y + 1) then 1 else 0) m + 12))
      with (civilDay (y + 1) (m + 1) 13)
      by (unfold civilDay; rewrite Z.add_simpl_r, DayFromYear_succ,
            isLeap_DaysInYear; lia).
    apply dateOfDay_civilDay; [ lia | ].
    pose proof (daysOfMonth_range (m + 1) (y + 1)). lia.
Qed.

(** After every day there is a Friday the 13th within 427 days. *)
Lemma friday_13th_within_427 (d : Z) :
  exists g : Z, d < g <= d + 427 /\ weekdayOfDay g = 5 /\ dateOfDay g = 13.
Proof.
  pose proof (YearFromDay_spec d) as S.
  set (y := YearFromDay d) in *.
  rewrite DayFromYear_succ, isLeap_DaysInYear in S.
  set (l := if isLeap y then 1 else 0) in *.
  set (l' := if isLeap (y + 1) then 1 else 0).
  assert (L : 0 <= l <= 1) by (subst l; destruct (isLeap y); lia).
  assert (L' : 0 <= l' <= 1) by (subst l'; destruct (isLeap (y + 1)); lia).
  pose proof (leap_years_apart y) as N. fold l l' in N.
  pose proof (checkYearPair_all l l' (weekdayOfDay (DayFromYear y)) L L' N
                (weekdayOfDay_range _)) as C.
  unfold checkYearPair in C. rewrite forallb_forall in C.
  specialize (C (d - DayFromYear y)). rewrite upto_In in C.
  specialize (C ltac:(lia)).
  unfold fridayThe13thAhead in C. apply existsb_exists in C.
  destruct C as (g & Hg & C).
  rewrite !andb_true_iff, Z.ltb_lt, Z.leb_le, Z.eqb_eq in C.
  destruct C as [[C1 C2] C3].
  exists (DayFromYear y + g). split; [ lia | split ].
  - rewrite weekdayOfDay_add. exact C3.
  - apply thirteenths_dates. exact Hg.
Qed.

Lemma stepsTo13_found (n : nat) (f : Z) (j : nat) :
  (j < n)%nat -> dateOfDay (f + 7 * Z.of_nat j) = 13 ->
  exists j0 : nat, (j0 <= j)%nat /\ stepsTo13 n f = Some j0.
Proof.
  revert f j. induction n as [ | n IH ]; intros f j Hj D; [ lia | ].
  cbn [stepsTo13]. destruct (Z.eqb_spec (dateOfDay f) 13) as [E | E].
  - exists O. split; [ lia | reflexivity ].
  - destruct j as [ | j ].
    + rewrite Z.mul_0_r, Z.add_0_r in D. contradiction.
    + destruct (IH (f + 7) j ltac:(lia)) as (j0 & Hj0 & S0).
      * rewrite <- D. f_equal. lia.
      * exists (S j0). rewrite S0. split; [ lia | reflexivity ].
Qed.

Lemma stepsTo13_spec (n : nat) (f : Z) (j : nat) :
  stepsTo13 n f = Some j ->
  (j < n)%nat
  /\ dateOfDay (f + 7 * Z.of_nat j) = 13
  /\ forall i : nat, (i < j)%nat -> dateOfDay (f + 7 * Z.of_nat i) <> 13.
Proof.
  revert f j. induction n as [ | n IH ]; intros f j; cbn [stepsTo13];
    [ discriminate | ].
  destruct (Z.eqb_spec (dateOfDay f) 13) as [E | E].
  - intros [= <-]. rewrite Z.mul_0_r, Z.add_0_r. repeat split; [ lia | exact E | lia ].
  - destruct (stepsTo13 n (f + 7)) as [ j' | ] eqn:S0; [ | discriminate ].
    intros [= <-]. destruct (IH _ _ S0) as (A & B & C).
    repeat split.
    + lia.
    + rewrite <- B. f_equal. lia.
    + intros [ | i ] Hi.
      * rewrite Z.mul_0_r, Z.add_0_r. exact E.
      * replace (f + 7 * Z.of_nat (S i)) with (f + 7 + 7 * Z.of_nat i) by lia.
        apply C. lia.
Qed.

(** From every Friday, at most 60 steps of seven days reach a 13th. *)
Lemma friday_reaches_13th (f : Z) :
  weekdayOfDay f = 5 -> exists j : nat, stepsTo13 61 f = Some j.
Proof.
  intros F. destruct (friday_13th_within_427 (f - 7)) as (g & G & W & D).
  assert (M : (g - f) mod 7 = 0) by (unfold weekdayOfDay in *; zlia).
  destruct (stepsTo13_found 61 f (Z.to_nat ((g - f) / 7))) as (j0 & _ & S0).
  - zlia.
  - rewrite <- D. f_equal. zlia.
  - exists j0. exact S0.
Qed.

(** The body of [getNextFridayThe13th] repeats that of [getNextFriday]. *)
Lemma getNextFridayThe13th_step (tz : TimeZone) (fuel : nat) (date : Date) :
  getNextFridayThe13th tz (S fuel) date
  = if (getDate tz (getNextFriday tz date) === #13)%num
    then Some (getNextFriday tz date)
    else getNextFridayThe13th tz fuel (getNextFriday tz date).
Proof. reflexivity. Qed.

(** On the Invalid Date the recursion never returns. *)
Lemma getNextFridayThe13th_invalid (tz : TimeZone) (fuel : nat) :
  getNextFridayThe13th tz fuel NaN = None.
Proof. induction fuel as [ | fuel IH ]; [ reflexivity | exact IH ]. Qed.

(** Every date that the recursion visits is later than the one before. *)
Lemma getNextFriday_later (tz : TimeZone) (s s' : Z) :
  getNextFriday tz #s = #s' -> s < s'.
Proof.
  rewrite getNextFriday_unfold. intros H.
  apply TimeClip_some in H. destruct H as [-> _].
  pose proof (daysToFriday_range _ (weekdayOfDay_range (Day (LocalTime tz s)))) as R.
  rewrite <- WeekDay_weekdayOfDay in R. rewrite msPerDay_eq. lia.
Qed.

Lemma getNextFridayThe13th_later (tz : TimeZone) (fuel : nat) :
  forall s r : Z, getNextFridayThe13th tz fuel #s = Some #r -> s < r.
Proof.
  induction fuel as [ | fuel IH ]; intros s r H; [ discriminate | ].
  rewrite getNextFridayThe13th_step in H.
  destruct (getNextFriday tz #s) as [ s' | ] eqn:N.
  - pose proof (getNextFriday_later _ _ _ N) as L.
    destruct (getDate tz #s' === #13)%num.
    + injection H as <-. exact L.
    + apply IH in H. lia.
  - cbn [getDate bind num_eq num_cmp] in H.
    rewrite getNextFridayThe13th_invalid in H. discriminate.
Qed.

Section FridayThe13th.

(** The host has no clock changes: its local time is UTC plus [tza]
    milliseconds throughout, the zone [fixedZone tza]. *)
Variable tza : Z.

Lemma getDate_dateOfDay (t : Z) :
  (getDate tza (Some t) === #13)%num = (dateOfDay (Day (LocalTime tza t)) =? 13).
Proof.
  unfold getDate. cbn [bind]. rewrite DateFromTime_Day. reflexivity.
Qed.

(** The calls made from a Friday [t1] on: [j] further Fridays are visited,
    and the recursion needs [j] more calls. *)
Lemma fridays_loop (n : nat) :
  forall (t1 : Z) (j fuel : nat),
    weekdayOfDay (Day (LocalTime tza t1)) = 5 ->
    stepsTo13 n (Day (LocalTime tza t1)) = Some j ->
    validTime t1 -> t1 + 7 * Z.of_nat j * msPerDay <= maxTime ->
    (if dateOfDay (Day (LocalTime tza t1)) =? 13 then Some (Some t1)
     else getNextFridayThe13th tza fuel (Some t1))
    = if (fuel <? j)%nat then None
      else Some (Some (t1 + 7 * Z.of_nat j * msPerDay)).
Proof.
  induction n as [ | n IH ]; intros t1 j fuel F S0 V R; cbn [stepsTo13] in S0;
    [ discriminate | ].
  destruct (dateOfDay (Day (LocalTime tza t1)) =? 13) eqn:E.
  - injection S0 as <-. cbn [Nat.ltb Nat.leb].
    rewrite Z.mul_0_r, Z.mul_0_l, Z.add_0_r. reflexivity.
  - destruct (stepsTo13 n (Day (LocalTime tza t1) + 7)) as [ j' | ] eqn:S1;
      [ | discriminate ].
    injection S0 as <-.
    destruct fuel as [ | fuel ]; [ reflexivity | ].
    rewrite getNextFridayThe13th_step.
    assert (N : getNextFriday tza (Some t1) = Some (t1 + 7 * msPerDay)).
    { rewrite getNextFriday_value.
      - rewrite WeekDay_weekdayOfDay, F. reflexivity.
      - exact V.
      - rewrite msPerDay_eq in *. lia. }
    rewrite N, getDate_dateOfDay.
    assert (D : Day (LocalTime tza (t1 + 7 * msPerDay)) = Day (LocalTime tza t1) + 7)
      by (rewrite LocalTime_add_days, Day_add_days; reflexivity).
    etransitivity; [ apply (IH (t1 + 7 * msPerDay) j' fuel) | ].
    + rewrite D, <- (Z.mul_1_r 7), weekdayOfDay_period. exact F.
    + rewrite D. exact S1.
    + unfold validTime in *. rewrite msPerDay_eq in *. lia.
    + rewrite msPerDay_eq in *. lia.
    + change (S fuel <? S j')%nat with (fuel <? j')%nat.
      destruct (fuel <? j')%nat; [ reflexivity | ]. do 2 f_equal. lia.
Qed.

(** The whole run: with [k] days to the first Friday and [j] further
    Fridays to the first 13th, the recursion returns at its call number
    [j + 1], and the result is [k + 7 j] days after the date. *)
Lemma getNextFridayThe13th_run (t : Z) :
  validTime t -> t + 427 * msPerDay <= maxTime ->
  exists j : nat,
    (j <= 60)%nat
    /\ stepsTo13 61 (Day (LocalTime tza t)
                     + daysToFriday (WeekDay (LocalTime tza t))) = Some j
    /\ forall fuel : nat,
         getNextFridayThe13th tza fuel (Some t)
         = if (fuel <=? j)%nat then None
           else Some (Some (t + (daysToFriday (WeekDay (LocalTime tza t))
                                 + 7 * Z.of_nat j) * msPerDay)).
Proof.
  intros V R.
  pose proof (weekdayOfDay_range (Day (LocalTime tza t))) as W.
  pose proof (daysToFriday_range _ W) as K.
  rewrite WeekDay_weekdayOfDay.
  set (k := daysToFriday (weekdayOfDay (Day (LocalTime tza t)))) in *.
  assert (F : weekdayOfDay (Day (LocalTime tza t) + k) = 5)
    by (rewrite weekdayOfDay_add; apply daysToFriday_friday; exact W).
  destruct (friday_reaches_13th _ F) as (j & S0).
  pose proof (stepsTo13_spec _ _ _ S0) as (J & _ & _).
  exists j. split; [ lia | split; [ exact S0 | ] ].
  intros [ | fuel ]; [ reflexivity | ].
  rewrite getNextFridayThe13th_step.
  rewrite getNextFriday_value, WeekDay_weekdayOfDay
    by (exact V || rewrite msPerDay_eq in *; lia).
  fold k. rewrite getDate_dateOfDay.
  assert (D : Day (LocalTime tza (t + k * msPerDay)) = Day (LocalTime tza t) + k)
    by (rewrite LocalTime_add_days, Day_add_days; reflexivity).
  etransitivity; [ apply (fridays_loop 61 (t + k * msPerDay) j fuel) | ].
  - rewrite D. exact F.
  - rewrite D. exact S0.
  - unfold validTime in *. rewrite msPerDay_eq in *. lia.
  - rewrite msPerDay_eq in *. lia.
  - change (S fuel <=? j)%nat with (fuel <? j)%nat.
    destruct (fuel <? j)%nat; [ reflexivity | ]. do 2 f_equal. lia.
Qed.

End FridayThe13th.

(** A zone whose offset is [o] at every time value from [lo] to [hi] runs
    the recursion as the zone of fixed offset [o] does, as long as the dates
    visited stay in this range. *)

Section FridayThe13thAnyZone.

Variable tz : TimeZone.

Lemma getNextFriday_same_offset (o u : Z) :
  LocalTZA tz u true = o -> getNextFriday tz #u = getNextFriday o #u.
Proof.
  intros E. rewrite !getNextFriday_unfold. unfold LocalTime. rewrite E.
  reflexivity.
Qed.

Lemma getDate_same_offset (o u : Z) :
  LocalTZA tz u true = o -> getDate tz #u = getDate o #u.
Proof.
  intros E. unfold getDate. cbn [bind]. unfold LocalTime. rewrite E.
  reflexivity.
Qed.

Lemma getNextFridayThe13th_same_offset (o lo hi : Z) :
  (forall u : Z, lo <= u <= hi -> LocalTZA tz u true = o) ->
  forall (n : nat) (s r : Z),
    lo <= s -> r <= hi ->
    getNextFridayThe13th o n #s = Some #r ->
    forall fuel : nat,
      getNextFridayThe13th tz fuel #s = getNextFridayThe13th o fuel #s.
Proof.
  intros O. induction n as [ | n IH ]; intros s r Hs Hr H fuel; [ discriminate | ].
  pose proof (getNextFridayThe13th_later _ _ _ _ H) as Lsr.
  destruct fuel as [ | fuel ]; [ reflexivity | ].
  rewrite !getNextFridayThe13th_step in *.
  rewrite (getNextFriday_same_offset o s) by (apply O; lia).
  destruct (getNextFriday o #s) as [ s' | ] eqn:N.
  - pose proof (getNextFriday_later _ _ _ N) as Ls.
    destruct (getDate o #s' === #13)%num eqn:D.
    + injection H as <-.
      rewrite (getDate_same_offset o s') by (apply O; lia).
      rewrite D. reflexivity.
    + pose proof (getNextFridayThe13th_later _ _ _ _ H) as Lr.
      rewrite (getDate_same_offset o s') by (apply O; lia).
      rewrite D. apply (IH s' r); [ lia | exact Hr | exact H ].
  - cbn [getDate bind num_eq num_cmp] in H.
    rewrite getNextFridayThe13th_invalid in H. discriminate.
Qed.

Variable t : Z.
Hypothesis t_valid : validTime t.
Hypothesis t_range : t + 427 * msPerDay <= maxTime.

(** No clock change in the 427 days that follow the date. *)
Hypothesis same_offset :
  forall u : Z, t <= u <= t + 427 * msPerDay ->
                LocalTZA tz u true = LocalTZA tz t true.

(** The run of the recursion in such a zone. *)
Lemma getNextFridayThe13th_zone_run :
  exists (j : nat) (r : Z),
    (j <= 60)%nat
    /\ r = t + (daysToFriday (weekdayOfDay (Day (LocalTime tz t)))
                + 7 * Z.of_nat j) * msPerDay
    /\ stepsTo13 61 (Day (LocalTime tz t)
                     + daysToFriday (weekdayOfDay (Day (LocalTime tz t)))) = Some j
    /\ (forall fuel : nat,
          getNextFridayThe13th tz fuel #t
          = if (fuel <=? j)%nat then None else Some #r)
    /\ LocalTime tz r
       = LocalTime tz t
         + (daysToFriday (weekdayOfDay (Day (LocalTime tz t)))
            + 7 * Z.of_nat j) * msPerDay.
Proof.
  set (o := LocalTZA tz t true).
  assert (Lt : LocalTime tz t = LocalTime o t) by reflexivity.
  destruct (getNextFridayThe13th_run o t t_valid t_range) as (j & J & S0 & Run).
  rewrite WeekDay_weekdayOfDay, <- Lt in *.
  pose proof (daysToFriday_range _ (weekdayOfDay_range (Day (LocalTime tz t)))) as K.
  set (k := daysToFriday (weekdayOfDay (Day (LocalTime tz t)))) in *.
  exists j, (t + (k + 7 * Z.of_nat j) * msPerDay).
  assert (R : t + (k + 7 * Z.of_nat j) * msPerDay <= t + 427 * msPerDay)
    by (rewrite msPerDay_eq; lia).
  split; [ exact J | split; [ reflexivity | split; [ exact S0 | split ] ] ].
  - intros fuel. rewrite <- Run.
    apply (getNextFridayThe13th_same_offset o t (t + 427 * msPerDay) same_offset
             (S j) t (t + (k + 7 * Z.of_nat j) * msPerDay)); [ lia | exact R | ].
    rewrite Run. destruct (Nat.leb_spec (S j) j); [ lia | reflexivity ].
  - unfold LocalTime. rewrite same_offset by (rewrite msPerDay_eq in *; lia). lia.
Qed.

(** C8: for a valid date no later than 427 days before the largest time
    value, when the offset of local time does not change in the 427 days
    that follow the date, the recursion of [getNextFridayThe13th] ends at
    its call number [n], not before, with [1 <= n <= 61], so within 84
    advances, and what it returns is a Friday the 13th. *)
Theorem getNextFridayThe13th_terminates :
  exists (n : nat) (r : Z),
    (1 <= n <= 61)%nat /\ (n <= 84)%nat
    /\ (forall fuel : nat, (fuel < n)%nat ->
                           getNextFridayThe13th tz fuel (Some t) = None)
    /\ (forall fuel : nat, (n <= fuel)%nat ->
                           getNextFridayThe13th tz fuel (Some t) = Some #r)
    /\ getDay tz #r = #5 /\ getDate tz #r = #13.
Proof.
  destruct getNextFridayThe13th_zone_run as (j & r & J & _ & S0 & Run & Lr).
  pose proof (weekdayOfDay_range (Day (LocalTime tz t))) as W.
  pose proof (stepsTo13_spec _ _ _ S0) as (_ & D13 & _).
  set (k := daysToFriday (weekdayOfDay (Day (LocalTime tz t)))) in *.
  exists (S j), r.
  split; [ lia | split; [ lia | ] ].
  assert (D : Day (LocalTime tz r) = Day (LocalTime tz t) + k + 7 * Z.of_nat j)
    by (rewrite Lr, Day_add_days; lia).
  repeat split.
  - intros fuel Hf. rewrite Run.
    destruct (Nat.leb_spec fuel j); [ reflexivity | lia ].
  - intros fuel Hf. rewrite Run.
    destruct (Nat.leb_spec fuel j); [ lia | reflexivity ].
  - unfold getDay. cbn [bind]. rewrite WeekDay_weekdayOfDay, D.
    rewrite weekdayOfDay_period, weekdayOfDay_add.
    f_equal. apply daysToFriday_friday. exact W.
  - unfold getDate. cbn [bind]. rewrite DateFromTime_Day, D, D13. reflexivity.
Qed.

(** C3: for a valid date no later than 427 days before the largest time
    value, when the offset of local time does not change in the 427 days
    that follow the date, [getNextFridayThe13th] returns a date whose day of
    the month is 13 and whose weekday is Friday, on a later calendar day than
    the given date, with no Friday the 13th on a day strictly between, and
    at the same time of day. *)
Theorem getNextFridayThe13th_minimal :
  exists r : Z,
    (forall fuel : nat, (61 <= fuel)%nat ->
                        getNextFridayThe13th tz fuel (Some t) = Some #r)
    /\ getDate tz #r = #13
    /\ getDay tz #r = #5
    /\ Day (LocalTime tz t) < Day (LocalTime tz r)
    /\ (forall d : Z, Day (LocalTime tz t) < d < Day (LocalTime tz r) ->
                      ~ (weekdayOfDay d = 5 /\ dateOfDay d = 13))
    /\ TimeWithinDay (LocalTime tz r) = TimeWithinDay (LocalTime tz t).
Proof.
  destruct getNextFridayThe13th_zone_run as (j & r & J & _ & S0 & Run & Lr).
  pose proof (weekdayOfDay_range (Day (LocalTime tz t))) as W.
  pose proof (daysToFriday_range _ W) as K.
  pose proof (stepsTo13_spec _ _ _ S0) as (_ & D13 & First).
  set (k := daysToFriday (weekdayOfDay (Day (LocalTime tz t)))) in *.
  exists r.
  assert (D : Day (LocalTime tz r) = Day (LocalTime tz t) + k + 7 * Z.of_nat j)
    by (rewrite Lr, Day_add_days; lia).
  rewrite D. repeat split.
  - intros fuel Hf. rewrite Run.
    destruct (Nat.leb_spec fuel j); [ lia | reflexivity ].
  - unfold getDate. cbn [bind]. rewrite DateFromTime_Day, D, D13. reflexivity.
  - unfold getDay. cbn [bind]. rewrite WeekDay_weekdayOfDay, D.
    rewrite weekdayOfDay_period, weekdayOfDay_add.
    f_equal. apply daysToFriday_friday. exact W.
  - lia.
  - intros d Hd [F13 D13'].
    set (D0 := Day (LocalTime tz t)) in *.
    destruct (Z_lt_dec (d - D0) k) as [A | A].
    + apply (daysToFriday_first _ (d - D0) W); [ fold k; lia | ].
      rewrite <- weekdayOfDay_add. replace (D0 + (d - D0)) with d by lia.
      exact F13.
    + assert (Fk : weekdayOfDay (D0 + k) = 5)
        by (rewrite weekdayOfDay_add; apply daysToFriday_friday; exact W).
      assert (M : (d - (D0 + k)) mod 7 = 0) by (unfold weekdayOfDay in *; zlia).
      apply (First (Z.to_nat ((d - (D0 + k)) / 7))).
      * zlia.
      * rewrite <- D13'. f_equal. zlia.
  - rewrite Lr, TimeWithinDay_add_days. reflexivity.
Qed.

End FridayThe13thAnyZone.

Example getNextFridayThe13th_examples :
  getNextFridayThe13th 0 61 (newDateYMD 0 #2024 #0 #13)
  = Some (newDateYMD 0 #2024 #8 #13)
  /\ getNextFridayThe13th 0 61 (newDateYMD 0 #2023 #1 #1)
     = Some (newDateYMD 0 #2023 #9 #13).
Proof. split; vm_compute; reflexivity. Qed.

(** An instance of C8: Saturday 13 January 2024, 00:00 UTC, on a host whose
    local time is UTC. *)
Lemma getNextFridayThe13th_terminates_witness :
  validTime 1705104000000 /\ 1705104000000 + 427 * msPerDay <= maxTime
  /\ (forall u : Z, 1705104000000 <= u <= 1705104000000 + 427 * msPerDay ->
                    LocalTZA 0 u true = LocalTZA 0 1705104000000 true)
  /\ exists (n : nat) (r : Z),
       (1 <= n <= 61)%nat /\ (n <= 84)%nat
       /\ (forall fuel : nat, (fuel < n)%nat ->
                              getNextFridayThe13th 0 fuel #1705104000000 = None)
       /\ (forall fuel : nat, (n <= fuel)%nat ->
                              getNextFridayThe13th 0 fuel #1705104000000 = Some #r)
       /\ getDay 0 #r = #5 /\ getDate 0 #r = #13.
Proof.
  assert (V : validTime 1705104000000) by (unfold validTime, maxTime; lia).
  assert (R : 1705104000000 + 427 * msPerDay <= maxTime)
    by (unfold msPerDay, maxTime; lia).
  assert (O : forall u : Z,
             1705104000000 <= u <= 1705104000000 + 427 * msPerDay ->
             LocalTZA 0 u true = LocalTZA 0 1705104000000 true)
    by (intros u _; reflexivity).
  split; [ exact V | split; [ exact R | split; [ exact O | ] ] ].
  exact (getNextFridayThe13th_terminates 0 1705104000000 V R O).
Defined.

(** C8, the last Friday before the largest time value (12 September 275760,
    not a 13th): the recursion does not end. *)
Lemma getNextFridayThe13th_no_end :
  validTime 8639999913600000
  /\ getDay 0 #8639999913600000 = #5
  /\ ~ exists (n : nat) (r : Date),
         getNextFridayThe13th 0 n #8639999913600000 = Some r.
Proof.
  split; [ unfold validTime, maxTime; lia | split; [ vm_compute; reflexivity | ] ].
  intros (n & r & H). destruct n as [ | n ]; [ discriminate | ].
  rewrite getNextFridayThe13th_step in H.
  replace (getNextFriday 0 #8639999913600000) with NaN in H
    by (vm_compute; reflexivity).
  cbn [getDate bind num_eq num_cmp] in H.
  rewrite getNextFridayThe13th_invalid in H. discriminate.
Qed.

(** An instance of C3: Wednesday 1 February 2023, 00:00 UTC, on a host
    whose local time is UTC. *)
Lemma getNextFridayThe13th_minimal_witness :
  validTime 1675209600000 /\ 1675209600000 + 427 * msPerDay <= maxTime
  /\ (forall u : Z, 1675209600000 <= u <= 1675209600000 + 427 * msPerDay ->
                    LocalTZA 0 u true = LocalTZA 0 1675209600000 true)
  /\ exists r : Z,
       (forall fuel : nat, (61 <= fuel)%nat ->
                           getNextFridayThe13th 0 fuel #1675209600000 = Some #r)
       /\ getDate 0 #r = #13
       /\ getDay 0 #r = #5
       /\ Day (LocalTime 0 1675209600000) < Day (LocalTime 0 r)
       /\ (forall d : Z, Day (LocalTime 0 1675209600000) < d < Day (LocalTime 0 r) ->
                         ~ (weekdayOfDay d = 5 /\ dateOfDay d = 13))
       /\ TimeWithinDay (LocalTime 0 r) = TimeWithinDay (LocalTime 0 1675209600000).
Proof.
  assert (V : validTime 1675209600000) by (unfold validTime, maxTime; lia).
  assert (R : 1675209600000 + 427 * msPerDay <= maxTime)
    by (unfold msPerDay, maxTime; lia).
  assert (O : forall u : Z,
             1675209600000 <= u <= 1675209600000 + 427 * msPerDay ->
             LocalTZA 0 u true = LocalTZA 0 1675209600000 true)
    by (intros u _; reflexivity).
  split; [ exact V | split; [ exact R | split; [ exact O | ] ] ].
  exact (getNextFridayThe13th_minimal 0 1675209600000 V R O).
Defined.

(** C3, the last valid date: its next Friday is beyond the largest time
    value, the Invalid Date has no day of the month, and the recursion goes
    on for ever. *)
Lemma getNextFridayThe13th_last_date :
  validTime 8640000000000000
  /\ forall fuel : nat, getNextFridayThe13th 0 fuel #8640000000000000 = None.
Proof.
  split; [ unfold validTime, maxTime; lia | ].
  intros [ | fuel ]; [ reflexivity | ].
  rewrite getNextFridayThe13th_step.
  replace (getNextFriday 0 #8640000000000000) with NaN by (vm_compute; reflexivity).
  apply getNextFridayThe13th_invalid.
Qed.

(** When the clocks change on the way, a Friday the 13th can be passed over.
    In New York the clocks are set forward an hour on 8 March 2026: from
    Friday 6 March 2026, 23:30, seven times 24 hours lead to Saturday
    14 March, 00:30, and the recursion returns Friday 13 November 2026 at its
    call number 37, though Friday 13 March 2026 lies between. *)
Lemma getNextFridayThe13th_clock_change :
  getDay America_New_York #1772857800000 = #5
  /\ getDate America_New_York #1772857800000 = #6
  /\ getMonth America_New_York #1772857800000 = #2
  /\ getNextFriday America_New_York #1772857800000 = #(1772857800000 + 7 * msPerDay)
  /\ getDay America_New_York (getNextFriday America_New_York #1772857800000) = #6
  /\ getDate America_New_York (getNextFriday America_New_York #1772857800000) = #14
  /\ getNextFridayThe13th America_New_York 36 #1772857800000 = None
  /\ getNextFridayThe13th America_New_York 37 #1772857800000 = Some #1794630600000
  /\ getMonth America_New_York #1794630600000 = #10
  /\ getDate America_New_York #1794630600000 = #13
  /\ (1772857800000 < 1773374400000 < 1794630600000
      /\ getDay America_New_York #1773374400000 = #5
      /\ getDate America_New_York #1773374400000 = #13
      /\ getMonth America_New_York #1773374400000 = #2).
Proof. repeat split; vm_compute; reflexivity. Qed.

(** With clock changes on the way the recursion can also take more than 84
    calls.  In Sao Paulo, from Friday 13 August 1999, 23:30, it returns at its
    call number 89, with Friday 13 April 2001; Friday 13 October 2000 is
    passed over. *)
Lemma getNextFridayThe13th_many_calls :
  getDay America_Sao_Paulo #934597800000 = #5
  /\ getDate America_Sao_Paulo #934597800000 = #13
  /\ getNextFridayThe13th America_Sao_Paulo 88 #934597800000 = None
  /\ getNextFridayThe13th America_Sao_Paulo 89 #934597800000 = Some #987215400000
  /\ getFullYear America_Sao_Paulo #987215400000 = #2001
  /\ getMonth America_Sao_Paulo #987215400000 = #3
  /\ getDate America_Sao_Paulo #987215400000 = #13.
Proof. repeat split; vm_compute; reflexivity. Qed.

(** ** getQuarter *)

Lemma MonthFromTime_range (t : Z) : 0 <= MonthFromTime t <= 11.
Proof.
  unfold MonthFromTime, monthOfYearDay.
  repeat match goal with
         | |- context [if ?b then _ else _] => destruct b
         end; lia.
Qed.

Section Quarter.

Variable tz : TimeZone.

(** C10: [getQuarter] returns 0 on the Invalid Date, whose month is NaN, and
    on every date whose month is not within 0..11. *)
Theorem getQuarter_zero :
  (exists date : Date, getMonth tz date = NaN /\ getQuarter tz date = 0)
  /\ (forall date : Date,
        (getMonth tz date >=? #0)%num && (getMonth tz date <=? #11)%num = false ->
        getQuarter tz date = 0).
Proof.
  split.
  - exists NaN. split; reflexivity.
  - intros date. unfold getQuarter.
    destruct (getMonth tz date) as [ m | ]; [ | reflexivity ].
    num_unfold. rewrite andb_false_iff, !Z.geb_leb, Z.leb_gt, Z.leb_gt. intros H.
    repeat match goal with
           | |- context [?a <=? ?b] => destruct (Z.leb_spec a b); try lia
           end; reflexivity.
Qed.

(** The valid dates never give 0: the quarter of a valid date is 1..4. *)
Lemma getQuarter_valid (t : Z) : 1 <= getQuarter tz (Some t) <= 4.
Proof.
  unfold getQuarter, getMonth. cbn [bind]. num_unfold.
  pose proof (MonthFromTime_range (LocalTime tz t)) as R.
  rewrite !Z.geb_leb.
  repeat match goal with
         | |- context [?a <=? ?b] => destruct (Z.leb_spec a b); try lia
         end; cbn [andb]; lia.
Qed.

End Quarter.

Example getQuarter_examples :
  getQuarter 0 (newDateYMD 0 #2024 #1 #13) = 1
  /\ getQuarter 0 (newDateYMD 0 #2024 #5 #1) = 2
  /\ getQuarter 0 (newDateYMD 0 #2024 #10 #10) = 4.
Proof. repeat split; vm_compute; reflexivity. Qed.

(** An instance of C10: the Invalid Date. *)
Lemma getQuarter_zero_witness : getQuarter 0 NaN = 0.
Proof. apply (proj2 (getQuarter_zero 0) NaN). reflexivity. Defined.

(** ** formatDate *)

Lemma DayWithinYear_range (t : Z) :
  0 <= DayWithinYear t < 365 + InLeapYear t.
Proof.
  unfold DayWithinYear, InLeapYear, YearFromTime.
  pose proof (YearFromDay_spec (Day t)) as S.
  rewrite DayFromYear_succ, isLeap_DaysInYear in S. lia.
Qed.

Lemma DateFromTime_range (t : Z) : 1 <= DateFromTime t <= 31.
Proof.
  unfold DateFromTime, MonthFromTime.
  pose proof (DayWithinYear_range t) as R.
  assert (L : 0 <= InLeapYear t <= 1)
    by (unfold InLeapYear; destruct (isLeap _); lia).
  set (l := InLeapYear t) in *. set (d := DayWithinYear t) in *.
  unfold monthOfYearDay.
  repeat match goal with
         | |- context [?a <? ?b] => destruct (Z.ltb_spec a b)
         end; cbv beta iota delta [monthStart]; lia.
Qed.

Lemma HourFromTime_range (t : Z) : 0 <= HourFromTime t < 24.
Proof. unfold HourFromTime. apply Z.mod_pos_bound. lia. Qed.

Lemma MinFromTime_range (t : Z) : 0 <= MinFromTime t < 60.
Proof. unfold MinFromTime. apply Z.mod_pos_bound. lia. Qed.

Lemma SecFromTime_range (t : Z) : 0 <= SecFromTime t < 60.
Proof. unfold SecFromTime. apply Z.mod_pos_bound. lia. Qed.

Lemma hour12_range (h : Z) : 0 <= h < 24 -> 1 <= hour12 h <= 12.
Proof.
  intros H. unfold hour12. destruct (Z.eqb_spec (h mod 12) 0); zlia.
Qed.

Lemma allBelow_spec (p : Z -> bool) (n : nat) :
  forall i : Z, allBelow n i p = true ->
                forall k : Z, i <= k < i + Z.of_nat n -> p k = true.
Proof.
  induction n as [ | n IH ]; intros i A k Hk; [ lia | ].
  cbn [allBelow] in A. destruct (p i) eqn:E; [ | discriminate ].
  destruct (Z.eq_dec k i) as [-> | N]; [ exact E | ].
  apply (IH (i + 1) A). lia.
Qed.

(** Numbers below 100 print with one digit below 10 and two from 10 on; and
    padded to two characters they read back as themselves. *)
Lemma toString_two_digits (n : Z) :
  0 <= n < 100 ->
  String.length (toString #n) = (if (n <? 10)%Z then 1 else 2)%nat
  /\ String.length (padStart 2 (toString #n)) = 2%nat
  /\ StringToNumber (padStart 2 (toString #n)) = #n.
Proof.
  intros H.
  pose proof (allBelow_spec
                (fun n => (String.length (toString #n)
                           =? (if (n <? 10)%Z then 1 else 2))%nat
                          && (String.length (padStart 2 (toString #n)) =? 2)%nat
                          && match StringToNumber (padStart 2 (toString #n)) with
                             | Some m => m =? n
                             | None => false
                             end)
                100 0 ltac:(vm_compute; reflexivity) n ltac:(lia)) as A.
  cbv beta in A. rewrite !andb_true_iff, !Nat.eqb_eq in A.
  destruct A as [[A B] C]. repeat split; [ exact A | exact B | ].
  destruct (StringToNumber _) as [ m | ]; [ | discriminate ].
  apply Z.eqb_eq in C. rewrite C. reflexivity.
Qed.

Lemma hour12_clock (h : Z) :
  0 <= h < 24 -> 1 <= hour12 h <= 12 /\ hour12 h mod 12 = h mod 12.
Proof.
  intros H. unfold hour12. destruct (Z.eqb_spec (h mod 12) 0) as [E | E].
  - rewrite E. split; [ lia | reflexivity ].
  - split; [ zlia | ]. apply Z.mod_mod. lia.
Qed.

Section FormatDate.

Variable tz : TimeZone.
Variable Date_parse : string -> number.

(** On a host whose default locale is American English, for a string that
    parses to a valid date [t], [formatDate] gives [M/D/Y, h:mm:ss AM] or
    [PM] from the UTC fields of [t], whatever the time zone of the host:
    month and day are the plain decimal numbers, one character long below 10
    and two from 10 on; the year is the plain number of a year of the era;
    the hour is the hour on the 12-hour clock; minute and second are two
    characters that read as the minute and the second. *)
Lemma formatDate_en_US (s : string) (t : Z) :
  newDateString Date_parse s = #t ->
  exists M D Y h mm ss ap : string,
    formatDate tz {| defaultLocale := "en-US" |} Date_parse s
    = Some (M ++ "/" ++ D ++ "/" ++ Y ++ ", " ++ h ++ ":" ++ mm ++ ":"
            ++ ss ++ " " ++ ap)%string
    /\ (M = toString #(MonthFromTime t + 1) /\ 1 <= MonthFromTime t + 1 <= 12
        /\ String.length M = (if (MonthFromTime t + 1 <? 10)%Z then 1 else 2)%nat)
    /\ (D = toString #(DateFromTime t) /\ 1 <= DateFromTime t <= 31
        /\ String.length D = (if (DateFromTime t <? 10)%Z then 1 else 2)%nat)
    /\ (0 < YearFromTime t -> Y = toString #(YearFromTime t))
    /\ (exists k : Z,
          h = toString #k /\ 1 <= k <= 12 /\ k mod 12 = HourFromTime t mod 12
          /\ String.length h = (if (k <? 10)%Z then 1 else 2)%nat)
    /\ (String.length mm = 2%nat /\ StringToNumber mm = #(MinFromTime t))
    /\ (String.length ss = 2%nat /\ StringToNumber ss = #(SecFromTime t))
    /\ ap = (if (HourFromTime t <? 12)%Z then "AM" else "PM")%string.
Proof.
  intros P. unfold formatDate, DateTimeFormat_format. rewrite P.
  cbn [bind newDateTimeFormat dtfLocale dtfOptions optTimeZone].
  change (resolveLocale {| defaultLocale := "en-US" |} "default") with (Some en_US).
  change (zoneOfName "UTC") with (Some (fixedZone 0)).
  cbn [bind]. rewrite LocalTime_fixed, Z.add_0_r.
  pose proof (MonthFromTime_range t) as RM.
  pose proof (DateFromTime_range t) as RD.
  pose proof (hour12_clock _ (HourFromTime_range t)) as [RH CH].
  pose proof (MinFromTime_range t) as Rm.
  pose proof (SecFromTime_range t) as Rs.
  do 7 eexists. split; [ reflexivity | ].
  cbn [formatPart fieldOption formatStyle fieldValue optMonth optDay optYear
         optHour optMinute optSecond hourCycle en_US].
  unfold formatNumeric, format2Digit, dayPeriod. cbn [am pm en_US].
  rewrite (Z.mod_small (MinFromTime t)), (Z.mod_small (SecFromTime t)) by lia.
  split; [ repeat split; try lia; apply toString_two_digits; lia | ].
  split; [ repeat split; try lia; apply toString_two_digits; lia | ].
  split.
  { intros Y. unfold eraYear. destruct (Z.ltb_spec 0 (YearFromTime t)); [ reflexivity | lia ]. }
  split.
  { exists (hour12 (HourFromTime t)).
    repeat split; try lia; try exact CH. apply toString_two_digits. lia. }
  repeat split; apply toString_two_digits; lia.
Qed.

End FormatDate.

#[local] Open Scope string_scope.

(** The examples of the source, on a host whose default locale is American
    English. *)
Example formatDate_examples :
  formatDate 0 {| defaultLocale := "en-US" |} parseIsoUtc "2024-02-01T15:00:00.000Z"
  = Some "2/1/2024, 3:00:00 PM"
  /\ formatDate 0 {| defaultLocale := "en-US" |} parseIsoUtc "1999-01-05T02:20:00.000Z"
     = Some "1/5/1999, 2:20:00 AM"
  /\ formatDate 0 {| defaultLocale := "en-US" |} parseIsoUtc "2010-12-15T22:59:00.000Z"
     = Some "12/15/2010, 10:59:00 PM".
Proof. repeat split; vm_compute; reflexivity. Qed.

(** C2: the format is that of the default locale of the host, because
    ['default'] names no locale.  On a host whose default locale is German
    the first example of the source, ['2024-02-01T15:00:00.000Z'], gives
    ['1.2.2024, 15:00:00'], whatever the time zone of the host; it gives
    ['2/1/2024, 3:00:00 PM'] where the default locale is American English,
    and on every host when the locale asked for is ['en-US']. *)
Theorem formatDate_host_locale (tz : TimeZone) :
  formatDate tz {| defaultLocale := "de-DE" |} parseIsoUtc "2024-02-01T15:00:00.000Z"
  = Some "1.2.2024, 15:00:00"
  /\ formatDate tz {| defaultLocale := "en-US" |} parseIsoUtc "2024-02-01T15:00:00.000Z"
     = Some "2/1/2024, 3:00:00 PM"
  /\ resolveLocale {| defaultLocale := "de-DE" |} "default" = Some de_DE
  /\ resolveLocale {| defaultLocale := "de-DE" |} "en-US" = Some en_US.
Proof. repeat split; vm_compute; reflexivity. Qed.

(** ** getWorkSchedule *)

(** The examples of the source. *)
Example getWorkSchedule_examples :
  getWorkSchedule 0 "01-01-2024" "15-01-2024" 1 3
  = ["01-01-2024"; "05-01-2024"; "09-01-2024"; "13-01-2024"]
  /\ getWorkSchedule 0 "01-01-2024" "10-01-2024" 1 1
     = ["01-01-2024"; "03-01-2024"; "05-01-2024"; "07-01-2024"; "09-01-2024"].
Proof. split; vm_compute; reflexivity. Qed.

(** The loop adds 24 hours at a time, so a day of 25 hours is listed twice
    and the days after it are late by one.  In New York, where the clocks
    are set back an hour on 3 November 2024, the period from 1 to
    5 November 2024 with one working day and one day off gives 1, 3 and
    4 November, not 1, 3 and 5; without a pattern it gives 3 November twice
    and leaves 5 November out. *)
Lemma getWorkSchedule_clock_change :
  getWorkSchedule America_New_York "01-11-2024" "05-11-2024" 1 1
  = ["01-11-2024"; "03-11-2024"; "04-11-2024"]
  /\ getWorkSchedule America_New_York "01-11-2024" "05-11-2024" 0 0
     = ["01-11-2024"; "02-11-2024"; "03-11-2024"; "03-11-2024"; "04-11-2024"]
  /\ getWorkSchedule 0 "01-11-2024" "05-11-2024" 1 1
     = ["01-11-2024"; "03-11-2024"; "05-11-2024"].
Proof. repeat split; vm_compute; reflexivity. Qed.

(** C6: periods in years below 1000.  [new Date] reads the year 0050 as
    1950, so the days listed are not days of the period; and the year of each
    date is printed as a plain number, 999 for the year 0999, without the
    padding that day and month get, so the entry is not in the form
    ['DD-MM-YYYY']. *)
Theorem getWorkSchedule_year_below_1000 :
  getWorkSchedule 0 "01-01-0050" "02-01-0050" 1 1 = ["01-01-1950"]
  /\ getWorkSchedule 0 "01-01-0999" "02-01-0999" 1 1 = ["01-01-999"].
Proof. split; vm_compute; reflexivity. Qed.

#[local] Close Scope string_scope.

(** ** The schedule of a period of four-digit years

    Apart from the years below 1000, [getWorkSchedule] is the schedule that
    the specification describes. *)

#[local] Open Scope string_scope.

Lemma split_no_sep (sep : ascii) (a : string) :
  noChar sep a = true -> split sep a = [a].
Proof.
  induction a as [ | c a IH ]; cbn [noChar split]; [ reflexivity | ].
  rewrite andb_true_iff, negb_true_iff. intros [C N].
  rewrite C, (IH N). reflexivity.
Qed.

Lemma split_app (sep : ascii) (a b : string) :
  noChar sep a = true -> split sep (a ++ String sep b) = a :: split sep b.
Proof.
  induction a as [ | c a IH ]; cbn [noChar split append].
  - intros _. rewrite Ascii.eqb_refl. reflexivity.
  - rewrite andb_true_iff, negb_true_iff. intros [C N].
    rewrite C, (IH N). reflexivity.
Qed.

Lemma noChar_app (c : ascii) (a b : string) :
  noChar c (a ++ b) = noChar c a && noChar c b.
Proof.
  induction a as [ | x a IH ]; cbn [noChar append]; [ reflexivity | ].
  rewrite IH, andb_assoc. reflexivity.
Qed.

Lemma string_of_uint_digits (d : uint) :
  noChar "-" (NilEmpty.string_of_uint d) = true.
Proof. induction d; cbn [NilEmpty.string_of_uint noChar]; try exact IHd; reflexivity. Qed.

Lemma toString_nonneg (n : Z) :
  (0 <= n)%Z ->
  exists d : uint, toString #n = NilEmpty.string_of_uint d /\ Z.of_uint d = n.
Proof.
  intros H. destruct n as [ | p | p ]; [ | | lia ].
  - exists (D0 Nil). split; reflexivity.
  - exists (Pos.to_uint p). split.
    + unfold toString, Z.to_int, NilZero.string_of_int, NilZero.string_of_uint.
      pose proof (Unsigned.to_uint_nonnil p) as N.
      destruct (Pos.to_uint p); [ contradiction | reflexivity .. ].
    + unfold Z.of_uint. rewrite DecimalPos.Unsigned.of_to. reflexivity.
Qed.

Lemma toString_no_dash (n : Z) : (0 <= n)%Z -> noChar "-" (toString #n) = true.
Proof.
  intros H. destruct (toString_nonneg n H) as (d & -> & _).
  apply string_of_uint_digits.
Qed.

Lemma StringToNumber_toString (n : Z) :
  (0 <= n)%Z -> StringToNumber (toString #n) = #n.
Proof.
  intros H. destruct (toString_nonneg n H) as (d & -> & E).
  unfold StringToNumber. rewrite NilEmpty.usu. cbn [option_map]. rewrite E.
  reflexivity.
Qed.

Lemma zeros_no_dash (n : nat) : noChar "-" (zeros n) = true.
Proof. induction n as [ | n IH ]; [ reflexivity | exact IH ]. Qed.

Lemma padStart_no_dash (k : nat) (n : Z) :
  (0 <= n)%Z -> noChar "-" (padStart k (toString #n)) = true.
Proof.
  intros H. unfold padStart.
  rewrite noChar_app, zeros_no_dash, toString_no_dash by exact H. reflexivity.
Qed.

(** A year 1000..9999 prints with four digits, so padding to four changes
    nothing. *)
Lemma padStart_four_digits (y : Z) :
  (1000 <= y <= 9999)%Z -> padStart 4 (toString #y) = toString #y.
Proof.
  intros H.
  pose proof (allBelow_spec
                (fun y => (String.length (toString #y) =? 4)%nat)
                (Z.to_nat 9000) 1000 ltac:(vm_compute; reflexivity) y
                ltac:(rewrite Z2Nat.id; lia)) as A.
  cbv beta in A. apply Nat.eqb_eq in A. unfold padStart. rewrite A.
  reflexivity.
Qed.

(** The fields of a ['DD-MM-YYYY'] string, as the source reads them. *)
Lemma dmyString_components (d m y : Z) :
  (0 <= d < 100)%Z -> (0 <= m < 100)%Z -> (1000 <= y <= 9999)%Z ->
  let components := split "-" (dmyString d m y) in
  componentToNumber components 0 = #d
  /\ componentToNumber components 1 = #m
  /\ componentToNumber components 2 = #y.
Proof.
  intros Hd Hm Hy. unfold dmyString. cbv zeta.
  change (?a ++ "-" ++ ?b) with (a ++ String "-" b).
  rewrite split_app by (apply padStart_no_dash; lia).
  change (?a ++ "-" ++ ?b) with (a ++ String "-" b).
  rewrite split_app by (apply padStart_no_dash; lia).
  rewrite split_no_sep by (apply padStart_no_dash; lia).
  unfold componentToNumber. cbn [nth_error].
  rewrite padStart_four_digits by exact Hy.
  repeat split.
  - apply toString_two_digits. exact Hd.
  - apply toString_two_digits. exact Hm.
  - apply StringToNumber_toString. lia.
Qed.

#[local] Close Scope string_scope.

Lemma YearFromDay_mono (d d' : Z) : d <= d' -> YearFromDay d <= YearFromDay d'.
Proof.
  intros H. pose proof (YearFromDay_spec d) as S. pose proof (YearFromDay_spec d') as S'.
  destruct (Z_le_dec (YearFromDay d) (YearFromDay d')) as [L | G]; [ exact L | ].
  pose proof (DayFromYear_le (YearFromDay d' + 1) (YearFromDay d) ltac:(lia)). lia.
Qed.

Lemma filterIndex_seq {A : Type} (g : nat -> A) (keep : nat -> bool) (n : nat) :
  forall k : nat,
    filterIndex (fun (_ : A) index => keep index) k (map g (seq k n))
    = map g (filter keep (seq k n)).
Proof.
  induction n as [ | n IH ]; intros k; cbn [seq map filterIndex filter];
    [ reflexivity | ].
  destruct (keep k); cbn [map]; rewrite IH; reflexivity.
Qed.

(** The array [[1, ..., 1, 0, ..., 0]] of the source holds 0 from index
    [a] on. *)
Lemma elementIsZero_schedule (a b k : nat) :
  (k < a + b)%nat ->
  elementIsZero (repeat 1 a ++ repeat 0 b) (Some k) = (a <=? k)%nat.
Proof.
  intros H. unfold elementIsZero.
  destruct (Nat.leb_spec a k) as [L | L].
  - rewrite nth_error_app2 by (rewrite repeat_length; exact L).
    rewrite repeat_length, nth_error_repeat by lia. reflexivity.
  - rewrite nth_error_app1 by (rewrite repeat_length; exact L).
    rewrite nth_error_repeat by exact L. reflexivity.
Qed.

(** The callback of [filter] keeps an index when its remainder modulo the
    length of the pattern is a working day. *)
Lemma schedule_callback (a b index : nat) :
  (0 < a + b)%nat ->
  let arrayOfSchedule := repeat 1 a ++ repeat 0 b in
  let len := List.length arrayOfSchedule in
  (if (index <? len)%nat then
     if elementIsZero arrayOfSchedule (Some index) then false else true
   else if (len <=? index)%nat then
     if elementIsZero arrayOfSchedule (indexMod index len) then false else true
   else true)
  = (index mod (a + b) <? a)%nat.
Proof.
  intros P. cbv zeta. rewrite length_app, !repeat_length.
  destruct (Nat.ltb_spec index (a + b)) as [L | L].
  - rewrite elementIsZero_schedule by exact L.
    rewrite Nat.mod_small by exact L.
    destruct (Nat.leb_spec a index), (Nat.ltb_spec index a); (reflexivity || lia).
  - destruct (Nat.leb_spec (a + b) index) as [ _ | G ]; [ | lia ].
    unfold indexMod. destruct (a + b)%nat as [ | n ] eqn:E; [ lia | ].
    rewrite <- E.
    pose proof (Nat.mod_upper_bound index (a + b) ltac:(lia)) as U.
    rewrite elementIsZero_schedule by exact U.
    destruct (Nat.leb_spec a (index mod (a + b))),
      (Nat.ltb_spec (index mod (a + b)) a); (reflexivity || lia).
Qed.

Section Schedule.

(** The host has no clock changes: its local time is UTC plus [tza]
    milliseconds throughout, the zone [fixedZone tza]. *)
Variable tza : Z.
Hypothesis tza_range : - msPerDay <= tza <= msPerDay.

(** The dates that the [while] loop collects: the local midnights of the
    days [first], ..., [last]. *)
Lemma listOfDatesLoop_days (fuel : nat) :
  forall first last : Z,
    (Z.to_nat (last - first + 1) <= fuel)%nat ->
    -99999990 <= first -> last + 1 <= 99999990 ->
    listOfDatesLoop fuel msPerDay #(first * msPerDay - tza) #(last * msPerDay - tza)
    = map (fun i => #((first + Z.of_nat i) * msPerDay - tza))
          (seq 0 (Z.to_nat (last - first + 1))).
Proof.
  induction fuel as [ | fuel IH ]; intros first last F L U.
  - replace (Z.to_nat (last - first + 1)) with O by lia. reflexivity.
  - cbn [listOfDatesLoop]. num_unfold.
    destruct (Z.leb_spec (first * msPerDay - tza) (last * msPerDay - tza)) as [C | C].
    + assert (FL : first <= last) by (rewrite msPerDay_eq in *; lia).
      replace (Z.to_nat (last - first + 1))
        with (S (Z.to_nat (last - (first + 1) + 1))) by lia.
      cbn [seq map]. rewrite Z.add_0_r. f_equal.
      rewrite TimeClip_valid
        by (unfold validTime, maxTime; rewrite msPerDay_eq in *; lia).
      replace (first * msPerDay - tza + msPerDay)
        with ((first + 1) * msPerDay - tza) by lia.
      rewrite IH by lia.
      rewrite <- seq_shift, map_map. apply map_ext. intros i.
      do 2 f_equal. lia.
    + replace (Z.to_nat (last - first + 1)) with O
        by (rewrite msPerDay_eq in *; lia).
      reflexivity.
Qed.

Lemma getDate_midnight (d : Z) :
  getDate tza #(d * msPerDay - tza) = #(dateOfDay d).
Proof.
  unfold getDate. cbn [bind].
  rewrite LocalTime_midnight, DateFromTime_Day, Day_whole. reflexivity.
Qed.

Lemma getMonth_midnight (d : Z) :
  getMonth tza #(d * msPerDay - tza) = #(monthOfDay d).
Proof.
  unfold getMonth. cbn [bind].
  rewrite LocalTime_midnight, MonthFromTime_Day, Day_whole. reflexivity.
Qed.

Lemma getFullYear_midnight (d : Z) :
  getFullYear tza #(d * msPerDay - tza) = #(yearOfDay d).
Proof.
  unfold getFullYear. cbn [bind].
  rewrite LocalTime_midnight, YearFromTime_Day, Day_whole. reflexivity.
Qed.

(** X25: on a host without clock changes (local time at a fixed offset from
    UTC), for a period of valid calendar days in the years 1000..9999, first
    day not after the last, and positive numbers of working days and days
    off, [getWorkSchedule] is the schedule of the specification. *)
Theorem getWorkSchedule_four_digit_years
    (d1 m1 y1 d2 m2 y2 countWorkDays countOffDays : Z) :
  1000 <= y1 <= 9999 -> 1 <= m1 <= 12 -> 1 <= d1 <= daysOfMonth m1 y1 ->
  1000 <= y2 <= 9999 -> 1 <= m2 <= 12 -> 1 <= d2 <= daysOfMonth m2 y2 ->
  civilDay y1 m1 d1 <= civilDay y2 m2 d2 ->
  0 < countWorkDays -> 0 < countOffDays ->
  getWorkSchedule tza (dmyString d1 m1 y1) (dmyString d2 m2 y2)
    countWorkDays countOffDays
  = scheduleOfPeriod (civilDay y1 m1 d1) (civilDay y2 m2 d2)
      countWorkDays countOffDays.
Proof.
  intros Y1 M1 D1 Y2 M2 D2 LE W O.
  pose proof (daysOfMonth_range m1 y1) as R1.
  pose proof (daysOfMonth_range m2 y2) as R2.
  destruct (dmyString_components d1 m1 y1) as (A0 & A1 & A2); try lia.
  destruct (dmyString_components d2 m2 y2) as (B0 & B1 & B2); try lia.
  cbv zeta in A0, A1, A2, B0, B1, B2.
  unfold getWorkSchedule. cbv zeta.
  rewrite A0, A1, A2, B0, B1, B2.
  change (#m1 - #1)%num with #(m1 - 1). change (#m2 - #1)%num with #(m2 - 1).
  assert (E1 : effectiveYear y1 = y1)
    by (apply effectiveYear_faceValue; unfold faceValueYear; lia).
  assert (E2 : effectiveYear y2 = y2)
    by (apply effectiveYear_faceValue; unfold faceValueYear; lia).
  rewrite !newDateYMD_civil
    by (rewrite ?E1, ?E2; (exact tza_range || assumption
                           || (unfold representableYear; lia))).
  rewrite E1, E2.
  set (first := civilDay y1 m1 d1) in *. set (last := civilDay y2 m2 d2) in *.
  pose proof (civilDay_in_year y1 m1 d1 M1 D1) as I1. fold first in I1.
  pose proof (civilDay_in_year y2 m2 d2 M2 D2) as I2. fold last in I2.
  pose proof (representableYear_days y1 ltac:(unfold representableYear; lia)) as P1.
  pose proof (representableYear_days y2 ltac:(unfold representableYear; lia)) as P2.
  change (1000 * 60 * 60 * 24) with msPerDay.
  unfold listOfDates, listOfDatesFuel.
  replace ((last * msPerDay - tza - (first * msPerDay - tza)) / msPerDay + 1)
    with (last - first + 1)
    by (replace (last * msPerDay - tza - (first * msPerDay - tza))
          with ((last - first) * msPerDay) by lia;
        rewrite Z.div_mul by discriminate; reflexivity).
  rewrite listOfDatesLoop_days by lia.
  set (a := Z.to_nat countWorkDays). set (b := Z.to_nat countOffDays).
  set (arr := repeat 1 a ++ repeat 0 b).
  match goal with
  | |- map ?fmt ?l = _ =>
      assert (L : l = map (fun i => #((first + Z.of_nat i) * msPerDay - tza))
                        (filter
                           (fun index =>
                              if (index <? List.length arr)%nat
                              then if elementIsZero arr (Some index)
                                   then false else true
                              else if (List.length arr <=? index)%nat
                                   then if elementIsZero arr
                                             (indexMod index (List.length arr))
                                        then false else true
                                   else true)
                           (seq 0 (Z.to_nat (last - first + 1)))))
        by (apply filterIndex_seq);
      rewrite L; clear L
  end.
  subst arr.
  unfold scheduleOfPeriod, upto.
  rewrite !map_map, filter_map_swap, !map_map.
  rewrite (filter_ext _ (fun i => (i mod (a + b) <? a)%nat))
    by (intros i; apply (schedule_callback a b i); lia).
  rewrite (filter_ext (fun i => (first + Z.of_nat i - first)
                                mod (countWorkDays + countOffDays) <? countWorkDays)
             (fun i => (i mod (a + b) <? a)%nat)).
  - apply map_ext_in. intros i Hi. apply filter_In in Hi. destruct Hi as [Hi _].
    apply in_seq in Hi.
    rewrite getDate_midnight, getMonth_midnight, getFullYear_midnight.
    unfold formatDayNumber, dmyString.
    change (#(monthOfDay (first + Z.of_nat i)) + #1)%num
      with #(monthOfDay (first + Z.of_nat i) + 1).
    rewrite padStart_four_digits; [ reflexivity | ].
    unfold yearOfDay, YearFromTime. rewrite Day_whole.
    pose proof (YearFromDay_mono first (first + Z.of_nat i) ltac:(lia)) as L1.
    pose proof (YearFromDay_mono (first + Z.of_nat i) last ltac:(lia)) as L2.
    rewrite (YearFromDay_unique first y1 I1) in L1.
    rewrite (YearFromDay_unique last y2 I2) in L2. lia.
  - intros i. replace (first + Z.of_nat i - first) with (Z.of_nat i) by lia.
    replace (countWorkDays + countOffDays) with (Z.of_nat (a + b)) by lia.
    rewrite <- Nat2Z.inj_mod.
    destruct (Nat.ltb_spec (i mod (a + b)) a), (Z.ltb_spec (Z.of_nat (i mod (a + b)))
                                                 countWorkDays);
      (reflexivity || lia).
Qed.

End Schedule.

(** ** getWeekNumberByDate *)

Example getWeekNumberByDate_examples :
  getWeekNumberByDate 0 (newDateYMD 0 #2024 #0 #3) = #1
  /\ getWeekNumberByDate 0 (newDateYMD 0 #2024 #0 #31) = #5
  /\ getWeekNumberByDate 0 (newDateYMD 0 #2024 #1 #23) = #8.
Proof. repeat split; vm_compute; reflexivity. Qed.

(** C1: Monday 5 January 2026.  The year starts on a Thursday, so ISO week 1
    is 29 December 2025 to 4 January 2026, and 5 January opens week 2.
    [getWeekNumberByDate] counts seven-day blocks from 1 January itself and
    answers 1, in any time zone. *)
Theorem getWeekNumberByDate_2026_01_05 :
  getDay 0 (newDateYMD 0 #2026 #0 #5) = #1
  /\ getDay 0 (newDateYMD 0 #2026 #0 #1) = #4
  /\ isoWeekNumber (civilDay 2026 1 5) = 2
  /\ getWeekNumberByDate 0 (newDateYMD 0 #2026 #0 #5) = #1
  /\ getWeekNumberByDate 19800000 (newDateYMD 19800000 #2026 #0 #5) = #1
  /\ getWeekNumberByDate (-28800000) (newDateYMD (-28800000) #2026 #0 #5) = #1.
Proof. repeat split; vm_compute; reflexivity. Qed.

Section WeekNumber.

(** The host has no clock changes: its local time is UTC plus [tza]
    milliseconds throughout, the zone [fixedZone tza]. *)
Variable tza : Z.
Hypothesis tza_range : - msPerDay <= tza <= msPerDay.

Lemma civilDay_first (y : Z) : civilDay y 1 1 = DayFromYear y.
Proof. unfold civilDay. month_simpl. lia. Qed.


End WeekNumber.

(** * Further properties *)

(** ** getQuarter on valid dates *)

Section QuarterOfMonth.

Variable tz : TimeZone.

(** X1: on a valid date [getQuarter] is the month (0 = January) divided by
    three, rounded down, plus one; so it is 1..4, and 0 is returned for the
    Invalid Date only. *)
Theorem getQuarter_of_month (date : Date) :
  (forall t : Z, date = #t ->
     getQuarter tz date = MonthFromTime (LocalTime tz t) / 3 + 1
     /\ 1 <= getQuarter tz date <= 4)
  /\ (getQuarter tz date = 0 <-> date = NaN).
Proof.
  split.
  - intros t ->. split; [ | apply getQuarter_valid ].
    unfold getQuarter, getMonth. cbn [bind]. num_unfold.
    pose proof (MonthFromTime_range (LocalTime tz t)) as R.
    set (m := MonthFromTime (LocalTime tz t)) in *.
    rewrite !Z.geb_leb.
    repeat match goal with
           | |- context [?a <=? ?b] => destruct (Z.leb_spec a b); try lia
           end; cbn [andb]; zlia.
  - split.
    + destruct date as [ t | ]; [ | reflexivity ].
      pose proof (getQuarter_valid tz t). lia.
    + intros ->. reflexivity.
Qed.

End QuarterOfMonth.

(** ** getCountDaysInMonth over the year *)

Lemma wholeNumber_add (a b : fraction) (m n : Z) :
  wholeNumber a #m -> wholeNumber b #n -> wholeNumber (frac_add a b) #(m + n).
Proof.
  destruct a as [ p | ], b as [ q | ]; cbn [wholeNumber frac_add bind];
    try contradiction.
  intros A B. rewrite A, B, inject_Z_plus. reflexivity.
Qed.

Lemma wholeNumber_unique (x : fraction) (m n : Z) :
  wholeNumber x #m -> wholeNumber x #n -> m = n.
Proof.
  destruct x as [ q | ]; cbn [wholeNumber]; [ | contradiction ].
  intros A B. rewrite A in B. unfold Qeq, inject_Z in B. cbn in B. lia.
Qed.

Section MonthLengths.

(** The host has no clock changes: its local time is UTC plus [tza]
    milliseconds throughout, the zone [fixedZone tza]. *)
Variable tza : Z.
Hypothesis tza_range : - msPerDay <= tza <= msPerDay.

(** X2: for every month 1..12 of a year that [Date] takes at face value and
    represents in full, [getCountDaysInMonth] is the length of the month in
    the calendar: 31, 30, or 28 and 29 for February. *)
Theorem getCountDaysInMonth_table (month year : Z) :
  1 <= month <= 12 -> faceValueYear year -> representableYear year ->
  wholeNumber (getCountDaysInMonth tza month year) #(daysOfMonth month year)
  /\ 28 <= daysOfMonth month year <= 31.
Proof.
  intros Hm F R. split; [ | apply daysOfMonth_range ].
  pose proof (getCountDaysInMonth_value tza tza_range year month R Hm) as V.
  rewrite effectiveYear_faceValue in V by exact F. exact V.
Qed.

(** X3: a year 0..99 is read as 1900..1999: [getCountDaysInMonth(m, y)] is
    [getCountDaysInMonth(m, 1900 + y)]. *)
Theorem getCountDaysInMonth_two_digit_year (month year : Z) :
  1 <= month <= 12 -> 0 <= year <= 99 ->
  getCountDaysInMonth tza month year = getCountDaysInMonth tza month (1900 + year).
Proof.
  intros Hm Hy. unfold getCountDaysInMonth.
  rewrite !(month_diff_whole_days tza tza_range)
    by (assumption || (unfold representableYear; lia)).
  rewrite effectiveYear_two_digit by exact Hy.
  rewrite effectiveYear_faceValue by (unfold faceValueYear; lia). reflexivity.
Qed.

(** X4: beyond the years that [Date] can represent the result is NaN. *)
Theorem getCountDaysInMonth_out_of_range (month year : Z) :
  1 <= month <= 12 -> 275761 <= year ->
  getCountDaysInMonth tza month year = None.
Proof.
  intros Hm Hy. unfold getCountDaysInMonth.
  assert (E : newDateYMD tza #year #month #1 = NaN).
  { unfold newDateYMD. cbn [bind].
    replace ((0 <=? year) && (year <=? 99)) with false
      by (symmetry; apply andb_false_iff; right; apply Z.leb_gt; lia).
    apply TimeClip_invalid.
    rewrite UTC_fixed. unfold MakeDate, MakeTime. rewrite !Z.mul_0_l, !Z.add_0_r.
    rewrite MakeDay_first_of_next by exact Hm.
    pose proof (daysOfMonth_range month year) as D.
    pose proof (civilDay_in_year year month 1 Hm ltac:(lia)) as C.
    pose proof (DayFromYear_le 275761 year Hy) as L.
    change (DayFromYear 275761) with 100000110 in L.
    unfold maxTime. rewrite msPerDay_eq in *. lia. }
  rewrite E. destruct (newDateYMD tza #year #(month - 1) #1); reflexivity.
Qed.

(** X5: on a host without clock changes (local time at a fixed offset from
    UTC), the twelve results of a year add up to the length of the year, 366
    when [isLeapYear] holds of a date of that year and 365 when not. *)
Theorem getCountDaysInMonth_year_total (year : Z) (d : Date) :
  faceValueYear year -> representableYear year -> getFullYear tza d = #year ->
  wholeNumber
    (fold_left frac_add
       (map (fun month => getCountDaysInMonth tza month year)
            [1; 2; 3; 4; 5; 6; 7; 8; 9; 10; 11; 12])
       (Some 0%Q))
    (if isLeapYear tza d then #366 else #365).
Proof.
  intros F R E. cbn [map fold_left].
  rewrite (isLeapYear_leapRule tza d year E), leapRule_isLeap.
  match goal with
  | |- wholeNumber _ ?n =>
      replace n
        with #(0 + daysOfMonth 1 year + daysOfMonth 2 year + daysOfMonth 3 year
               + daysOfMonth 4 year + daysOfMonth 5 year + daysOfMonth 6 year
               + daysOfMonth 7 year + daysOfMonth 8 year + daysOfMonth 9 year
               + daysOfMonth 10 year + daysOfMonth 11 year + daysOfMonth 12 year)
        by (unfold daysOfMonth; destruct (isLeap year); reflexivity)
  end.
  repeat apply wholeNumber_add;
    try (rewrite <- (effectiveYear_faceValue year F) at 2;
         apply (getCountDaysInMonth_value tza tza_range); (assumption || lia)).
  cbn [wholeNumber]. reflexivity.
Qed.

(** ** getCountWeekendsInMonth *)

Lemma weekendsFromFirstDay_bounds (w1 n : Z) :
  0 <= w1 < 7 -> 28 <= n <= 31 ->
  8 <= weekendsFromFirstDay w1 n <= 10
  /\ (n = 28 -> weekendsFromFirstDay w1 n = 8).
Proof.
  intros W N.
  assert (Cw : w1 = 0 \/ w1 = 1 \/ w1 = 2 \/ w1 = 3 \/ w1 = 4 \/ w1 = 5 \/ w1 = 6)
    by lia.
  assert (Cn : n = 28 \/ n = 29 \/ n = 30 \/ n = 31) by lia.
  decompose [or] Cw; decompose [or] Cn; subst; vm_compute;
    (split; [ split; discriminate | ]); (reflexivity || discriminate).
Qed.

(** X6: for every month 1..12 of a year that [Date] represents in full,
    [getCountWeekendsInMonth] is 8, 9 or 10, and it is 8 whenever
    [getCountDaysInMonth] is 28. *)
Theorem getCountWeekendsInMonth_bounds (month year : Z) :
  1 <= month <= 12 -> representableYear year ->
  exists k : Z,
    getCountWeekendsInMonth tza month year = #k
    /\ 8 <= k <= 10
    /\ (wholeNumber (getCountDaysInMonth tza month year) #28 -> k = 8).
Proof.
  intros Hm R.
  exists (bruteForceWeekends month (effectiveYear year)).
  pose proof (getCountDaysInMonth_value tza tza_range year month R Hm) as V.
  rewrite getCountWeekendsInMonth_value by assumption.
  rewrite bruteForceWeekends_from_first.
  pose proof (weekendsFromFirstDay_bounds
                (weekdayOfDay (civilDay (effectiveYear year) month 1))
                (daysOfMonth month (effectiveYear year))
                (weekdayOfDay_range _) (daysOfMonth_range _ _)) as [B E].
  split; [ reflexivity | split; [ exact B | ] ].
  intros H. apply E. exact (wholeNumber_unique _ _ _ V H).
Qed.

End MonthLengths.

(** ** getNextFriday and getNextFridayThe13th at the ends *)

Section NextFridayMore.

Variable tz : TimeZone.

(** X7: when the offset of local time at the first result is the offset at
    the date, applying [getNextFriday] twice gives the date seven days after
    the first result. *)
Theorem getNextFriday_twice (t : Z) :
  validTime t -> t + 14 * msPerDay <= maxTime ->
  (forall r : Z, getNextFriday tz #t = #r ->
                 LocalTZA tz r true = LocalTZA tz t true) ->
  getNextFriday tz (getNextFriday tz #t)
  = (getNextFriday tz #t + #(7 * 86400000)%Z)%num.
Proof.
  intros V H O.
  pose proof (weekdayOfDay_range (Day (LocalTime tz t))) as W.
  pose proof (daysToFriday_range _ W) as K.
  pose proof (getNextFriday_value tz t V ltac:(rewrite msPerDay_eq in *; lia)) as N.
  rewrite WeekDay_weekdayOfDay in N.
  set (k := daysToFriday (weekdayOfDay (Day (LocalTime tz t)))) in *.
  assert (L : LocalTime tz (t + k * msPerDay) = LocalTime tz t + k * msPerDay)
    by (unfold LocalTime; rewrite (O _ N); lia).
  rewrite N, getNextFriday_value.
  - rewrite WeekDay_weekdayOfDay, L, Day_add_days.
    rewrite weekdayOfDay_add. subst k.
    rewrite (daysToFriday_friday _ W). num_unfold. f_equal.
  - unfold validTime in *. rewrite msPerDay_eq in *. lia.
  - rewrite msPerDay_eq in *. lia.
Qed.

(** X8: in the last 24 hours of the range of [Date] there is no next
    Friday: [getNextFriday] gives the Invalid Date, and the recursion of
    [getNextFridayThe13th] never returns. *)
Theorem getNextFriday_end_of_range (t : Z) :
  validTime t -> maxTime - msPerDay < t ->
  getNextFriday tz #t = NaN
  /\ forall fuel : nat, getNextFridayThe13th tz fuel #t = None.
Proof.
  intros V H.
  assert (N : getNextFriday tz #t = NaN).
  { rewrite getNextFriday_unfold. apply TimeClip_invalid.
    pose proof (daysToFriday_range _ (weekdayOfDay_range (Day (LocalTime tz t)))) as K.
    rewrite <- WeekDay_weekdayOfDay in K. rewrite msPerDay_eq in *. lia. }
  split; [ exact N | ].
  intros [ | fuel ]; [ reflexivity | ].
  rewrite getNextFridayThe13th_step, N. apply getNextFridayThe13th_invalid.
Qed.

(** ** isLeapYear and the calendar *)

(** X9: [isLeapYear] holds of a valid date exactly when the year of the
    date, negative years included, has 366 days in the calendar of [Date];
    it is false of the Invalid Date. *)
Theorem isLeapYear_calendar (date : Date) :
  (forall t : Z, date = #t ->
     isLeapYear tz date = (DaysInYear (YearFromTime (LocalTime tz t)) =? 366))
  /\ (date = NaN -> isLeapYear tz date = false).
Proof.
  split.
  - intros t ->.
    rewrite (isLeapYear_leapRule tz #t (YearFromTime (LocalTime tz t)) eq_refl).
    rewrite leapRule_isLeap. unfold DaysInYear.
    destruct (isLeap _); reflexivity.
  - intros ->. reflexivity.
Qed.

End NextFridayMore.

(** ** getWorkSchedule at the edges *)

Section ScheduleEdges.

(** The host has no clock changes: its local time is UTC plus [tza]
    milliseconds throughout, the zone [fixedZone tza]. *)
Variable tza : Z.

Lemma newDateYMD_NaN_year (month date : number) : newDateYMD tza NaN month date = NaN.
Proof. reflexivity. Qed.

Lemma listOfDates_invalid_start (oneDay : Z) (endDate : Date) :
  listOfDates oneDay NaN endDate = [].
Proof. reflexivity. Qed.

Lemma listOfDates_invalid_end (oneDay : Z) (startDate : Date) :
  listOfDates oneDay startDate NaN = [].
Proof. destruct startDate; reflexivity. Qed.

Lemma componentToNumber_missing (arr : list string) (k : nat) :
  (List.length arr <= k)%nat -> componentToNumber arr k = NaN.
Proof.
  intros H. unfold componentToNumber.
  rewrite (proj2 (nth_error_None arr k) H). reflexivity.
Qed.

(** X10: a period whose [start] or [end] has fewer than three fields
    between its dashes gives no dates: the year is [undefined], the date is
    the Invalid Date, and the loop does not run. *)
Theorem getWorkSchedule_missing_fields
    (periodStart periodEnd : string) (countWorkDays countOffDays : Z) :
  (List.length (split "-" periodStart) < 3)%nat
  \/ (List.length (split "-" periodEnd) < 3)%nat ->
  getWorkSchedule tza periodStart periodEnd countWorkDays countOffDays = [].
Proof.
  intros [H | H]; unfold getWorkSchedule; cbv zeta.
  - rewrite (componentToNumber_missing (split "-" periodStart) 2) by lia.
    rewrite newDateYMD_NaN_year, listOfDates_invalid_start. reflexivity.
  - rewrite (componentToNumber_missing (split "-" periodEnd) 2) by lia.
    rewrite newDateYMD_NaN_year, listOfDates_invalid_end. reflexivity.
Qed.

Hypothesis tza_range : - msPerDay <= tza <= msPerDay.

(** The dates of a period of valid calendar days of the years 1000..9999,
    before the pattern is applied. *)
Lemma getWorkSchedule_days
    (d1 m1 y1 d2 m2 y2 countWorkDays countOffDays : Z) :
  1000 <= y1 <= 9999 -> 1 <= m1 <= 12 -> 1 <= d1 <= daysOfMonth m1 y1 ->
  1000 <= y2 <= 9999 -> 1 <= m2 <= 12 -> 1 <= d2 <= daysOfMonth m2 y2 ->
  let first := civilDay y1 m1 d1 in
  let last := civilDay y2 m2 d2 in
  let arr := repeat 1 (Z.to_nat countWorkDays) ++ repeat 0 (Z.to_nat countOffDays) in
  getWorkSchedule tza (dmyString d1 m1 y1) (dmyString d2 m2 y2)
    countWorkDays countOffDays
  = map (fun i => formatDayNumber (first + Z.of_nat i))
      (filter
         (fun index =>
            if (index <? List.length arr)%nat
            then if elementIsZero arr (Some index) then false else true
            else if (List.length arr <=? index)%nat
                 then if elementIsZero arr (indexMod index (List.length arr))
                      then false else true
                 else true)
         (seq 0 (Z.to_nat (last - first + 1)))).
Proof.
  intros Y1 M1 D1 Y2 M2 D2. cbv zeta.
  pose proof (daysOfMonth_range m1 y1) as R1.
  pose proof (daysOfMonth_range m2 y2) as R2.
  destruct (dmyString_components d1 m1 y1) as (A0 & A1 & A2); try lia.
  destruct (dmyString_components d2 m2 y2) as (B0 & B1 & B2); try lia.
  cbv zeta in A0, A1, A2, B0, B1, B2.
  unfold getWorkSchedule. cbv zeta.
  rewrite A0, A1, A2, B0, B1, B2.
  change (#m1 - #1)%num with #(m1 - 1). change (#m2 - #1)%num with #(m2 - 1).
  assert (E1 : effectiveYear y1 = y1)
    by (apply effectiveYear_faceValue; unfold faceValueYear; lia).
  assert (E2 : effectiveYear y2 = y2)
    by (apply effectiveYear_faceValue; unfold faceValueYear; lia).
  rewrite !newDateYMD_civil
    by (rewrite ?E1, ?E2; (exact tza_range || assumption
                           || (unfold representableYear; lia))).
  rewrite E1, E2.
  set (first := civilDay y1 m1 d1) in *. set (last := civilDay y2 m2 d2) in *.
  pose proof (civilDay_in_year y1 m1 d1 M1 D1) as I1. fold first in I1.
  pose proof (civilDay_in_year y2 m2 d2 M2 D2) as I2. fold last in I2.
  pose proof (representableYear_days y1 ltac:(unfold representableYear; lia)) as P1.
  pose proof (representableYear_days y2 ltac:(unfold representableYear; lia)) as P2.
  change (1000 * 60 * 60 * 24) with msPerDay.
  unfold listOfDates, listOfDatesFuel.
  replace ((last * msPerDay - tza - (first * msPerDay - tza)) / msPerDay + 1)
    with (last - first + 1)
    by (replace (last * msPerDay - tza - (first * msPerDay - tza))
          with ((last - first) * msPerDay) by lia;
        rewrite Z.div_mul by discriminate; reflexivity).
  rewrite (listOfDatesLoop_days tza tza_range) by lia.
  set (arr := repeat 1 (Z.to_nat countWorkDays) ++ repeat 0 (Z.to_nat countOffDays)).
  match goal with
  | |- map ?fmt (filterIndex ?cb O (map ?g (seq O ?n))) = _ =>
      assert (L : filterIndex cb O (map g (seq O n))
                  = map g
                      (filter
                         (fun index =>
                            if (index <? List.length arr)%nat
                            then if elementIsZero arr (Some index)
                                 then false else true
                            else if (List.length arr <=? index)%nat
                                 then if elementIsZero arr
                                           (indexMod index (List.length arr))
                                      then false else true
                                 else true)
                         (seq O n)))
        by (apply filterIndex_seq);
      rewrite L; clear L
  end.
  rewrite map_map. apply map_ext_in. intros i Hi.
  apply filter_In in Hi. destruct Hi as [Hi _]. apply in_seq in Hi.
  rewrite (getDate_midnight tza), (getMonth_midnight tza), (getFullYear_midnight tza).
  unfold formatDayNumber, dmyString.
  change (#(monthOfDay (first + Z.of_nat i)) + #1)%num
    with #(monthOfDay (first + Z.of_nat i) + 1).
  rewrite padStart_four_digits; [ reflexivity | ].
  unfold yearOfDay, YearFromTime. rewrite Day_whole.
  pose proof (YearFromDay_mono first (first + Z.of_nat i) ltac:(lia)) as L1.
  pose proof (YearFromDay_mono (first + Z.of_nat i) last ltac:(lia)) as L2.
  rewrite (YearFromDay_unique first y1 I1) in L1.
  rewrite (YearFromDay_unique last y2 I2) in L2. lia.
Qed.

(** ['DD-MM-YYYY'] of the day number of a calendar day is the string of its
    day, month and year. *)
Lemma formatDayNumber_civilDay (d m y : Z) :
  1 <= m <= 12 -> 1 <= d <= daysOfMonth m y ->
  formatDayNumber (civilDay y m d) = dmyString d m y.
Proof.
  intros M D. unfold formatDayNumber.
  rewrite dateOfDay_civilDay, monthOfDay_civilDay, yearOfDay_civilDay
    by assumption.
  rewrite Z.sub_simpl_r. reflexivity.
Qed.

(** X11: a period whose start is after its end gives no dates. *)
Theorem getWorkSchedule_reversed
    (d1 m1 y1 d2 m2 y2 countWorkDays countOffDays : Z) :
  1000 <= y1 <= 9999 -> 1 <= m1 <= 12 -> 1 <= d1 <= daysOfMonth m1 y1 ->
  1000 <= y2 <= 9999 -> 1 <= m2 <= 12 -> 1 <= d2 <= daysOfMonth m2 y2 ->
  civilDay y2 m2 d2 < civilDay y1 m1 d1 ->
  getWorkSchedule tza (dmyString d1 m1 y1) (dmyString d2 m2 y2)
    countWorkDays countOffDays = [].
Proof.
  intros Y1 M1 D1 Y2 M2 D2 LT.
  rewrite getWorkSchedule_days by assumption. cbv zeta.
  replace (Z.to_nat (civilDay y2 m2 d2 - civilDay y1 m1 d1 + 1)) with O by lia.
  reflexivity.
Qed.

(** X12: on a host without clock changes (local time at a fixed offset from
    UTC), without a pattern (no working days and no days off) every day of
    the period is returned, since [arrayOfSchedule] is empty and no element
    of it is 0; with days off only, no day is returned. *)
Theorem getWorkSchedule_degenerate_pattern
    (d1 m1 y1 d2 m2 y2 countWorkDays countOffDays : Z) :
  1000 <= y1 <= 9999 -> 1 <= m1 <= 12 -> 1 <= d1 <= daysOfMonth m1 y1 ->
  1000 <= y2 <= 9999 -> 1 <= m2 <= 12 -> 1 <= d2 <= daysOfMonth m2 y2 ->
  countWorkDays <= 0 ->
  getWorkSchedule tza (dmyString d1 m1 y1) (dmyString d2 m2 y2)
    countWorkDays countOffDays
  = if countOffDays <=? 0
    then map formatDayNumber
           (map (Z.add (civilDay y1 m1 d1))
                (upto (civilDay y2 m2 d2 - civilDay y1 m1 d1 + 1)))
    else [].
Proof.
  intros Y1 M1 D1 Y2 M2 D2 W.
  rewrite getWorkSchedule_days by assumption. cbv zeta.
  replace (Z.to_nat countWorkDays) with O by lia. cbn [repeat app].
  destruct (Z.leb_spec countOffDays 0) as [Ho | Ho].
  - replace (Z.to_nat countOffDays) with 0%nat by lia. cbn [repeat List.length].
    rewrite (filter_ext _ (fun _ => true)) by (intros i; reflexivity).
    unfold upto. rewrite !map_map.
    replace (filter (fun _ : nat => true)
               (seq 0 (Z.to_nat (civilDay y2 m2 d2 - civilDay y1 m1 d1 + 1))))
      with (seq 0 (Z.to_nat (civilDay y2 m2 d2 - civilDay y1 m1 d1 + 1))).
    + reflexivity.
    + symmetry. apply forallb_filter_id. apply forallb_forall. reflexivity.
  - rewrite (filter_ext _ (fun _ => false)).
    + replace (filter (fun _ : nat => false)
                 (seq 0 (Z.to_nat (civilDay y2 m2 d2 - civilDay y1 m1 d1 + 1))))
        with (@nil nat); [ reflexivity | ].
      induction (seq 0 _) as [ | x l IH ]; [ reflexivity | exact IH ].
    + intros i.
      pose proof (schedule_callback O (Z.to_nat countOffDays) i ltac:(lia)) as C.
      cbv zeta in C. cbn [repeat app] in C. rewrite C.
      apply Nat.ltb_ge. lia.
Qed.

(** X13: a period of one day gives back the very string of that day, when
    there is at least one working day. *)
Theorem getWorkSchedule_one_day (d m y countWorkDays countOffDays : Z) :
  1000 <= y <= 9999 -> 1 <= m <= 12 -> 1 <= d <= daysOfMonth m y ->
  0 < countWorkDays ->
  getWorkSchedule tza (dmyString d m y) (dmyString d m y)
    countWorkDays countOffDays
  = [dmyString d m y].
Proof.
  intros Y M D W.
  rewrite getWorkSchedule_days by assumption. cbv zeta.
  rewrite Z.sub_diag. change (Z.to_nat (0 + 1)) with 1%nat.
  cbn [seq filter].
  pose proof (schedule_callback (Z.to_nat countWorkDays) (Z.to_nat countOffDays) O
                ltac:(lia)) as C.
  cbv zeta in C. rewrite C.
  rewrite Nat.mod_small by lia.
  destruct (Nat.ltb_spec 0 (Z.to_nat countWorkDays)); [ | lia ].
  cbn [map]. rewrite Z.add_0_r, formatDayNumber_civilDay by assumption.
  reflexivity.
Qed.

End ScheduleEdges.

(** ** getWeekNumberByDate in general *)

(** The ceiling of [weeksOfDiff] as a division of integers. *)
Lemma weeksOfDiff_ceil (d : Z) :
  weeksOfDiff d = - ((- (d + 86400000)) / 604800000).
Proof.
  unfold weeksOfDiff.
  assert (E : ((inject_Z d / 1000 / 3600 / 24 + 1) / 7
               == Qmake (d + 86400000)%Z 604800000)%Q).
  { unfold Qeq, Qdiv, Qmult, Qplus, Qinv, inject_Z. cbn. lia. }
  rewrite (Qceiling_comp _ _ E). unfold Qceiling, Qfloor, Qopp.
  cbn [Qnum Qden]. reflexivity.
Qed.

Section WeekNumberGeneral.

(** The host has no clock changes: its local time is UTC plus [tza]
    milliseconds throughout, the zone [fixedZone tza]. *)
Variable tza : Z.
Hypothesis tza_range : - msPerDay <= tza <= msPerDay.

Lemma newDateYMD_january (y k : Z) :
  faceValueYear y -> representableYear y -> 1 <= k <= 31 ->
  newDateYMD tza #y #0 #k = #((DayFromYear y + (k - 1)) * msPerDay - tza).
Proof.
  intros F R K. change #0 with #(1 - 1).
  rewrite (newDateYMD_civil tza tza_range) by
    (rewrite ?effectiveYear_faceValue by exact F;
     (assumption || lia || (unfold daysOfMonth; lia))).
  rewrite effectiveYear_faceValue by exact F.
  rewrite civilDay_date, civilDay_first. reflexivity.
Qed.

(** The value of [firstDayOfYear] after the loop. *)
Lemma firstDayOfYear_value (y : Z) :
  faceValueYear y -> representableYear y ->
  (if (getDay tza (newDateYMD tza #y #0 #1) <? #1)%num
      || (getDay tza (newDateYMD tza #y #0 #1) >? #4)%num
   then firstMondayLoop tza #y 7 1 (newDateYMD tza #y #0 #1)
   else newDateYMD tza #y #0 #1)
  = #(codeWeekStart y * msPerDay - tza).
Proof.
  intros F R. unfold codeWeekStart.
  rewrite (newDateYMD_january y 1) by (assumption || lia).
  replace (DayFromYear y + (1 - 1)) with (DayFromYear y) by lia.
  rewrite getDay_midnight.
  pose proof (weekdayOfDay_range (DayFromYear y)) as W.
  set (J := DayFromYear y) in *.
  assert (C : weekdayOfDay J = 0 \/ weekdayOfDay J = 1 \/ weekdayOfDay J = 2
              \/ weekdayOfDay J = 3 \/ weekdayOfDay J = 4 \/ weekdayOfDay J = 5
              \/ weekdayOfDay J = 6) by lia.
  assert (S : forall k, 1 <= k <= 31 ->
                        getDay tza (newDateYMD tza #y #0 #k)
                        = #((weekdayOfDay J + (k - 1)) mod 7)).
  { intros k K. rewrite newDateYMD_january by assumption. fold J.
    rewrite getDay_midnight, weekdayOfDay_add. reflexivity. }
  decompose [or] C; clear C;
    match goal with
    | H : weekdayOfDay J = _ |- _ => rewrite H in *
    end; num_unfold; cbn [Z.ltb Z.gtb Z.compare Pos.compare Pos.compare_cont orb];
    try reflexivity;
    cbn [firstMondayLoop]; rewrite ?S by lia;
    repeat (first
              [ rewrite (newDateYMD_january y (1 + 1)) by (assumption || lia)
              | rewrite (newDateYMD_january y (1 + 1 + 1)) by (assumption || lia)
              | rewrite (newDateYMD_january y (1 + 1 + 1 + 1)) by (assumption || lia) ]);
    fold J; num_unfold; cbn; do 2 f_equal.
Qed.

(** What [getWeekNumberByDate] computes for a date of year [y]. *)
Lemma getWeekNumberByDate_value (t y : Z) :
  validTime t -> getFullYear tza #t = #y ->
  faceValueYear y -> representableYear y ->
  getWeekNumberByDate tza #t
  = #(if LocalTime tza t - codeWeekStart y * msPerDay <=? 0 then 1
      else weeksOfDiff (LocalTime tza t - codeWeekStart y * msPerDay)).
Proof.
  intros V GY F R. unfold getWeekNumberByDate. cbv zeta.
  unfold newDate. cbn [bind]. rewrite (TimeClip_valid _ V), GY.
  rewrite (firstDayOfYear_value y F R). num_unfold.
  replace (t - (codeWeekStart y * msPerDay - tza))
    with (LocalTime tza t - codeWeekStart y * msPerDay)
    by (rewrite ?LocalTime_fixed; lia).
  destruct (_ <=? 0); reflexivity.
Qed.

Lemma codeWeekStart_range (y : Z) :
  DayFromYear y <= codeWeekStart y <= DayFromYear y + 3
  /\ (codeWeekStart y = DayFromYear y \/ weekdayOfDay (codeWeekStart y) = 1).
Proof.
  unfold codeWeekStart.
  pose proof (weekdayOfDay_range (DayFromYear y)) as W.
  set (J := DayFromYear y) in *.
  assert (A : weekdayOfDay (J + (8 - weekdayOfDay J) mod 7)
              = (weekdayOfDay J + (8 - weekdayOfDay J) mod 7) mod 7)
    by apply weekdayOfDay_add.
  set (w := weekdayOfDay J) in *.
  destruct (Z.ltb_spec w 1); destruct (Z.ltb_spec 4 w);
    rewrite ?Z.gtb_ltb; cbn [orb];
    repeat match goal with
           | |- context [4 <? w] => destruct (Z.ltb_spec 4 w); try lia
           end; cbn [orb]; (split; [ zlia | ]); try (left; reflexivity);
    right; rewrite A; zlia.
Qed.

Lemma year_of_local_time (t y : Z) :
  getFullYear tza #t = #y ->
  DayFromYear y * msPerDay <= LocalTime tza t < (DayFromYear y + 366) * msPerDay.
Proof.
  unfold getFullYear. cbn [bind]. intros [= E]. unfold YearFromTime in E.
  pose proof (YearFromDay_spec (Day (LocalTime tza t))) as S. rewrite E in S.
  rewrite DayFromYear_succ in S. pose proof (DaysInYear_pos y) as D.
  unfold Day in S. rewrite msPerDay_eq in *. zlia.
Qed.

(** X14: for every valid date of a year that [Date] takes at face value and
    represents in full, [getWeekNumberByDate] is a whole number from 1 to
    53. *)
Theorem getWeekNumberByDate_range (t y : Z) :
  validTime t -> getFullYear tza #t = #y ->
  faceValueYear y -> representableYear y ->
  exists n : Z, getWeekNumberByDate tza #t = #n /\ 1 <= n <= 53.
Proof.
  intros V GY F R. rewrite (getWeekNumberByDate_value t y V GY F R).
  eexists. split; [ reflexivity | ].
  pose proof (year_of_local_time t y GY) as L.
  pose proof (codeWeekStart_range y) as [C _].
  destruct (Z.leb_spec (LocalTime tza t - codeWeekStart y * msPerDay) 0); [ lia | ].
  rewrite weeksOfDiff_ceil. rewrite msPerDay_eq in *. zlia.
Qed.

(** X15: on a host without clock changes (local time at a fixed offset from
    UTC), on a local midnight of a day [d] of the year, from the day the
    count starts on, the result is the number of whole weeks since that day
    plus one; before that day it is 1.  The count starts on 1 January when
    that is a Monday..Thursday, else on the first Monday of the year. *)
Theorem getWeekNumberByDate_whole_days (d y : Z) :
  validTime (d * msPerDay - tza) -> yearOfDay d = y ->
  faceValueYear y -> representableYear y ->
  getWeekNumberByDate tza #(d * msPerDay - tza)
  = #(if d <=? codeWeekStart y then 1 else (d - codeWeekStart y) / 7 + 1).
Proof.
  intros V Y F R.
  rewrite (getWeekNumberByDate_value _ y V) by
    (assumption || (rewrite getFullYear_midnight, Y; reflexivity)).
  rewrite LocalTime_midnight. f_equal.
  destruct (Z.leb_spec (d * msPerDay - codeWeekStart y * msPerDay) 0),
    (Z.leb_spec d (codeWeekStart y));
    try reflexivity; try (rewrite msPerDay_eq in *; lia).
  rewrite weeksOfDiff_ceil. rewrite msPerDay_eq in *. zlia.
Qed.

(** X16: once past the start of the count, a date seven days later in the
    same year has the next week number. *)
Theorem getWeekNumberByDate_next_week (t y : Z) :
  validTime t -> validTime (t + 7 * msPerDay) ->
  getFullYear tza #t = #y -> getFullYear tza #(t + 7 * msPerDay) = #y ->
  faceValueYear y -> representableYear y ->
  codeWeekStart y * msPerDay < LocalTime tza t ->
  getWeekNumberByDate tza #(t + 7 * msPerDay)
  = (getWeekNumberByDate tza #t + #1)%num.
Proof.
  intros V V7 GY GY7 F R P.
  rewrite (getWeekNumberByDate_value _ y V7 GY7 F R).
  rewrite (getWeekNumberByDate_value _ y V GY F R).
  rewrite LocalTime_add_days. num_unfold. f_equal.
  destruct (Z.leb_spec (LocalTime tza t + 7 * msPerDay - codeWeekStart y * msPerDay) 0),
    (Z.leb_spec (LocalTime tza t - codeWeekStart y * msPerDay) 0);
    try lia.
  rewrite !weeksOfDiff_ceil. rewrite msPerDay_eq in *. zlia.
Qed.

End WeekNumberGeneral.

(** ** getTime *)

#[local] Open Scope string_scope.

Lemma append_length (a b : string) :
  String.length (a ++ b) = (String.length a + String.length b)%nat.
Proof.
  induction a as [ | c a IH ]; cbn [append String.length]; [ reflexivity | ].
  rewrite IH. reflexivity.
Qed.

Section TimeOfDayAnyZone.

Variable tz : TimeZone.

(** X17: for every valid date [getTime] is [HH:MM:SS], eight characters:
    three fields of two characters each that read back as the local hour,
    minute and second. *)
Theorem getTime_format (t : Z) :
  exists hh mm ss : string,
    getTime tz #t = hh ++ ":" ++ mm ++ ":" ++ ss
    /\ String.length (getTime tz #t) = 8%nat
    /\ (String.length hh = 2%nat
        /\ StringToNumber hh = #(HourFromTime (LocalTime tz t)))
    /\ (String.length mm = 2%nat
        /\ StringToNumber mm = #(MinFromTime (LocalTime tz t)))
    /\ (String.length ss = 2%nat
        /\ StringToNumber ss = #(SecFromTime (LocalTime tz t))).
Proof.
  pose proof (HourFromTime_range (LocalTime tz t)) as Rh.
  pose proof (MinFromTime_range (LocalTime tz t)) as Rm.
  pose proof (SecFromTime_range (LocalTime tz t)) as Rs.
  destruct (toString_two_digits (HourFromTime (LocalTime tz t)) ltac:(lia))
    as (_ & Lh & Nh).
  destruct (toString_two_digits (MinFromTime (LocalTime tz t)) ltac:(lia))
    as (_ & Lm & Nm).
  destruct (toString_two_digits (SecFromTime (LocalTime tz t)) ltac:(lia))
    as (_ & Ls & Ns).
  do 3 eexists. split; [ reflexivity | ].
  unfold getTime, getHours, getMinutes, getSeconds. cbn [bind].
  repeat split; try assumption.
  rewrite !append_length, Lh, Lm, Ls. reflexivity.
Qed.

End TimeOfDayAnyZone.

Section TimeOfDay.

(** The host has no clock changes: its local time is UTC plus [tza]
    milliseconds throughout, the zone [fixedZone tza]. *)
Variable tza : Z.

Lemma time_fields_add_days (t k : Z) :
  HourFromTime (t + k * msPerDay) = HourFromTime t
  /\ MinFromTime (t + k * msPerDay) = MinFromTime t
  /\ SecFromTime (t + k * msPerDay) = SecFromTime t.
Proof.
  unfold HourFromTime, MinFromTime, SecFromTime, msPerHour, msPerMinute,
    msPerSecond, msPerDay.
  repeat split; zlia.
Qed.

(** X18: [getNextFriday] keeps the clock: the result has the [getTime] of
    the date it was given. *)
Theorem getTime_getNextFriday (t : Z) :
  validTime t -> (t + 7 * msPerDay <= maxTime)%Z ->
  getTime tza (getNextFriday tza #t) = getTime tza #t.
Proof.
  intros V H. rewrite (getNextFriday_value tza t V H).
  unfold getTime, getHours, getMinutes, getSeconds. cbn [bind].
  rewrite LocalTime_add_days.
  destruct (time_fields_add_days (LocalTime tza t)
              (daysToFriday (WeekDay (LocalTime tza t)))) as (-> & -> & ->).
  reflexivity.
Qed.

End TimeOfDay.

(** ** The functions on date strings *)

Section DateStrings.

Variable tz : TimeZone.
Variable Date_parse : string -> number.

(** X19: [getDayName] is the empty string exactly for the strings that do not
    parse to a valid date; for the others it is the name of the local
    weekday. *)
Theorem getDayName_empty_iff (date : string) :
  (getDayName tz Date_parse date = "" <-> newDateString Date_parse date = NaN)
  /\ (forall t : Z, newDateString Date_parse date = #t ->
        getDayName tz Date_parse date
        = nth (Z.to_nat (WeekDay (LocalTime tz t)))
              ["Sunday"; "Monday"; "Tuesday"; "Wednesday"; "Thursday"; "Friday";
               "Saturday"] "").
Proof.
  unfold getDayName. cbv zeta.
  destruct (newDateString Date_parse date) as [ t | ].
  - unfold getDay. cbn [bind].
    pose proof (weekdayOfDay_range (Day (LocalTime tz t))) as W.
    rewrite <- WeekDay_weekdayOfDay in W.
    assert (C : (WeekDay (LocalTime tz t) = 0 \/ WeekDay (LocalTime tz t) = 1
                 \/ WeekDay (LocalTime tz t) = 2 \/ WeekDay (LocalTime tz t) = 3
                 \/ WeekDay (LocalTime tz t) = 4 \/ WeekDay (LocalTime tz t) = 5
                 \/ WeekDay (LocalTime tz t) = 6)%Z) by lia.
    split.
    + decompose [or] C; clear C;
        match goal with H : WeekDay _ = _ |- _ => rewrite H end;
        split; discriminate.
    + intros t' [= <-].
      decompose [or] C; clear C;
        match goal with H : WeekDay _ = _ |- _ => rewrite H end; reflexivity.
  - split; [ split; reflexivity | discriminate ].
Qed.

(** X20: [isDateInPeriod] is true exactly when the three strings parse to
    valid dates and the date is not before the start and not after the end;
    if any of them does not parse it is false. *)
Theorem isDateInPeriod_true_iff (date periodStart periodEnd : string) :
  isDateInPeriod Date_parse date periodStart periodEnd = true
  <-> exists t a b : Z,
        newDateString Date_parse date = #t
        /\ newDateString Date_parse periodStart = #a
        /\ newDateString Date_parse periodEnd = #b
        /\ (a <= t <= b)%Z.
Proof.
  unfold isDateInPeriod. cbv zeta. unfold Date_getTime.
  destruct (newDateString Date_parse date) as [ t | ];
    destruct (newDateString Date_parse periodStart) as [ a | ];
    destruct (newDateString Date_parse periodEnd) as [ b | ];
    unfold num_ge, num_le, num_cmp; cbn [andb]; rewrite ?andb_false_r;
    try (split; [ discriminate | intros (? & ? & ? & ? & ? & ? & ?); discriminate ]).
  rewrite andb_true_iff, Z.geb_leb, !Z.leb_le. split.
  - intros [A B]. exists t, a, b. repeat split; (reflexivity || assumption).
  - intros (t' & a' & b' & [= <-] & [= <-] & [= <-] & A & B). split; assumption.
Qed.

(** X21: both ends of a period belong to it when its start is not after its
    end; a period whose end is before its start holds no date. *)
Theorem isDateInPeriod_endpoints (periodStart periodEnd : string) (a b : Z) :
  newDateString Date_parse periodStart = #a ->
  newDateString Date_parse periodEnd = #b ->
  isDateInPeriod Date_parse periodStart periodStart periodEnd = (a <=? b)%Z
  /\ isDateInPeriod Date_parse periodEnd periodStart periodEnd = (a <=? b)%Z
  /\ ((b < a)%Z ->
      forall date : string,
        isDateInPeriod Date_parse date periodStart periodEnd = false).
Proof.
  intros A B. unfold isDateInPeriod. cbv zeta. unfold Date_getTime.
  rewrite A, B. unfold num_ge, num_le, num_cmp.
  repeat split.
  - rewrite Z.geb_leb, Z.leb_refl. reflexivity.
  - rewrite Z.geb_leb, Z.leb_refl, andb_true_r. reflexivity.
  - intros L date. destruct (newDateString Date_parse date) as [ t | ];
      [ | reflexivity ].
    rewrite Z.geb_leb. apply andb_false_iff.
    destruct (Z.leb_spec a t); [ right; apply Z.leb_gt; lia | left; reflexivity ].
Qed.

(** X22: for two dates a whole number [n] of days apart the result of
    [getCountDaysOnPeriod] is [n + 1]: both ends are counted, and an end
    before the start is not refused (the day before the start gives 0).
    If either string does not parse, the result is NaN. *)
Theorem getCountDaysOnPeriod_whole_days (dateStart dateEnd : string) :
  (forall a n : Z,
     newDateString Date_parse dateStart = #a ->
     newDateString Date_parse dateEnd = #(a + n * msPerDay) ->
     exists q : Q,
       getCountDaysOnPeriod Date_parse dateStart dateEnd = Some q
       /\ (q == inject_Z (n + 1))%Q)
  /\ (newDateString Date_parse dateStart = NaN
      \/ newDateString Date_parse dateEnd = NaN ->
      getCountDaysOnPeriod Date_parse dateStart dateEnd = None).
Proof.
  unfold getCountDaysOnPeriod. split.
  - intros a n A B. rewrite A, B. num_unfold.
    eexists. split; [ reflexivity | ].
    replace (a + n * msPerDay - a)%Z with (n * 86400000)%Z
      by (rewrite msPerDay_eq; lia).
    unfold Qeq, Qdiv, Qmult, Qplus, Qinv, inject_Z. cbn. lia.
  - intros [A | A]; rewrite A;
      [ destruct (newDateString Date_parse dateEnd) | ]; reflexivity.
Qed.

(** X23: when the parser reads the epoch string as 0, [dateToTimestamp] is
    the time value of the date: NaN exactly for the strings that do not
    parse to a valid date. *)
Theorem dateToTimestamp_time_value (date : string) :
  Date_parse "01 Jan 1970 00:00:00 UTC" = #0 ->
  dateToTimestamp Date_parse date = Date_getTime (newDateString Date_parse date)
  /\ (dateToTimestamp Date_parse date = NaN
      <-> newDateString Date_parse date = NaN).
Proof.
  intros E. unfold dateToTimestamp.
  assert (Z0 : newDateString Date_parse "01 Jan 1970 00:00:00 UTC" = #0)
    by (unfold newDateString, newDate; rewrite E; reflexivity).
  rewrite Z0. unfold Date_getTime.
  destruct (newDateString Date_parse date) as [ t | ]; num_unfold.
  - rewrite Z.sub_0_r. split; [ reflexivity | split; discriminate ].
  - split; [ reflexivity | split; reflexivity ].
Qed.

End DateStrings.

#[local] Close Scope string_scope.

(** ** getNextFridayThe13th after getNextFriday *)

Section FridayThe13thMore.

Variable tz : TimeZone.

(** X24: when the offset of local time does not change in the 427 days that
    follow the date, [getNextFridayThe13th] returns the result of
    [getNextFriday] or a date a whole number [j] of weeks after it,
    [j <= 60]; it is the result of [getNextFriday] itself exactly when that
    is a 13th.  So the result is never more than 427 days after the date. *)
Theorem getNextFridayThe13th_weeks_after_friday (t : Z) :
  validTime t -> t + 427 * msPerDay <= maxTime ->
  (forall u : Z, t <= u <= t + 427 * msPerDay ->
                 LocalTZA tz u true = LocalTZA tz t true) ->
  exists (f r : Z) (j : nat),
    getNextFriday tz #t = #f
    /\ getNextFridayThe13th tz 61 #t = Some #r
    /\ r = f + 7 * Z.of_nat j * 86400000
    /\ (j <= 60)%nat
    /\ (j = O <-> getDate tz #f = #13)
    /\ t < r <= t + 427 * 86400000.
Proof.
  intros V R Ho.
  destruct (getNextFridayThe13th_zone_run tz t V R Ho) as (j & r & J & -> & S0 & Run & _).
  pose proof (weekdayOfDay_range (Day (LocalTime tz t))) as W.
  pose proof (daysToFriday_range _ W) as K.
  pose proof (stepsTo13_spec _ _ _ S0) as (_ & D13 & First).
  set (k := daysToFriday (weekdayOfDay (Day (LocalTime tz t)))) in *.
  exists (t + k * msPerDay), (t + (k + 7 * Z.of_nat j) * msPerDay), j.
  assert (L : LocalTime tz (t + k * msPerDay) = LocalTime tz t + k * msPerDay)
    by (unfold LocalTime; rewrite Ho by (rewrite msPerDay_eq in *; lia); lia).
  split.
  { rewrite getNextFriday_value by (exact V || rewrite msPerDay_eq in *; lia).
    rewrite WeekDay_weekdayOfDay. reflexivity. }
  split.
  { rewrite Run. destruct (Nat.leb_spec 61 j); [ lia | reflexivity ]. }
  split; [ rewrite msPerDay_eq; lia | ].
  split; [ exact J | ].
  split; [ | rewrite msPerDay_eq; lia ].
  unfold getDate. cbn [bind].
  rewrite DateFromTime_Day, L, Day_add_days.
  split.
  - intros ->. rewrite Z.mul_0_r, Z.add_0_r in D13. rewrite D13. reflexivity.
  - intros [= E]. destruct j as [ | j ]; [ reflexivity | ].
    exfalso. apply (First O ltac:(lia)).
    rewrite Z.mul_0_r, Z.add_0_r. exact E.
Qed.

End FridayThe13thMore.

(** ** Instances of the further properties *)

(** X1 at the epoch. *)
Lemma getQuarter_of_month_witness :
  getQuarter 0 #0 = MonthFromTime (LocalTime 0 0) / 3 + 1
  /\ 1 <= getQuarter 0 #0 <= 4.
Proof. exact (proj1 (getQuarter_of_month 0 #0) 0 eq_refl). Defined.

(** X2 at April 2023. *)
Lemma getCountDaysInMonth_table_witness :
  wholeNumber (getCountDaysInMonth 0 4 2023) #(daysOfMonth 4 2023)
  /\ 28 <= daysOfMonth 4 2023 <= 31.
Proof.
  apply (getCountDaysInMonth_table 0 ltac:(unfold msPerDay; lia)).
  - lia.
  - unfold faceValueYear. lia.
  - unfold representableYear. lia.
Defined.

(** X3 at February of the year 24. *)
Lemma getCountDaysInMonth_two_digit_year_witness :
  getCountDaysInMonth 0 2 24 = getCountDaysInMonth 0 2 (1900 + 24).
Proof. apply (getCountDaysInMonth_two_digit_year 0 ltac:(unfold msPerDay; lia)); lia. Defined.

(** X4 at January 275761. *)
Lemma getCountDaysInMonth_out_of_range_witness :
  getCountDaysInMonth 0 1 275761 = None.
Proof. apply (getCountDaysInMonth_out_of_range 0 ltac:(unfold msPerDay; lia)); lia. Defined.

(** X5 at the year 2024 and the date 1 March 2024. *)
Lemma getCountDaysInMonth_year_total_witness :
  wholeNumber
    (fold_left frac_add
       (map (fun month => getCountDaysInMonth 0 month 2024)
            [1; 2; 3; 4; 5; 6; 7; 8; 9; 10; 11; 12])
       (Some 0%Q))
    (if isLeapYear 0 #1709251200000 then #366 else #365).
Proof.
  apply (getCountDaysInMonth_year_total 0 ltac:(unfold msPerDay; lia)).
  - unfold faceValueYear. lia.
  - unfold representableYear. lia.
  - vm_compute. reflexivity.
Defined.

(** X6 at February 2023. *)
Lemma getCountWeekendsInMonth_bounds_witness :
  exists k : Z,
    getCountWeekendsInMonth 0 2 2023 = #k
    /\ 8 <= k <= 10
    /\ (wholeNumber (getCountDaysInMonth 0 2 2023) #28 -> k = 8).
Proof.
  apply (getCountWeekendsInMonth_bounds 0 ltac:(unfold msPerDay; lia)).
  - lia.
  - unfold representableYear. lia.
Defined.

(** X7 at Friday 16 February 2024, 00:00 UTC, in New York. *)
Lemma getNextFriday_twice_witness :
  getNextFriday America_New_York (getNextFriday America_New_York #1708041600000)
  = (getNextFriday America_New_York #1708041600000 + #(7 * 86400000)%Z)%num.
Proof.
  apply (getNextFriday_twice America_New_York 1708041600000
           ltac:(unfold validTime, maxTime; lia)).
  - unfold msPerDay, maxTime. lia.
  - intros r N. vm_compute in N. injection N as <-. vm_compute. reflexivity.
Defined.

(** X8 at the last valid date. *)
Lemma getNextFriday_end_of_range_witness :
  getNextFriday 0 #8640000000000000 = NaN
  /\ forall fuel : nat, getNextFridayThe13th 0 fuel #8640000000000000 = None.
Proof.
  apply (getNextFriday_end_of_range 0 8640000000000000).
  - unfold validTime, maxTime. lia.
  - unfold msPerDay, maxTime. lia.
Defined.

(** X9 at the epoch. *)
Lemma isLeapYear_calendar_witness :
  isLeapYear 0 #0 = (DaysInYear (YearFromTime (LocalTime 0 0)) =? 366).
Proof. exact (proj1 (isLeapYear_calendar 0 #0) 0 eq_refl). Defined.

#[local] Open Scope string_scope.

(** X10 at a start without a year. *)
Lemma getWorkSchedule_missing_fields_witness :
  getWorkSchedule 0 "01-2024" "15-01-2024" 1 3 = [].
Proof.
  apply (getWorkSchedule_missing_fields 0). left. cbn. lia.
Defined.

(** X11 at 2 January 2024 back to 1 January 2024. *)
Lemma getWorkSchedule_reversed_witness :
  getWorkSchedule 0 (dmyString 2 1 2024) (dmyString 1 1 2024) 1 1 = [].
Proof.
  apply (getWorkSchedule_reversed 0 ltac:(unfold msPerDay; lia));
    try lia; try (vm_compute; split; discriminate); vm_compute; reflexivity.
Defined.

(** X12 at 1 to 3 January 2024 without a pattern. *)
Lemma getWorkSchedule_degenerate_pattern_witness :
  getWorkSchedule 0 (dmyString 1 1 2024) (dmyString 3 1 2024) 0 0
  = if (0 <=? 0)%Z
    then map formatDayNumber
           (map (Z.add (civilDay 2024 1 1))
                (upto (civilDay 2024 1 3 - civilDay 2024 1 1 + 1)))
    else [].
Proof.
  apply (getWorkSchedule_degenerate_pattern 0 ltac:(unfold msPerDay; lia));
    try lia; vm_compute; split; discriminate.
Defined.

(** X13 at 29 February 2024. *)
Lemma getWorkSchedule_one_day_witness :
  getWorkSchedule 0 (dmyString 29 2 2024) (dmyString 29 2 2024) 2 5
  = [dmyString 29 2 2024].
Proof.
  apply (getWorkSchedule_one_day 0 ltac:(unfold msPerDay; lia));
    try lia; vm_compute; split; discriminate.
Defined.

(** X25 at the first example of the source. *)
Lemma getWorkSchedule_four_digit_years_witness :
  getWorkSchedule 0 (dmyString 1 1 2024) (dmyString 15 1 2024) 1 3
  = scheduleOfPeriod (civilDay 2024 1 1) (civilDay 2024 1 15) 1 3.
Proof.
  apply (getWorkSchedule_four_digit_years 0 ltac:(unfold msPerDay; lia));
    try lia; vm_compute; (discriminate || (split; discriminate)).
Defined.

#[local] Close Scope string_scope.

(** X14 at 3 January 2024. *)
Lemma getWeekNumberByDate_range_witness :
  exists n : Z, getWeekNumberByDate 0 #1704240000000 = #n /\ 1 <= n <= 53.
Proof.
  apply (getWeekNumberByDate_range 0 ltac:(unfold msPerDay; lia) 1704240000000 2024).
  - unfold validTime, maxTime. lia.
  - vm_compute. reflexivity.
  - unfold faceValueYear. lia.
  - unfold representableYear. lia.
Defined.

(** X15 at 23 February 2024, day number 19776. *)
Lemma getWeekNumberByDate_whole_days_witness :
  getWeekNumberByDate 0 #(19776 * msPerDay - 0)
  = #(if 19776 <=? codeWeekStart 2024 then 1
      else (19776 - codeWeekStart 2024) / 7 + 1).
Proof.
  apply (getWeekNumberByDate_whole_days 0 ltac:(unfold msPerDay; lia) 19776 2024).
  - unfold validTime, maxTime, msPerDay. lia.
  - vm_compute. reflexivity.
  - unfold faceValueYear. lia.
  - unfold representableYear. lia.
Defined.

(** X16 at 31 January 2024. *)
Lemma getWeekNumberByDate_next_week_witness :
  getWeekNumberByDate 0 #(1706659200000 + 7 * msPerDay)
  = (getWeekNumberByDate 0 #1706659200000 + #1)%num.
Proof.
  apply (getWeekNumberByDate_next_week 0 ltac:(unfold msPerDay; lia) 1706659200000 2024).
  - unfold validTime, maxTime. lia.
  - unfold validTime, maxTime, msPerDay. lia.
  - vm_compute. reflexivity.
  - vm_compute. reflexivity.
  - unfold faceValueYear. lia.
  - unfold representableYear. lia.
  - vm_compute. reflexivity.
Defined.


(** X18 at Friday 16 February 2024. *)
Lemma getTime_getNextFriday_witness :
  getTime 0 (getNextFriday 0 #1708041600000) = getTime 0 #1708041600000.
Proof.
  apply (getTime_getNextFriday 0 1708041600000 ltac:(unfold validTime, maxTime; lia)).
  unfold msPerDay, maxTime. lia.
Defined.

#[local] Open Scope string_scope.

(** X21 at the period of the examples of the source. *)
Lemma isDateInPeriod_endpoints_witness :
  isDateInPeriod parseDateString "2024-02-02" "2024-02-02" "2024-03-02"
  = (1706832000000 <=? 1709337600000)%Z
  /\ isDateInPeriod parseDateString "2024-03-02" "2024-02-02" "2024-03-02"
     = (1706832000000 <=? 1709337600000)%Z
  /\ ((1709337600000 < 1706832000000)%Z ->
      forall date : string,
        isDateInPeriod parseDateString date "2024-02-02" "2024-03-02" = false).
Proof.
  apply (isDateInPeriod_endpoints parseDateString); vm_compute; reflexivity.
Defined.

(** X22 at the second example of the source. *)
Lemma getCountDaysOnPeriod_whole_days_witness :
  exists q : Q,
    getCountDaysOnPeriod parseDateString "2024-02-01T00:00:00.000Z"
      "2024-02-12T00:00:00.000Z" = Some q
    /\ (q == inject_Z (11 + 1))%Q.
Proof.
  apply (proj1 (getCountDaysOnPeriod_whole_days parseDateString
                  "2024-02-01T00:00:00.000Z" "2024-02-12T00:00:00.000Z")
           1706745600000 11);
    vm_compute; reflexivity.
Defined.

(** X23 at the second example of the source. *)
Lemma dateToTimestamp_time_value_witness :
  dateToTimestamp parseDateString "04 Dec 1995 00:12:00 UTC"
  = Date_getTime (newDateString parseDateString "04 Dec 1995 00:12:00 UTC")
  /\ (dateToTimestamp parseDateString "04 Dec 1995 00:12:00 UTC" = NaN
      <-> newDateString parseDateString "04 Dec 1995 00:12:00 UTC" = NaN).
Proof.
  apply (dateToTimestamp_time_value parseDateString). vm_compute. reflexivity.
Defined.

(** The examples of the source for the functions on date strings and for
    [getTime]. *)
Example date_string_examples :
  dateToTimestamp parseDateString "01 Jan 1970 00:00:00 UTC" = #0
  /\ dateToTimestamp parseDateString "04 Dec 1995 00:12:00 UTC" = #818035920000
  /\ getDayName 0 parseDateString "01 Jan 1970 00:00:00 UTC" = "Thursday"
  /\ getDayName 0 parseDateString "03 Dec 1995 00:12:00 UTC" = "Sunday"
  /\ getDayName 0 parseDateString "2024-01-30T00:00:00.000Z" = "Tuesday"
  /\ isDateInPeriod parseDateString "2024-02-01" "2024-02-02" "2024-03-02" = false
  /\ isDateInPeriod parseDateString "2024-02-02" "2024-02-02" "2024-03-02" = true
  /\ isDateInPeriod parseDateString "2024-02-10" "2024-02-02" "2024-03-02" = true
  /\ getTime 0 (newDate #(MakeDate (MakeDay 2023 5 1) (MakeTime 8 20 55 0)))
     = "08:20:55"
  /\ getTime 0 (newDate #(MakeDate (MakeDay 2015 10 20) (MakeTime 23 15 1 0)))
     = "23:15:01".
Proof. repeat split; vm_compute; reflexivity. Qed.

#[local] Close Scope string_scope.

(** X24 at Saturday 13 January 2024. *)
Lemma getNextFridayThe13th_weeks_after_friday_witness :
  exists (f r : Z) (j : nat),
    getNextFriday 0 #1705104000000 = #f
    /\ getNextFridayThe13th 0 61 #1705104000000 = Some #r
    /\ r = f + 7 * Z.of_nat j * 86400000
    /\ (j <= 60)%nat
    /\ (j = O <-> getDate 0 #f = #13)
    /\ 1705104000000 < r <= 1705104000000 + 427 * 86400000.
Proof.
  apply (getNextFridayThe13th_weeks_after_friday 0 1705104000000).
  - unfold validTime, maxTime. lia.
  - unfold msPerDay, maxTime. lia.
  - intros u _. reflexivity.
Defined.
